(** * Seeding of the ops tables: SKU codes, catalog, fabric, orders

    A shallow embedding of [ops/models.py] and of the management command
    [ops/management/commands/seed_ops.py].

    Conventions of the embedding.
    - Text is [string] (one [ascii] per character): the Python string
      methods used by the code are given on ASCII text.
    - A stored amount is an integer number of hundredths ([Z]), the scale
      of every [DecimalField(decimal_places=2)] of the models; quantities
      are [Z].  The steps take the amounts of a fixture in hundredths
      too; the order builder is also given on amounts of any scale
      ([Decimal], module [Dec]), where each column rounds what it stores.
    - A table is the list of its rows, every row carrying its primary key;
      a new row takes the key after the largest one in its table.  The
      [created_at] and [updated_at] columns are left out.
    - The command threads the store through its steps and may raise: a
      step is a function [DB -> result (A * DB)]. *)

From Stdlib Require Import ZArith List String Ascii Bool Lia.
Import ListNotations.

Local Open Scope string_scope.

(** ** Python strings *)

Module PyStr.

Definition code (c : ascii) : nat := nat_of_ascii c.

Definition between (lo hi : nat) (c : ascii) : bool :=
  Nat.leb lo (code c) && Nat.leb (code c) hi.

Definition is_lower (c : ascii) : bool := between 97 122 c.
Definition is_upper (c : ascii) : bool := between 65 90 c.
Definition is_digit (c : ascii) : bool := between 48 57 c.
Definition is_alnum (c : ascii) : bool := is_lower c || is_upper c || is_digit c.

(** [str.isspace] on one ASCII character: TAB, LF, VT, FF, CR, the four
    separators FS, GS, RS, US, and the space. *)
Definition is_space (c : ascii) : bool :=
  between 9 13 c || between 28 31 c || Nat.eqb (code c) 32.

Definition upper_char (c : ascii) : ascii :=
  if is_lower c then ascii_of_nat (code c - 32) else c.

Definition lower_char (c : ascii) : ascii :=
  if is_upper c then ascii_of_nat (code c + 32) else c.

Fixpoint map_str (f : ascii -> ascii) (s : string) : string :=
  match s with
  | EmptyString => EmptyString
  | String c r => String (f c) (map_str f r)
  end.

Fixpoint filter_str (p : ascii -> bool) (s : string) : string :=
  match s with
  | EmptyString => EmptyString
  | String c r => if p c then String c (filter_str p r) else filter_str p r
  end.

Fixpoint forall_str (p : ascii -> bool) (s : string) : bool :=
  match s with
  | EmptyString => true
  | String c r => p c && forall_str p r
  end.

(** The text is ASCII. *)
Definition is_ascii (s : string) : bool :=
  forall_str (fun c => Nat.ltb (code c) 128) s.

(** [s.upper()] and [s.lower()] on ASCII text, where they map character by
    character and keep the length; on other text [str.upper()] can give a
    longer string. *)
Definition upper (s : string) : string := map_str upper_char s.
Definition lower (s : string) : string := map_str lower_char s.

(** [s.lstrip(chars)], [s.rstrip(chars)], [s.strip(chars)], the set of
    characters given as a predicate. *)
Fixpoint lstrip_by (p : ascii -> bool) (s : string) : string :=
  match s with
  | EmptyString => EmptyString
  | String c r => if p c then lstrip_by p r else s
  end.

Fixpoint rstrip_by (p : ascii -> bool) (s : string) : string :=
  match s with
  | EmptyString => EmptyString
  | String c r =>
      match rstrip_by p r with
      | EmptyString => if p c then EmptyString else String c EmptyString
      | r' => String c r'
      end
  end.

Definition strip_by (p : ascii -> bool) (s : string) : string :=
  rstrip_by p (lstrip_by p s).

(** [s.strip()]. *)
Definition strip (s : string) : string := strip_by is_space s.

(** [s.replace(c, "")] for a one-character [c]. *)
Definition remove_char (c : ascii) (s : string) : string :=
  filter_str (fun x => negb (Ascii.eqb x c)) s.

(** [s[:n]]. *)
Fixpoint take (n : nat) (s : string) : string :=
  match n, s with
  | O, _ => EmptyString
  | _, EmptyString => EmptyString
  | S k, String c r => String c (take k r)
  end.

(** [not s], the truth value Python gives a string. *)
Definition is_empty (s : string) : bool :=
  match s with EmptyString => true | _ => false end.

End PyStr.

(** ** [django.utils.text.slugify] *)

Module Slug.
Import PyStr.

Definition hyphen : ascii := "-"%char.
Definition underscore : ascii := "_"%char.

(** [\w] on ASCII text. *)
Definition is_word (c : ascii) : bool := is_alnum c || Ascii.eqb c underscore.

(** The class [[-\s]]. *)
Definition is_sep (c : ascii) : bool := Ascii.eqb c hyphen || is_space c.

(** [.encode("ascii", "ignore")]: characters outside ASCII are dropped. *)
Definition ascii_only (s : string) : string :=
  filter_str (fun c => Nat.ltb (code c) 128) s.

(** [re.sub(r"[^\w\s-]", "", s)]. *)
Definition keep_word_sep (s : string) : string :=
  filter_str (fun c => is_word c || is_sep c) s.

(** [re.sub(r"[-\s]+", "-", s)]: every maximal run of separators becomes
    one hyphen.  [in_run] tells that the previous character was one. *)
Fixpoint collapse (in_run : bool) (s : string) : string :=
  match s with
  | EmptyString => EmptyString
  | String c r =>
      if is_sep c
      then (if in_run then collapse true r else String hyphen (collapse true r))
      else String c (collapse false r)
  end.

Definition slugify (value : string) : string :=
  let value := ascii_only value in
  let value := keep_word_sep (lower value) in
  strip_by (fun c => Ascii.eqb c hyphen || Ascii.eqb c underscore)
           (collapse false value).

End Slug.

(** ** The two SKU code derivers *)

(** The rows a code is derived from; the other columns come below. *)
Record ProductSize := mkSize
  { size_id : Z; size_code : string; size_display_name : string }.

Record FabricType := mkFabric
  { fabric_id : Z; fabric_name : string; fabric_is_active : bool }.

Record PrintPattern := mkPrint
  { print_id : Z; print_name : string; print_is_active : bool }.

Definition sku_join (size_code fabric_code print_code : string) : string :=
  "BAG-" ++ size_code ++ "-" ++ fabric_code ++ "-" ++ print_code.

(** [build_sku_code] of [ops/models.py]. *)
Module Models.
Import PyStr.

Definition norm (name : string) : string :=
  remove_char Slug.hyphen (upper (Slug.slugify name)).

Definition build_sku_code (size : ProductSize) (fabric_type : FabricType)
    (print_pattern : option PrintPattern) : string :=
  let size_code := upper (size_code size) in
  let fabric_code := take 10 (norm (fabric_name fabric_type)) in
  let print_code :=
    match print_pattern with
    | None => "PLAIN"
    | Some p => take 12 (norm (print_name p))
    end in
  sku_join size_code fabric_code print_code.

End Models.

(** [build_sku_code] of [seed_ops.py], the one the command calls. *)
Module Seed.
Import PyStr.

Definition norm (name : string) : string :=
  remove_char " "%char (upper (strip name)).

Definition build_sku_code (size : ProductSize) (fabric : FabricType)
    (pattern : option PrintPattern) : string :=
  let size_code := upper (size_code size) in
  let fabric_code := take 10 (norm (fabric_name fabric)) in
  let print_code :=
    match pattern with
    | None => "PLAIN"
    | Some p => take 12 (norm (print_name p))
    end in
  sku_join size_code fabric_code print_code.

End Seed.

Local Open Scope Z_scope.

(** ** The models of [ops/models.py] that the command writes *)

(** Foreign keys hold the primary key of the row they point to; a nullable
    one is an [option]. *)
Record ProductSKU := mkSKU
  { sku_id : Z;
    sku_code : string;
    sku_size : Z;
    sku_fabric_type : Z;
    sku_print_pattern : option Z;
    sku_unit_price : Z;
    sku_is_active : bool }.

Record InventoryLocation := mkLocation
  { loc_id : Z; loc_name : string }.

Record InventoryBalance := mkBalance
  { bal_id : Z;
    bal_sku : Z;
    bal_location : Z;
    bal_qty_on_hand : Z;
    bal_reorder_level : Z }.

Record FabricMaterial := mkMaterial
  { mat_id : Z;
    mat_fabric_type : Z;
    mat_uom : string;
    mat_is_printed : bool;
    mat_print_pattern : option Z }.

(** [qty_on_hand] has three decimal places: the unit is a thousandth. *)
Record FabricInventory := mkFabricInventory
  { finv_id : Z;
    finv_fabric_material : Z;
    finv_location : Z;
    finv_qty_on_hand : Z }.

Record Customer := mkCustomer
  { cust_id : Z;
    cust_full_name : string;
    cust_phone : string;
    cust_email : string;
    cust_address : string }.

Record OrderStatus := mkStatus
  { status_id : Z;
    status_code : string;
    status_display_name : string;
    status_sort_order : Z }.

Record Order := mkOrder
  { order_id : Z;
    order_customer : Z;
    order_status : Z;
    order_date : string;
    order_notes : string;
    order_subtotal : Z;
    order_shipping_fee : Z;
    order_discount : Z;
    order_total : Z }.

Record OrderItem := mkItem
  { item_id : Z;
    item_order : Z;
    item_sku : Z;
    item_qty : Z;
    item_unit_price : Z;
    item_line_total : Z }.

Record ExpenseType := mkExpenseType
  { etype_id : Z; etype_name : string; etype_is_active : bool }.

Record Expense := mkExpense
  { expense_id : Z;
    expense_type : Z;
    expense_amount : Z;
    expense_currency : string;
    expense_date : string;
    expense_vendor : string;
    expense_notes : string }.

(** Every model has a primary key and a name (for the exceptions). *)
Class Model (R : Type) := { pk : R -> Z; model_name : string }.

#[export] Instance ProductSize_Model : Model ProductSize :=
  {| pk := size_id; model_name := "ProductSize" |}.
#[export] Instance FabricType_Model : Model FabricType :=
  {| pk := fabric_id; model_name := "FabricType" |}.
#[export] Instance PrintPattern_Model : Model PrintPattern :=
  {| pk := print_id; model_name := "PrintPattern" |}.
#[export] Instance ProductSKU_Model : Model ProductSKU :=
  {| pk := sku_id; model_name := "ProductSKU" |}.
#[export] Instance InventoryLocation_Model : Model InventoryLocation :=
  {| pk := loc_id; model_name := "InventoryLocation" |}.
#[export] Instance InventoryBalance_Model : Model InventoryBalance :=
  {| pk := bal_id; model_name := "InventoryBalance" |}.
#[export] Instance FabricMaterial_Model : Model FabricMaterial :=
  {| pk := mat_id; model_name := "FabricMaterial" |}.
#[export] Instance FabricInventory_Model : Model FabricInventory :=
  {| pk := finv_id; model_name := "FabricInventory" |}.
#[export] Instance Customer_Model : Model Customer :=
  {| pk := cust_id; model_name := "Customer" |}.
#[export] Instance OrderStatus_Model : Model OrderStatus :=
  {| pk := status_id; model_name := "OrderStatus" |}.
#[export] Instance Order_Model : Model Order :=
  {| pk := order_id; model_name := "Order" |}.
#[export] Instance OrderItem_Model : Model OrderItem :=
  {| pk := item_id; model_name := "OrderItem" |}.
#[export] Instance ExpenseType_Model : Model ExpenseType :=
  {| pk := etype_id; model_name := "ExpenseType" |}.
#[export] Instance Expense_Model : Model Expense :=
  {| pk := expense_id; model_name := "Expense" |}.

(** ** Exceptions and results *)

(** The exceptions of the ORM that the steps raise, and
    [decimal.InvalidOperation], raised when a stored amount of more than
    twelve digits is loaded. *)
Inductive error :=
| DoesNotExist (model : string)
| MultipleObjectsReturned (model : string)
| IntegrityError (constraint : string)
| InvalidOperation.

Inductive result (A : Type) :=
| Ok (a : A)
| Raise (e : error).
Arguments Ok {A} a.
Arguments Raise {A} e.

(** ** Manager methods, on the rows of one table *)

Section Manager.
Context {R : Type} `{Model R}.

(** The key an inserted row gets. *)
Definition next_pk (rows : list R) : Z :=
  1 + fold_right Z.max 0 (map pk rows).

(** [objects.get(...)]: exactly one row must match. *)
Definition get (p : R -> bool) (rows : list R) : result R :=
  match filter p rows with
  | [] => Raise (DoesNotExist model_name)
  | [r] => Ok r
  | _ :: _ :: _ => Raise (MultipleObjectsReturned model_name)
  end.

(** [.first()] of an unordered queryset: the row of least primary key. *)
Fixpoint least_pk (rows : list R) : option R :=
  match rows with
  | [] => None
  | r :: rest =>
      match least_pk rest with
      | Some m => if pk m <? pk r then Some m else Some r
      | None => Some r
      end
  end.

Definition first (p : R -> bool) (rows : list R) : option R :=
  least_pk (filter p rows).

(** [UPDATE ... WHERE id = pk r]. *)
Definition update_row (r : R) (rows : list R) : list R :=
  map (fun x => if pk x =? pk r then r else x) rows.

(** [INSERT]. *)
Definition insert_row (r : R) (rows : list R) : list R := rows ++ [r].

(** [.filter(...).delete()]. *)
Definition delete (p : R -> bool) (rows : list R) : list R :=
  filter (fun x => negb (p x)) rows.

(** [objects.get_or_create(key, defaults)]: [mk] builds the new row from
    its key.  The flag tells whether the row was created. *)
Definition get_or_create (p : R -> bool) (mk : Z -> R) (rows : list R)
  : result (R * bool * list R) :=
  match get p rows with
  | Ok r => Ok (r, false, rows)
  | Raise (DoesNotExist _) =>
      let r := mk (next_pk rows) in Ok (r, true, insert_row r rows)
  | Raise e => Raise e
  end.

(** [objects.update_or_create(key, defaults)]: [upd] writes the defaults
    on a row found. *)
Definition update_or_create (p : R -> bool) (upd : R -> R) (mk : Z -> R)
    (rows : list R) : result (R * list R) :=
  match get p rows with
  | Ok r => let r' := upd r in Ok (r', update_row r' rows)
  | Raise (DoesNotExist _) =>
      let r := mk (next_pk rows) in Ok (r, insert_row r rows)
  | Raise e => Raise e
  end.
End Manager.

(** ** The store *)

Record DB := mkDB
  { sizes : list ProductSize;
    fabrics : list FabricType;
    prints : list PrintPattern;
    skus : list ProductSKU;
    locations : list InventoryLocation;
    balances : list InventoryBalance;
    materials : list FabricMaterial;
    fabric_inventory : list FabricInventory;
    customers : list Customer;
    statuses : list OrderStatus;
    orders : list Order;
    items : list OrderItem;
    expense_types : list ExpenseType;
    expenses : list Expense }.

Definition empty_db : DB := mkDB [] [] [] [] [] [] [] [] [] [] [] [] [] [].

Definition set_sizes (l : list ProductSize) (d : DB) : DB :=
  mkDB l (fabrics d) (prints d) (skus d) (locations d) (balances d) (materials d)
       (fabric_inventory d) (customers d) (statuses d) (orders d) (items d)
       (expense_types d) (expenses d).
Definition set_fabrics (l : list FabricType) (d : DB) : DB :=
  mkDB (sizes d) l (prints d) (skus d) (locations d) (balances d) (materials d)
       (fabric_inventory d) (customers d) (statuses d) (orders d) (items d)
       (expense_types d) (expenses d).
Definition set_prints (l : list PrintPattern) (d : DB) : DB :=
  mkDB (sizes d) (fabrics d) l (skus d) (locations d) (balances d) (materials d)
       (fabric_inventory d) (customers d) (statuses d) (orders d) (items d)
       (expense_types d) (expenses d).
Definition set_skus (l : list ProductSKU) (d : DB) : DB :=
  mkDB (sizes d) (fabrics d) (prints d) l (locations d) (balances d) (materials d)
       (fabric_inventory d) (customers d) (statuses d) (orders d) (items d)
       (expense_types d) (expenses d).
Definition set_locations (l : list InventoryLocation) (d : DB) : DB :=
  mkDB (sizes d) (fabrics d) (prints d) (skus d) l (balances d) (materials d)
       (fabric_inventory d) (customers d) (statuses d) (orders d) (items d)
       (expense_types d) (expenses d).
Definition set_balances (l : list InventoryBalance) (d : DB) : DB :=
  mkDB (sizes d) (fabrics d) (prints d) (skus d) (locations d) l (materials d)
       (fabric_inventory d) (customers d) (statuses d) (orders d) (items d)
       (expense_types d) (expenses d).
Definition set_materials (l : list FabricMaterial) (d : DB) : DB :=
  mkDB (sizes d) (fabrics d) (prints d) (skus d) (locations d) (balances d) l
       (fabric_inventory d) (customers d) (statuses d) (orders d) (items d)
       (expense_types d) (expenses d).
Definition set_fabric_inventory (l : list FabricInventory) (d : DB) : DB :=
  mkDB (sizes d) (fabrics d) (prints d) (skus d) (locations d) (balances d)
       (materials d) l (customers d) (statuses d) (orders d) (items d)
       (expense_types d) (expenses d).
Definition set_customers (l : list Customer) (d : DB) : DB :=
  mkDB (sizes d) (fabrics d) (prints d) (skus d) (locations d) (balances d)
       (materials d) (fabric_inventory d) l (statuses d) (orders d) (items d)
       (expense_types d) (expenses d).
Definition set_statuses (l : list OrderStatus) (d : DB) : DB :=
  mkDB (sizes d) (fabrics d) (prints d) (skus d) (locations d) (balances d)
       (materials d) (fabric_inventory d) (customers d) l (orders d) (items d)
       (expense_types d) (expenses d).
Definition set_orders (l : list Order) (d : DB) : DB :=
  mkDB (sizes d) (fabrics d) (prints d) (skus d) (locations d) (balances d)
       (materials d) (fabric_inventory d) (customers d) (statuses d) l (items d)
       (expense_types d) (expenses d).
Definition set_items (l : list OrderItem) (d : DB) : DB :=
  mkDB (sizes d) (fabrics d) (prints d) (skus d) (locations d) (balances d)
       (materials d) (fabric_inventory d) (customers d) (statuses d) (orders d) l
       (expense_types d) (expenses d).
Definition set_expense_types (l : list ExpenseType) (d : DB) : DB :=
  mkDB (sizes d) (fabrics d) (prints d) (skus d) (locations d) (balances d)
       (materials d) (fabric_inventory d) (customers d) (statuses d) (orders d)
       (items d) l (expenses d).
Definition set_expenses (l : list Expense) (d : DB) : DB :=
  mkDB (sizes d) (fabrics d) (prints d) (skus d) (locations d) (balances d)
       (materials d) (fabric_inventory d) (customers d) (statuses d) (orders d)
       (items d) (expense_types d) l.

(** ** Code that reads and writes the store, and may raise *)

Definition M (A : Type) : Type := DB -> result (A * DB).

Definition ret {A} (a : A) : M A := fun d => Ok (a, d).

Definition bind {A B} (m : M A) (k : A -> M B) : M B :=
  fun d => match m d with
           | Ok (a, d') => k a d'
           | Raise e => Raise e
           end.

Definition raise {A} (e : error) : M A := fun _ => Raise e.

Notation "x <- m ;; k" := (bind m (fun x => k))
  (at level 61, m at next level, right associativity).
Notation "m ;;; k" := (bind m (fun _ => k))
  (at level 61, right associativity).

(** A query that only reads table [tbl]. *)
Definition query {A T} (tbl : DB -> list T) (q : list T -> result A) : M A :=
  fun d => match q (tbl d) with
           | Ok a => Ok (a, d)
           | Raise e => Raise e
           end.

(** A statement that rewrites table [tbl]. *)
Definition statement {A T} (tbl : DB -> list T) (set : list T -> DB -> DB)
    (q : list T -> result (A * list T)) : M A :=
  fun d => match q (tbl d) with
           | Ok (a, rows) => Ok (a, set rows d)
           | Raise e => Raise e
           end.

(** [for x in xs: body(x)]. *)
Fixpoint for_each {A} (xs : list A) (body : A -> M unit) : M unit :=
  match xs with
  | [] => ret tt
  | x :: rest => body x ;;; for_each rest body
  end.

(** [x.get(key, default)] on a fixture record. *)
Definition get_default {A} (o : option A) (default : A) : A :=
  match o with Some a => a | None => default end.

(** ** The fixture

    The JSON document, decoded: a key that may be absent is an [option],
    a scalar is given as the value the code converts it to ([Decimal(str(..))]
    in hundredths or thousandths, [int(..)], [bool(..)]). *)

Record SizeRow := mkSizeRow
  { szr_code : string; szr_display_name : option string }.

Record FlagRow := mkFlagRow
  { fr_name : string; fr_is_active : option bool }.

Record StatusRow := mkStatusRow
  { str_code : string;
    str_display_name : option string;
    str_sort_order : option Z }.

Record CustomerRow := mkCustomerRow
  { cr_full_name : string;
    cr_phone : option string;
    cr_email : option string;
    cr_address : option string }.

(** [skr_unit_price] is [None] when the key is absent or null. *)
Record SkuRow := mkSkuRow
  { skr_size_code : string;
    skr_fabric_type : string;
    skr_print_pattern : option string;
    skr_unit_price : option Z;
    skr_is_active : option bool }.

Record BalanceRow := mkBalanceRow
  { br_size_code : string;
    br_fabric_type : string;
    br_print_pattern : option string;
    br_location : string;
    br_qty_on_hand : option Z;
    br_reorder_level : option Z }.

Record MaterialRow := mkMaterialRow
  { mr_fabric_type : string;
    mr_print_pattern : option string;
    mr_uom : option string;
    mr_is_printed : option bool }.

Record FabricInventoryRow := mkFabricInventoryRow
  { fir_fabric_type : string;
    fir_print_pattern : option string;
    fir_uom : option string;
    fir_is_printed : option bool;
    fir_location : string;
    fir_qty_on_hand : option Z }.

Record ItemRow := mkItemRow
  { ir_size_code : string;
    ir_fabric_type : string;
    ir_print_pattern : option string;
    ir_qty : Z;
    ir_unit_price : option Z }.

Record OrderRow := mkOrderRow
  { or_customer : string;
    or_status : string;
    or_order_date : string;
    or_notes : option string;
    or_shipping_fee : option Z;
    or_discount : option Z;
    or_items : list ItemRow }.

Record ExpenseRow := mkExpenseRow
  { er_expense_type : string;
    er_amount : Z;
    er_expense_date : string;
    er_currency : option string;
    er_vendor : option string;
    er_notes : option string }.

(** [data.get(key, [])] for each of the thirteen keys. *)
Record Data := mkData
  { product_sizes : list SizeRow;
    fabric_types : list FlagRow;
    print_patterns : list FlagRow;
    inventory_locations : list string;
    order_statuses : list StatusRow;
    data_customers : list CustomerRow;
    data_expense_types : list string;
    product_skus : list SkuRow;
    inventory_balances : list BalanceRow;
    fabric_materials : list MaterialRow;
    data_fabric_inventory : list FabricInventoryRow;
    data_orders : list OrderRow;
    data_expenses : list ExpenseRow }.

Definition empty_data : Data := mkData [] [] [] [] [] [] [] [] [] [] [] [] [].

(** ** [ProductSKU.save] *)

Definition option_Z_eqb (a b : option Z) : bool :=
  match a, b with
  | Some x, Some y => x =? y
  | None, None => true
  | _, _ => false
  end.

Definition by_pk {R} `{Model R} (i : Z) (r : R) : bool := pk r =? i.

Inductive sku_field := F_sku_code | F_unit_price | F_is_active.

Definition sku_field_eqb (a b : sku_field) : bool :=
  match a, b with
  | F_sku_code, F_sku_code => true
  | F_unit_price, F_unit_price => true
  | F_is_active, F_is_active => true
  | _, _ => false
  end.

Definition listed (f : sku_field) (fields : list sku_field) : bool :=
  existsb (sku_field_eqb f) fields.

Definition with_sku_code (c : string) (s : ProductSKU) : ProductSKU :=
  mkSKU (sku_id s) c (sku_size s) (sku_fabric_type s) (sku_print_pattern s)
        (sku_unit_price s) (sku_is_active s).

Definition with_price (price : Z) (active : bool) (s : ProductSKU) : ProductSKU :=
  mkSKU (sku_id s) (sku_code s) (sku_size s) (sku_fabric_type s)
        (sku_print_pattern s) price active.

(** What an [UPDATE] of the listed columns makes of a stored row. *)
Definition sku_write (fields : list sku_field) (self row : ProductSKU) : ProductSKU :=
  mkSKU (sku_id row)
        (if listed F_sku_code fields then sku_code self else sku_code row)
        (sku_size row) (sku_fabric_type row) (sku_print_pattern row)
        (if listed F_unit_price fields then sku_unit_price self else sku_unit_price row)
        (if listed F_is_active fields then sku_is_active self else sku_is_active row).

(** [sku_code] is [unique=True]. *)
Definition code_taken (self : ProductSKU) (rows : list ProductSKU) : bool :=
  existsb (fun x => negb (pk x =? pk self) && String.eqb (sku_code x) (sku_code self))
          rows.

(** [Model.save]: an insert when [update_fields] is not given (the row is
    new), an update of the listed columns otherwise. *)
Definition sku_base_save (self : ProductSKU) (update_fields : option (list sku_field))
    (rows : list ProductSKU) : result (unit * list ProductSKU) :=
  match update_fields with
  | None =>
      if code_taken self rows then Raise (IntegrityError "sku_code")
      else Ok (tt, insert_row self rows)
  | Some fields =>
      if listed F_sku_code fields && code_taken self rows
      then Raise (IntegrityError "sku_code")
      else Ok (tt, map (fun x => if pk x =? pk self then sku_write fields self x else x)
                       rows)
  end.

Definition related_print (i : option Z) : M (option PrintPattern) :=
  match i with
  | None => ret None
  | Some i => p <- query prints (get (by_pk i)) ;; ret (Some p)
  end.

(** The method returns nothing; the object it leaves behind is returned. *)
Definition ProductSKU_save (self : ProductSKU) (update_fields : option (list sku_field))
    : M ProductSKU :=
  self <- (if PyStr.is_empty (sku_code self)
           then size <- query sizes (get (by_pk (sku_size self))) ;;
                fabric_type <- query fabrics (get (by_pk (sku_fabric_type self))) ;;
                print_pattern <- related_print (sku_print_pattern self) ;;
                ret (with_sku_code
                       (Models.build_sku_code size fabric_type print_pattern) self)
           else ret self) ;;
  statement skus set_skus (sku_base_save self update_fields) ;;;
  ret self.

(** ** The command: helpers *)

Definition _get_size (code : string) : M ProductSize :=
  query sizes (get (fun s => String.eqb (size_code s) code)).

Definition _get_fabric (name : string) : M FabricType :=
  query fabrics (get (fun f => String.eqb (fabric_name f) name)).

Definition _get_print (name : option string) : M (option PrintPattern) :=
  match name with
  | None => ret None
  | Some name =>
      p <- query prints (get (fun p => String.eqb (print_name p) name)) ;;
      ret (Some p)
  end.

Definition _get_location (name : string) : M InventoryLocation :=
  query locations (get (fun l => String.eqb (loc_name l) name)).

Definition sku_matches (size : ProductSize) (fabric : FabricType)
    (pattern : option PrintPattern) (s : ProductSKU) : bool :=
  (sku_size s =? pk size) && (sku_fabric_type s =? pk fabric)
  && option_Z_eqb (sku_print_pattern s) (option_map pk pattern).

(** [ProductSKU.objects.get_or_create(size=, fabric_type=, print_pattern=,
    defaults=)]; the insert goes through [ProductSKU.save]. *)
Definition ProductSKU_get_or_create (size : ProductSize) (fabric : FabricType)
    (pattern : option PrintPattern) (d_code : string) (d_price : Z) (d_active : bool)
    : M (ProductSKU * bool) :=
  fun d =>
    match get (sku_matches size fabric pattern) (skus d) with
    | Ok sku => Ok ((sku, false), d)
    | Raise (DoesNotExist _) =>
        let obj := mkSKU (next_pk (skus d)) d_code (pk size) (pk fabric)
                         (option_map pk pattern) d_price d_active in
        (sku <- ProductSKU_save obj None ;; ret (sku, true)) d
    | Raise e => Raise e
    end.

Definition _get_sku (size_code fabric_name : string) (print_name : option string)
    : M ProductSKU :=
  size <- _get_size size_code ;;
  fabric <- _get_fabric fabric_name ;;
  pattern <- _get_print print_name ;;
  sc <- ProductSKU_get_or_create size fabric pattern
          (Seed.build_sku_code size fabric pattern) 0 true ;;
  let sku := fst sc in
  if PyStr.is_empty (sku_code sku)
  then ProductSKU_save (with_sku_code (Seed.build_sku_code size fabric pattern) sku)
                       (Some [F_sku_code])
  else ret sku.

(** ** The command: seed steps *)

Definition seed_size (row : SizeRow) : M unit :=
  let display := get_default (szr_display_name row) (szr_code row) in
  statement sizes set_sizes
    (update_or_create (fun s => String.eqb (size_code s) (szr_code row))
       (fun s => mkSize (size_id s) (size_code s) display)
       (fun i => mkSize i (szr_code row) display)) ;;;
  ret tt.

Definition seed_fabric_type (row : FlagRow) : M unit :=
  let active := get_default (fr_is_active row) true in
  statement fabrics set_fabrics
    (update_or_create (fun f => String.eqb (fabric_name f) (fr_name row))
       (fun f => mkFabric (fabric_id f) (fabric_name f) active)
       (fun i => mkFabric i (fr_name row) active)) ;;;
  ret tt.

Definition seed_print_pattern (row : FlagRow) : M unit :=
  let active := get_default (fr_is_active row) true in
  statement prints set_prints
    (update_or_create (fun p => String.eqb (print_name p) (fr_name row))
       (fun p => mkPrint (print_id p) (print_name p) active)
       (fun i => mkPrint i (fr_name row) active)) ;;;
  ret tt.

Definition seed_location (name : string) : M unit :=
  statement locations set_locations
    (update_or_create (fun l => String.eqb (loc_name l) name)
       (fun l => l)
       (fun i => mkLocation i name)) ;;;
  ret tt.

Definition seed_status (row : StatusRow) : M unit :=
  let display := get_default (str_display_name row) (str_code row) in
  let sort := get_default (str_sort_order row) 0 in
  statement statuses set_statuses
    (update_or_create (fun s => String.eqb (status_code s) (str_code row))
       (fun s => mkStatus (status_id s) (status_code s) display sort)
       (fun i => mkStatus i (str_code row) display sort)) ;;;
  ret tt.

Definition seed_customer (row : CustomerRow) : M unit :=
  let phone := get_default (cr_phone row) "" in
  let email := get_default (cr_email row) "" in
  let address := get_default (cr_address row) "" in
  statement customers set_customers
    (update_or_create (fun c => String.eqb (cust_full_name c) (cr_full_name row))
       (fun c => mkCustomer (cust_id c) (cust_full_name c) phone email address)
       (fun i => mkCustomer i (cr_full_name row) phone email address)) ;;;
  ret tt.

Definition seed_expense_type (name : string) : M unit :=
  statement expense_types set_expense_types
    (update_or_create (fun t => String.eqb (etype_name t) name)
       (fun t => mkExpenseType (etype_id t) (etype_name t) true)
       (fun i => mkExpenseType i name true)) ;;;
  ret tt.

Definition _seed_reference (data : Data) : M unit :=
  for_each (product_sizes data) seed_size ;;;
  for_each (fabric_types data) seed_fabric_type ;;;
  for_each (print_patterns data) seed_print_pattern ;;;
  for_each (inventory_locations data) seed_location ;;;
  for_each (order_statuses data) seed_status ;;;
  for_each (data_customers data) seed_customer ;;;
  for_each (data_expense_types data) seed_expense_type.

(** One round of the first loop of [_seed_skus_and_inventory]. *)
Definition seed_sku (row : SkuRow) : M unit :=
  sku <- _get_sku (skr_size_code row) (skr_fabric_type row) (skr_print_pattern row) ;;
  match skr_unit_price row with
  | Some price =>
      ProductSKU_save (with_price price (get_default (skr_is_active row) true) sku)
                      (Some [F_unit_price; F_is_active]) ;;;
      ret tt
  | None => ret tt
  end.

(** One round of its second loop. *)
Definition seed_balance (row : BalanceRow) : M unit :=
  sku <- _get_sku (br_size_code row) (br_fabric_type row) (br_print_pattern row) ;;
  loc <- _get_location (br_location row) ;;
  let qty := get_default (br_qty_on_hand row) 0 in
  let level := get_default (br_reorder_level row) 0 in
  statement balances set_balances
    (update_or_create
       (fun b => (bal_sku b =? pk sku) && (bal_location b =? pk loc))
       (fun b => mkBalance (bal_id b) (bal_sku b) (bal_location b) qty level)
       (fun i => mkBalance i (pk sku) (pk loc) qty level)) ;;;
  ret tt.

Definition _seed_skus_and_inventory (data : Data) : M unit :=
  for_each (product_skus data) seed_sku ;;;
  for_each (inventory_balances data) seed_balance.

Definition material_matches (fabric : FabricType) (uom : string) (printed : bool)
    (pattern : option PrintPattern) (m : FabricMaterial) : bool :=
  (mat_fabric_type m =? pk fabric) && String.eqb (mat_uom m) uom
  && Bool.eqb (mat_is_printed m) printed
  && option_Z_eqb (mat_print_pattern m) (option_map pk pattern).

(** [pattern if bool(row.get("is_printed", False)) else None]. *)
Definition pattern_if (printed : bool) (pattern : option PrintPattern)
    : option PrintPattern :=
  if printed then pattern else None.

(** One round of the first loop of [_seed_fabrics]. *)
Definition seed_material (row : MaterialRow) : M unit :=
  fabric <- _get_fabric (mr_fabric_type row) ;;
  pattern <- _get_print (mr_print_pattern row) ;;
  let uom := get_default (mr_uom row) "meter" in
  let printed := get_default (mr_is_printed row) false in
  let pattern := pattern_if printed pattern in
  statement materials set_materials
    (update_or_create (material_matches fabric uom printed pattern)
       (fun m => m)
       (fun i => mkMaterial i (pk fabric) uom printed (option_map pk pattern))) ;;;
  ret tt.

(** One round of its second loop. *)
Definition seed_fabric_inventory (row : FabricInventoryRow) : M unit :=
  fabric <- _get_fabric (fir_fabric_type row) ;;
  pattern <- _get_print (fir_print_pattern row) ;;
  let uom := get_default (fir_uom row) "meter" in
  let printed := get_default (fir_is_printed row) false in
  let pattern := pattern_if printed pattern in
  mc <- statement materials set_materials
          (fun rows =>
             match get_or_create (material_matches fabric uom printed pattern)
                     (fun i => mkMaterial i (pk fabric) uom printed
                                          (option_map pk pattern)) rows with
             | Ok (m, created, rows') => Ok ((m, created), rows')
             | Raise e => Raise e
             end) ;;
  let mat := fst mc in
  loc <- _get_location (fir_location row) ;;
  let qty := get_default (fir_qty_on_hand row) 0 in
  statement fabric_inventory set_fabric_inventory
    (update_or_create
       (fun b => (finv_fabric_material b =? pk mat) && (finv_location b =? pk loc))
       (fun b => mkFabricInventory (finv_id b) (finv_fabric_material b)
                                   (finv_location b) qty)
       (fun i => mkFabricInventory i (pk mat) (pk loc) qty)) ;;;
  ret tt.

Definition _seed_fabrics (data : Data) : M unit :=
  for_each (fabric_materials data) seed_material ;;;
  for_each (data_fabric_inventory data) seed_fabric_inventory.

(** The identity an order is looked up by. *)
Definition order_matches (customer : Customer) (date notes : string) (o : Order) : bool :=
  (order_customer o =? pk customer) && String.eqb (order_date o) date
  && String.eqb (order_notes o) notes.

(** [Order.objects.create(...)]: subtotal and total take their default.
    The fee and the discount are whole hundredths here; [Dec.Order_create]
    takes them at any scale. *)
Definition Order_create (customer : Customer) (status : OrderStatus)
    (date notes : string) (shipping_fee discount : Z) : M Order :=
  statement orders set_orders
    (fun rows =>
       let o := mkOrder (next_pk rows) (pk customer) (pk status) date notes
                        0 shipping_fee discount 0 in
       Ok (o, insert_row o rows)).

(** [OrderItem.objects.create(...)] on amounts of whole hundredths, which
    the two columns keep as they are; [Dec.OrderItem_create] takes amounts
    of any scale and rounds each. *)
Definition OrderItem_create (order : Order) (sku : ProductSKU)
    (qty unit_price line_total : Z) : M OrderItem :=
  statement items set_items
    (fun rows =>
       let i := mkItem (next_pk rows) (pk order) (pk sku) qty unit_price line_total in
       Ok (i, insert_row i rows)).

(** [order.items.all().delete()]. *)
Definition delete_items (order : Order) : M unit :=
  statement items set_items
    (fun rows => Ok (tt, delete (fun i => item_order i =? pk order) rows)).

(** [order.save(update_fields=["subtotal", "total", "shipping_fee", "discount"])]. *)
Definition order_write (self row : Order) : Order :=
  mkOrder (order_id row) (order_customer row) (order_status row) (order_date row)
          (order_notes row) (order_subtotal self) (order_shipping_fee self)
          (order_discount self) (order_total self).

Definition Order_save_totals (self : Order) : M unit :=
  statement orders set_orders
    (fun rows =>
       Ok (tt, map (fun x => if pk x =? pk self then order_write self x else x) rows)).

Definition with_totals (subtotal total : Z) (o : Order) : Order :=
  mkOrder (order_id o) (order_customer o) (order_status o) (order_date o)
          (order_notes o) subtotal (order_shipping_fee o) (order_discount o) total.

(** The loop over the items of one order; [subtotal] is the running sum.
    The prices are whole hundredths, so that the products and the sum are
    too; [Dec.seed_items] is the loop on prices of any scale. *)
Fixpoint seed_items (order : Order) (rows : list ItemRow) (subtotal : Z) : M Z :=
  match rows with
  | [] => ret subtotal
  | item :: rest =>
      sku <- _get_sku (ir_size_code item) (ir_fabric_type item)
                      (ir_print_pattern item) ;;
      let qty := ir_qty item in
      let unit_price := get_default (ir_unit_price item) (sku_unit_price sku) in
      let line_total := unit_price * qty in
      OrderItem_create order sku qty unit_price line_total ;;;
      seed_items order rest (subtotal + line_total)
  end.

(** One round of the loop of [_seed_orders]; the order built is returned.
    The amounts of the row are whole hundredths and the order loaded is
    one whose amounts can be read; [Dec.seed_order] is the round on
    amounts of any scale, where the load of the order can raise. *)
Definition seed_order (row : OrderRow) : M Order :=
  customer <- query customers
                (get (fun c => String.eqb (cust_full_name c) (or_customer row))) ;;
  status <- query statuses
              (get (fun s => String.eqb (status_code s) (or_status row))) ;;
  let notes := get_default (or_notes row) "" in
  existing <- query orders
                (fun rows => Ok (first (order_matches customer (or_order_date row) notes)
                                       rows)) ;;
  order <- match existing with
           | Some o => ret o
           | None => Order_create customer status (or_order_date row) notes
                       (get_default (or_shipping_fee row) 0)
                       (get_default (or_discount row) 0)
           end ;;
  delete_items order ;;;
  subtotal <- seed_items order (or_items row) 0 ;;
  let order := with_totals subtotal
                 (subtotal + order_shipping_fee order - order_discount order) order in
  Order_save_totals order ;;;
  ret order.

Definition _seed_orders (data : Data) : M unit :=
  for_each (data_orders data) (fun row => seed_order row ;;; ret tt).

Definition seed_expense (row : ExpenseRow) : M unit :=
  et <- query expense_types
          (get (fun t => String.eqb (etype_name t) (er_expense_type row))) ;;
  let currency := get_default (er_currency row) "EGP" in
  let vendor := get_default (er_vendor row) "" in
  let notes := get_default (er_notes row) "" in
  statement expenses set_expenses
    (update_or_create
       (fun e => (expense_type e =? pk et) && (expense_amount e =? er_amount row)
                 && String.eqb (expense_date e) (er_expense_date row))
       (fun e => mkExpense (expense_id e) (expense_type e) (expense_amount e)
                           currency (expense_date e) vendor notes)
       (fun i => mkExpense i (pk et) (er_amount row) currency
                           (er_expense_date row) vendor notes)) ;;;
  ret tt.

Definition _seed_expenses (data : Data) : M unit :=
  for_each (data_expenses data) seed_expense.

(** ** The command: [handle] *)

(** [with transaction.atomic(): body]: the writes of [body] are kept when it
    returns and undone when it raises; the exception goes on to the caller. *)
Definition atomic {A} (body : M A) (d : DB) : result A * DB :=
  match body d with
  | Ok (a, d') => (Ok a, d')
  | Raise e => (Raise e, d)
  end.

Definition seed_steps (data : Data) : M unit :=
  _seed_reference data ;;;
  _seed_skus_and_inventory data ;;;
  _seed_fabrics data ;;;
  _seed_orders data ;;;
  _seed_expenses data.

(** The outcome of the run and the store it leaves. *)
Definition handle (data : Data) (d : DB) : result unit * DB :=
  atomic (seed_steps data) d.

(** ** Amounts of any scale: the order builder on [Decimal] values

    The steps above take the amounts of a fixture in whole hundredths.
    An order record may give an amount with more decimal places:
    [Decimal(str(...))] keeps them, the builder computes on the values as
    given, and each [DecimalField(max_digits=12, decimal_places=2)] column
    keeps its own value rounded to two places, a tie going to the even
    digit.  The number of digits is not checked when a row is written: a
    stored value of more than twelve digits makes the load of its row
    raise [decimal.InvalidOperation], as with the SQLite backend.  This
    part gives the builder on such amounts; what is stored stays a number
    of hundredths.  Sums and products are exact, the amounts being taken
    to stay within the 28 digits of the decimal context. *)

(** The number [dec_units * 10^-(2 + dec_extra)]: a [Decimal] as the number
    it denotes, with [dec_extra] decimal places beyond the second. *)
Record Decimal := mkDecimal { dec_units : Z; dec_extra : nat }.

Definition pow10 (n : nat) : Z := 10 ^ Z.of_nat n.

(** The units of [d] at [n] extra places, [n] not below its own. *)
Definition rescale (d : Decimal) (n : nat) : Z :=
  dec_units d * pow10 (n - dec_extra d).

(** [a + b], [a - b] and [a * k] for an [int] [k]: the result has the
    decimal places of the operand that has more. *)
Definition dec_add (a b : Decimal) : Decimal :=
  let n := Nat.max (dec_extra a) (dec_extra b) in
  mkDecimal (rescale a n + rescale b n) n.

Definition dec_sub (a b : Decimal) : Decimal :=
  let n := Nat.max (dec_extra a) (dec_extra b) in
  mkDecimal (rescale a n - rescale b n) n.

Definition dec_mul_int (a : Decimal) (k : Z) : Decimal :=
  mkDecimal (dec_units a * k) (dec_extra a).

(** The value of a two-place column, read back. *)
Definition of_hundredths (h : Z) : Decimal := mkDecimal h 0.

(** [z / m] rounded to the nearest integer, a tie going to the even one
    ([ROUND_HALF_EVEN], the rounding of the default context). *)
Definition round_half_even (z m : Z) : Z :=
  let q := z / m in
  let r := z mod m in
  if 2 * r <? m then q
  else if m <? 2 * r then q + 1
  else if Z.even q then q else q + 1.

(** What a two-place column keeps of a value: [quantize] to hundredths. *)
Definition quantize2 (d : Decimal) : Z :=
  round_half_even (dec_units d) (pow10 (dec_extra d)).

(** A stored value has at most [max_digits=12] digits. *)
Definition fits12 (h : Z) : bool := Z.abs h <? 10 ^ 12.

(** The value has no digit beyond the second decimal place. *)
Definition exact2 (d : Decimal) : Prop :=
  dec_units d mod pow10 (dec_extra d) = 0.

Module Dec.

Record ItemRow := mkItemRow
  { ir_size_code : string;
    ir_fabric_type : string;
    ir_print_pattern : option string;
    ir_qty : Z;
    ir_unit_price : option Decimal }.

Record OrderRow := mkOrderRow
  { or_customer : string;
    or_status : string;
    or_order_date : string;
    or_notes : option string;
    or_shipping_fee : option Decimal;
    or_discount : option Decimal;
    or_items : list ItemRow }.

(** The order object the builder works on: its key and its four amounts,
    as the object has them in memory. *)
Record OrderObj := mkOrderObj
  { obj_id : Z;
    obj_subtotal : Decimal;
    obj_shipping_fee : Decimal;
    obj_discount : Decimal;
    obj_total : Decimal }.

(** The four amounts of a stored order can be read. *)
Definition order_fits (o : Order) : bool :=
  fits12 (order_subtotal o) && fits12 (order_shipping_fee o)
  && fits12 (order_discount o) && fits12 (order_total o).

(** Loading a stored order: each amount goes through the converter of its
    column, which raises on a value of more than twelve digits. *)
Definition read_order (o : Order) : M OrderObj :=
  if order_fits o
  then ret (mkOrderObj (pk o) (of_hundredths (order_subtotal o))
                       (of_hundredths (order_shipping_fee o))
                       (of_hundredths (order_discount o))
                       (of_hundredths (order_total o)))
  else raise InvalidOperation.

(** [_get_sku]: the price of the SKU that [get_or_create] loads goes
    through the converter of its column, which raises on a value of more
    than twelve digits; a SKU it creates has the price 0.00. *)
Definition _get_sku (size_code fabric_name : string) (print_name : option string)
    : M ProductSKU :=
  size <- _get_size size_code ;;
  fabric <- _get_fabric fabric_name ;;
  pattern <- _get_print print_name ;;
  sc <- ProductSKU_get_or_create size fabric pattern
          (Seed.build_sku_code size fabric pattern) 0 true ;;
  let sku := fst sc in
  (if fits12 (sku_unit_price sku) then ret tt else raise InvalidOperation) ;;;
  if PyStr.is_empty (sku_code sku)
  then ProductSKU_save (with_sku_code (Seed.build_sku_code size fabric pattern) sku)
                       (Some [F_sku_code])
  else ret sku.

(** [Order.objects.create(...)]: the row keeps the fee and the discount
    rounded, the object keeps them as given. *)
Definition Order_create (customer : Customer) (status : OrderStatus)
    (date notes : string) (shipping_fee discount : Decimal) : M (Order * OrderObj) :=
  statement orders set_orders
    (fun rows =>
       let o := mkOrder (next_pk rows) (pk customer) (pk status) date notes
                        0 (quantize2 shipping_fee) (quantize2 discount) 0 in
       Ok ((o, mkOrderObj (pk o) (of_hundredths 0) shipping_fee discount
                          (of_hundredths 0)),
           insert_row o rows)).

Definition OrderItem_create (order : OrderObj) (sku : ProductSKU) (qty : Z)
    (unit_price line_total : Decimal) : M OrderItem :=
  statement items set_items
    (fun rows =>
       let i := mkItem (next_pk rows) (obj_id order) (pk sku) qty
                       (quantize2 unit_price) (quantize2 line_total) in
       Ok (i, insert_row i rows)).

(** [order.items.all().delete()]: the items go by the key of their order,
    none of them is loaded. *)
Definition delete_items (order : OrderObj) : M unit :=
  statement items set_items
    (fun rows => Ok (tt, delete (fun i => item_order i =? obj_id order) rows)).

(** What the save of the four amounts makes of a stored row. *)
Definition written (self : OrderObj) (row : Order) : Order :=
  mkOrder (order_id row) (order_customer row) (order_status row) (order_date row)
          (order_notes row) (quantize2 (obj_subtotal self))
          (quantize2 (obj_shipping_fee self)) (quantize2 (obj_discount self))
          (quantize2 (obj_total self)).

(** [order.save(update_fields=["subtotal", "total", "shipping_fee", "discount"])]. *)
Definition Order_save_totals (self : OrderObj) : M unit :=
  statement orders set_orders
    (fun rows =>
       Ok (tt, map (fun x => if pk x =? obj_id self then written self x else x) rows)).

Definition with_totals (subtotal total : Decimal) (o : OrderObj) : OrderObj :=
  mkOrderObj (obj_id o) subtotal (obj_shipping_fee o) (obj_discount o) total.

(** [Decimal(str(item.get("unit_price", sku.unit_price)))]. *)
Definition item_price (item : ItemRow) (sku : ProductSKU) : Decimal :=
  get_default (ir_unit_price item) (of_hundredths (sku_unit_price sku)).

(** The loop over the items of one order; [subtotal] is the running sum. *)
Fixpoint seed_items (order : OrderObj) (rows : list ItemRow) (subtotal : Decimal)
    : M Decimal :=
  match rows with
  | [] => ret subtotal
  | item :: rest =>
      sku <- _get_sku (ir_size_code item) (ir_fabric_type item)
                      (ir_print_pattern item) ;;
      let qty := ir_qty item in
      let unit_price := item_price item sku in
      let line_total := dec_mul_int unit_price qty in
      OrderItem_create order sku qty unit_price line_total ;;;
      seed_items order rest (dec_add subtotal line_total)
  end.

(** One round of the loop of [_seed_orders]; the stored row of the order
    built is returned, as the save leaves it. *)
Definition seed_order (row : OrderRow) : M Order :=
  customer <- query customers
                (get (fun c => String.eqb (cust_full_name c) (or_customer row))) ;;
  status <- query statuses
              (get (fun s => String.eqb (status_code s) (or_status row))) ;;
  let notes := get_default (or_notes row) "" in
  existing <- query orders
                (fun rows => Ok (first (order_matches customer (or_order_date row) notes)
                                       rows)) ;;
  header <- match existing with
            | Some o => order <- read_order o ;; ret (o, order)
            | None => Order_create customer status (or_order_date row) notes
                        (get_default (or_shipping_fee row) (of_hundredths 0))
                        (get_default (or_discount row) (of_hundredths 0))
            end ;;
  let order := snd header in
  delete_items order ;;;
  subtotal <- seed_items order (or_items row) (of_hundredths 0) ;;
  let order := with_totals subtotal
                 (dec_sub (dec_add subtotal (obj_shipping_fee order))
                          (obj_discount order)) order in
  Order_save_totals order ;;;
  ret (written order (fst header)).

(** [_seed_orders] on the order records of a fixture. *)
Definition _seed_orders (rows : list OrderRow) : M unit :=
  for_each rows (fun row => seed_order row ;;; ret tt).

End Dec.

(** The record with its amounts in whole hundredths. *)
Definition item_in_hundredths (item : Dec.ItemRow) : ItemRow :=
  mkItemRow (Dec.ir_size_code item) (Dec.ir_fabric_type item)
            (Dec.ir_print_pattern item) (Dec.ir_qty item)
            (option_map quantize2 (Dec.ir_unit_price item)).

Definition row_in_hundredths (row : Dec.OrderRow) : OrderRow :=
  mkOrderRow (Dec.or_customer row) (Dec.or_status row) (Dec.or_order_date row)
             (Dec.or_notes row)
             (option_map quantize2 (Dec.or_shipping_fee row))
             (option_map quantize2 (Dec.or_discount row))
             (map item_in_hundredths (Dec.or_items row)).

(** No amount of the record has a digit beyond the second decimal place. *)
Definition option_exact2 (o : option Decimal) : Prop :=
  match o with Some d => exact2 d | None => True end.

Definition item_two_places (item : Dec.ItemRow) : Prop :=
  option_exact2 (Dec.ir_unit_price item).

Definition row_two_places (row : Dec.OrderRow) : Prop :=
  option_exact2 (Dec.or_shipping_fee row) /\ option_exact2 (Dec.or_discount row)
  /\ Forall item_two_places (Dec.or_items row).

(** ** Predicates the properties are stated with *)

(** What one call of [_get_sku] did, the three rows it looked up given. *)
Inductive resolved (d : DB) (size : ProductSize) (fabric : FabricType)
    (pattern : option PrintPattern) : ProductSKU -> DB -> Prop :=
| resolved_found r :
    get (sku_matches size fabric pattern) (skus d) = Ok r ->
    PyStr.is_empty (sku_code r) = false ->
    resolved d size fabric pattern r d
| resolved_backfilled r0 :
    get (sku_matches size fabric pattern) (skus d) = Ok r0 ->
    PyStr.is_empty (sku_code r0) = true ->
    let r := with_sku_code (Seed.build_sku_code size fabric pattern) r0 in
    code_taken r (skus d) = false ->
    resolved d size fabric pattern r
      (set_skus (map (fun x => if pk x =? pk r then sku_write [F_sku_code] r x else x)
                     (skus d)) d)
| resolved_created :
    filter (sku_matches size fabric pattern) (skus d) = [] ->
    let r := mkSKU (next_pk (skus d)) (Seed.build_sku_code size fabric pattern)
                   (pk size) (pk fabric) (option_map pk pattern) 0 true in
    code_taken r (skus d) = false ->
    resolved d size fabric pattern r (set_skus (insert_row r (skus d)) d).

(** The line items of an order, and [sum(line_total for items)]. *)
Definition line_items (d : DB) (o : Order) : list OrderItem :=
  filter (fun i => item_order i =? pk o) (items d).

Definition sum_line_totals (l : list OrderItem) : Z :=
  fold_right Z.add 0 (map item_line_total l).

(** The order total invariant, for one order of a store. *)
Definition totals_hold (d : DB) (o : Order) : Prop :=
  order_total o = order_subtotal o + order_shipping_fee o - order_discount o
  /\ order_subtotal o = sum_line_totals (line_items d o)
  /\ Forall (fun i => item_line_total i = item_unit_price i * item_qty i)
            (line_items d o).

(** The header an order row resolves to: the stored one of least key, or a
    new one appended to the table. *)
Inductive header (d : DB) (row : OrderRow) (customer : Customer)
    (status : OrderStatus) : Order -> DB -> Prop :=
| header_existing o :
    first (order_matches customer (or_order_date row) (get_default (or_notes row) ""))
          (orders d) = Some o ->
    header d row customer status o d
| header_created :
    first (order_matches customer (or_order_date row) (get_default (or_notes row) ""))
          (orders d) = None ->
    let o := mkOrder (next_pk (orders d)) (pk customer) (pk status)
                     (or_order_date row) (get_default (or_notes row) "") 0
                     (get_default (or_shipping_fee row) 0)
                     (get_default (or_discount row) 0) 0 in
    header d row customer status o (set_orders (insert_row o (orders d)) d).

(** The triple resolves to the stored SKU [k], whose code is set. *)
Definition settled (d : DB) (size : ProductSize) (fabric : FabricType)
    (pattern : option PrintPattern) (k : ProductSKU) : Prop :=
  get (sku_matches size fabric pattern) (skus d) = Ok k
  /\ PyStr.is_empty (sku_code k) = false.

(** Every triple that resolves in [d] resolves in [d'] to a SKU of the same
    primary key and price. *)
Definition settles (d d' : DB) : Prop :=
  forall size fabric pattern k,
    settled d size fabric pattern k ->
    exists k', settled d' size fabric pattern k'
               /\ pk k' = pk k /\ sku_unit_price k' = sku_unit_price k.

(** What a line item says, its own key left out. *)
Definition item_content (i : OrderItem) : Z * Z * Z * Z * Z :=
  (item_order i, item_sku i, item_qty i, item_unit_price i, item_line_total i).

(** No stored print pattern has this name. *)
Definition unknown_print (d : DB) (name : string) : Prop :=
  forall p, In p (prints d) -> String.eqb (print_name p) name = false.

(** A raw material carries no pattern. *)
Definition raw_unpatterned (m : FabricMaterial) : Prop :=
  mat_is_printed m = false -> mat_print_pattern m = None.

(** One of the five steps of [handle] raises [e], the ones before it having
    returned. *)
Inductive step_fails (data : Data) (d : DB) (e : error) : Prop :=
| fails_in_reference :
    _seed_reference data d = Raise e -> step_fails data d e
| fails_in_skus d1 :
    _seed_reference data d = Ok (tt, d1) ->
    _seed_skus_and_inventory data d1 = Raise e -> step_fails data d e
| fails_in_fabrics d1 d2 :
    _seed_reference data d = Ok (tt, d1) ->
    _seed_skus_and_inventory data d1 = Ok (tt, d2) ->
    _seed_fabrics data d2 = Raise e -> step_fails data d e
| fails_in_orders d1 d2 d3 :
    _seed_reference data d = Ok (tt, d1) ->
    _seed_skus_and_inventory data d1 = Ok (tt, d2) ->
    _seed_fabrics data d2 = Ok (tt, d3) ->
    _seed_orders data d3 = Raise e -> step_fails data d e
| fails_in_expenses d1 d2 d3 d4 :
    _seed_reference data d = Ok (tt, d1) ->
    _seed_skus_and_inventory data d1 = Ok (tt, d2) ->
    _seed_fabrics data d2 = Ok (tt, d3) ->
    _seed_orders data d3 = Ok (tt, d4) ->
    _seed_expenses data d4 = Raise e -> step_fails data d e.

(** The line item [i] is what the builder stores for the item [row] of an
    order of key [order_pk]: in the store [d] the names of the row resolve,
    with no write, to a SKU whose key the item carries; the item has the
    quantity of the row, and its two amounts are the price and the price
    times the quantity, each rounded to two places on its own. *)
Definition item_built (d : DB) (order_pk : Z) (row : Dec.ItemRow) (i : OrderItem)
    : Prop :=
  exists sku,
    _get_sku (Dec.ir_size_code row) (Dec.ir_fabric_type row)
             (Dec.ir_print_pattern row) d = Ok (sku, d)
    /\ item_order i = order_pk
    /\ item_sku i = pk sku
    /\ item_qty i = Dec.ir_qty row
    /\ item_unit_price i = quantize2 (Dec.item_price row sku)
    /\ item_line_total i
       = quantize2 (dec_mul_int (Dec.item_price row sku) (Dec.ir_qty row)).

(** The amounts stored for an item, and for an order and its items, are
    within the twelve digits of their columns. *)
Definition item_fits (i : OrderItem) : bool :=
  fits12 (item_unit_price i) && fits12 (item_line_total i).

Definition amounts_fit (d : DB) (o : Order) : Prop :=
  Dec.order_fits o = true /\ Forall (fun i => item_fits i = true) (line_items d o).

(** How the builder comes by the order object [obj] of the stored row [o]:
    it loads a row that matches, or it has just created the row. *)
Definition order_object (d : DB) (row : Dec.OrderRow) (customer : Customer)
    (o : Order) (obj : Dec.OrderObj) : Prop :=
  let key := order_matches customer (Dec.or_order_date row)
                           (get_default (Dec.or_notes row) "") in
  (first key (orders d) = Some o
   /\ Dec.order_fits o = true
   /\ obj = Dec.mkOrderObj (pk o) (of_hundredths (order_subtotal o))
                           (of_hundredths (order_shipping_fee o))
                           (of_hundredths (order_discount o))
                           (of_hundredths (order_total o)))
  \/ (first key (orders d) = None
      /\ obj = Dec.mkOrderObj (pk o) (of_hundredths 0)
                 (get_default (Dec.or_shipping_fee row) (of_hundredths 0))
                 (get_default (Dec.or_discount row) (of_hundredths 0))
                 (of_hundredths 0)).

(** ** Sample stores and fixtures *)

(** The reference tables after a first seeding: one row in each. *)
Definition demo_db : DB :=
  mkDB [mkSize 1 "STD" "Standard"]
       [mkFabric 1 "Cotton" true]
       [mkPrint 1 "Floral" true]
       []
       [mkLocation 1 "Main"]
       [] [] []
       [mkCustomer 1 "Ann" "" "" ""]
       [mkStatus 1 "NEW" "New" 0; mkStatus 2 "SHIPPED" "Shipped" 1]
       [] []
       [mkExpenseType 1 "Rent" true]
       [].

Definition demo_order_row : OrderRow :=
  mkOrderRow "Ann" "NEW" "2024-01-05" (Some "ref-1") (Some 500) (Some 100)
    [mkItemRow "STD" "Cotton" None 3 (Some 1000);
     mkItemRow "STD" "Cotton" (Some "Floral") 2 None].


(** [demo_db] with one SKU whose code is set and one whose code is blank. *)
Definition demo_db_skus : DB :=
  set_skus [mkSKU 1 "BAG-STD-COTTON-PLAIN" 1 1 None 1000 true;
            mkSKU 2 "" 1 1 (Some 1) 1500 true] demo_db.

(** What the build of [demo_order_row] on [demo_db] returns and leaves. *)
Definition demo_order_built : Order :=
  mkOrder 1 1 1 "2024-01-05" "ref-1" 3000 500 100 3400.

Definition demo_db_built : DB :=
  set_items [mkItem 1 1 1 3 1000 3000; mkItem 2 1 2 2 0 0]
    (set_orders [demo_order_built]
       (set_skus [mkSKU 1 "BAG-STD-COTTON-PLAIN" 1 1 None 0 true;
                  mkSKU 2 "BAG-STD-COTTON-FLORAL" 1 1 (Some 1) 0 true] demo_db)).

(** [demo_order_row] with its amounts as decimals, the price of the first
    item written with three decimal places, 10.000. *)
Definition demo_order_row_dec : Dec.OrderRow :=
  Dec.mkOrderRow "Ann" "NEW" "2024-01-05" (Some "ref-1")
    (Some (of_hundredths 500)) (Some (of_hundredths 100))
    [Dec.mkItemRow "STD" "Cotton" None 3 (Some (mkDecimal 10000 1));
     Dec.mkItemRow "STD" "Cotton" (Some "Floral") 2 None].

(** An order of three pieces at 0.125 each. *)
Definition demo_order_row_eighth : Dec.OrderRow :=
  Dec.mkOrderRow "Ann" "NEW" "2024-01-05" (Some "ref-1")
    (Some (of_hundredths 500)) (Some (of_hundredths 100))
    [Dec.mkItemRow "STD" "Cotton" None 3 (Some (mkDecimal 125 1))].

(** What its build on [demo_db] returns and leaves. *)
Definition demo_order_eighth_built : Order :=
  mkOrder 1 1 1 "2024-01-05" "ref-1" 38 500 100 438.

Definition demo_db_eighth_built : DB :=
  set_items [mkItem 1 1 1 3 12 38]
    (set_orders [demo_order_eighth_built]
       (set_skus [mkSKU 1 "BAG-STD-COTTON-PLAIN" 1 1 None 0 true] demo_db)).

(** An order of one piece at 10000000000.00, a price of thirteen digits,
    and what its build on [demo_db] returns and leaves. *)
Definition demo_order_row_large : Dec.OrderRow :=
  Dec.mkOrderRow "Ann" "NEW" "2024-02-01" None None None
    [Dec.mkItemRow "STD" "Cotton" None 1 (Some (of_hundredths 1000000000000))].

Definition demo_order_large_built : Order :=
  mkOrder 1 1 1 "2024-02-01" "" 1000000000000 0 0 1000000000000.

Definition demo_db_large_built : DB :=
  set_items [mkItem 1 1 1 1 1000000000000 1000000000000]
    (set_orders [demo_order_large_built]
       (set_skus [mkSKU 1 "BAG-STD-COTTON-PLAIN" 1 1 None 0 true] demo_db)).

(** A new order without items, its fee 0.135 and its discount 0.005. *)
Definition demo_order_row_empty : Dec.OrderRow :=
  Dec.mkOrderRow "Ann" "NEW" "2024-04-01" None
    (Some (mkDecimal 135 1)) (Some (mkDecimal 5 1)) [].

(** A fixture whose reference rows are new and whose SKU row names a size
    that no row has. *)
Definition demo_data_bad_size : Data :=
  mkData [mkSizeRow "LRG" (Some "Large")] [] [] ["Annex"] [] [] []
         [mkSkuRow "XL" "Cotton" None (Some 1200) None]
         [] [] [] [] [].

(** The characters of an upper-case identifier: A-Z, 0-9 and the
    underscore. *)
Definition code_char (c : ascii) : bool :=
  PyStr.is_upper c || PyStr.is_digit c || Ascii.eqb c Slug.underscore.

(** A name made of ASCII letters, digits and spaces only. *)
Definition plain_char (c : ascii) : bool :=
  PyStr.is_alnum c || Ascii.eqb c " "%char.

Definition plain_name (s : string) : bool := PyStr.forall_str plain_char s.

(** The name in upper case, its spaces dropped. *)
Definition compact (s : string) : string :=
  PyStr.filter_str (fun x => negb (Ascii.eqb x " "%char))
                   (PyStr.map_str PyStr.upper_char s).

(** The columns of a SKU that a resolve never writes. *)
Definition sku_core (s : ProductSKU) : Z * Z * Z * option Z * Z * bool :=
  (sku_id s, sku_size s, sku_fabric_type s, sku_print_pattern s,
   sku_unit_price s, sku_is_active s).

Definition sku_triple (s : ProductSKU) : Z * Z * option Z :=
  (sku_size s, sku_fabric_type s, sku_print_pattern s).

(** The primary key and the two unique constraints of [ProductSKU]. *)
Definition sku_constraints (d : DB) : Prop :=
  NoDup (map pk (skus d))
  /\ NoDup (map sku_triple (skus d))
  /\ NoDup (map sku_code (skus d)).

(** Two fabrics whose names start alike, and a SKU of the first. *)
Definition demo_db_blends : DB :=
  set_skus [mkSKU 1 "BAG-STD-COTTONBLEN-PLAIN" 1 1 None 1000 true]
    (set_fabrics [mkFabric 1 "Cotton Blend A" true; mkFabric 2 "Cotton Blend B" true]
       demo_db).

(** ** The reference loops, on the rows of their table *)

(** [for row in rows: Model.objects.update_or_create(key, defaults)], the
    key, the defaults and the new row given as functions of the fixture
    row. *)
Fixpoint upsert_all {R Row : Type} `{Model R} (key : Row -> R -> bool)
    (upd : Row -> R -> R) (mk : Row -> Z -> R) (l : list Row) (rows : list R)
    : result (list R) :=
  match l with
  | [] => Ok rows
  | r :: rest =>
      match update_or_create (key r) (upd r) (mk r) rows with
      | Ok (_, rows') => upsert_all key upd mk rest rows'
      | Raise e => Raise e
      end
  end.

(** What the updates of the fixture rows, in their order, make of one
    stored row. *)
Definition rewritten {R Row : Type} (key : Row -> R -> bool) (upd : Row -> R -> R)
    (l : list Row) (x : R) : R :=
  fold_left (fun x r => if key r x then upd r x else x) l x.

(** Every fixture row finds one stored row. *)
Definition all_found {R Row : Type} `{Model R} (key : Row -> R -> bool)
    (l : list Row) (rows : list R) : Prop :=
  forall r, In r l -> exists x, filter (key r) rows = [x].

(** Key, defaults and new row of the seven reference upserts. *)
Definition size_key (row : SizeRow) (s : ProductSize) : bool :=
  String.eqb (size_code s) (szr_code row).
Definition size_upd (row : SizeRow) (s : ProductSize) : ProductSize :=
  mkSize (size_id s) (size_code s) (get_default (szr_display_name row) (szr_code row)).
Definition size_mk (row : SizeRow) (i : Z) : ProductSize :=
  mkSize i (szr_code row) (get_default (szr_display_name row) (szr_code row)).

Definition fabric_key (row : FlagRow) (f : FabricType) : bool :=
  String.eqb (fabric_name f) (fr_name row).
Definition fabric_upd (row : FlagRow) (f : FabricType) : FabricType :=
  mkFabric (fabric_id f) (fabric_name f) (get_default (fr_is_active row) true).
Definition fabric_mk (row : FlagRow) (i : Z) : FabricType :=
  mkFabric i (fr_name row) (get_default (fr_is_active row) true).

Definition print_key (row : FlagRow) (p : PrintPattern) : bool :=
  String.eqb (print_name p) (fr_name row).
Definition print_upd (row : FlagRow) (p : PrintPattern) : PrintPattern :=
  mkPrint (print_id p) (print_name p) (get_default (fr_is_active row) true).
Definition print_mk (row : FlagRow) (i : Z) : PrintPattern :=
  mkPrint i (fr_name row) (get_default (fr_is_active row) true).

Definition location_key (name : string) (l : InventoryLocation) : bool :=
  String.eqb (loc_name l) name.
Definition location_upd (name : string) (l : InventoryLocation) : InventoryLocation := l.
Definition location_mk (name : string) (i : Z) : InventoryLocation := mkLocation i name.

Definition status_key (row : StatusRow) (s : OrderStatus) : bool :=
  String.eqb (status_code s) (str_code row).
Definition status_upd (row : StatusRow) (s : OrderStatus) : OrderStatus :=
  mkStatus (status_id s) (status_code s)
           (get_default (str_display_name row) (str_code row))
           (get_default (str_sort_order row) 0).
Definition status_mk (row : StatusRow) (i : Z) : OrderStatus :=
  mkStatus i (str_code row) (get_default (str_display_name row) (str_code row))
           (get_default (str_sort_order row) 0).

Definition customer_key (row : CustomerRow) (c : Customer) : bool :=
  String.eqb (cust_full_name c) (cr_full_name row).
Definition customer_upd (row : CustomerRow) (c : Customer) : Customer :=
  mkCustomer (cust_id c) (cust_full_name c) (get_default (cr_phone row) "")
             (get_default (cr_email row) "") (get_default (cr_address row) "").
Definition customer_mk (row : CustomerRow) (i : Z) : Customer :=
  mkCustomer i (cr_full_name row) (get_default (cr_phone row) "")
             (get_default (cr_email row) "") (get_default (cr_address row) "").

Definition etype_key (name : string) (t : ExpenseType) : bool :=
  String.eqb (etype_name t) name.
Definition etype_upd (name : string) (t : ExpenseType) : ExpenseType :=
  mkExpenseType (etype_id t) (etype_name t) true.
Definition etype_mk (name : string) (i : Z) : ExpenseType := mkExpenseType i name true.

(** The primary keys of the seven reference tables are distinct. *)
Definition reference_keys_distinct (d : DB) : Prop :=
  NoDup (map pk (sizes d)) /\ NoDup (map pk (fabrics d)) /\ NoDup (map pk (prints d))
  /\ NoDup (map pk (locations d)) /\ NoDup (map pk (statuses d))
  /\ NoDup (map pk (customers d)) /\ NoDup (map pk (expense_types d)).

(** A fixture of reference rows, one size given twice, and the store its
    reference step leaves on the empty store. *)
Definition demo_reference_data : Data :=
  mkData [mkSizeRow "STD" (Some "Standard"); mkSizeRow "LRG" None;
          mkSizeRow "STD" (Some "Regular")]
         [mkFlagRow "Cotton" None; mkFlagRow "Canvas" (Some false)]
         [mkFlagRow "Floral" None]
         ["Main"]
         [mkStatusRow "NEW" None None; mkStatusRow "SHIPPED" (Some "Shipped") (Some 2)]
         [mkCustomerRow "Ann" (Some "0100") None None]
         ["Rent"; "Rent"]
         [] [] [] [] [] [].

Definition demo_reference_db : DB :=
  mkDB [mkSize 1 "STD" "Regular"; mkSize 2 "LRG" "LRG"]
       [mkFabric 1 "Cotton" true; mkFabric 2 "Canvas" false]
       [mkPrint 1 "Floral" true]
       []
       [mkLocation 1 "Main"]
       [] [] []
       [mkCustomer 1 "Ann" "0100" "" ""]
       [mkStatus 1 "NEW" "NEW" 0; mkStatus 2 "SHIPPED" "Shipped" 2]
       [] []
       [mkExpenseType 1 "Rent" true]
       [].

(** * Properties *)

(** ** Running the monad *)

Lemma bind_inv {A B} (m : M A) (k : A -> M B) d r :
  bind m k d = Ok r -> exists a d1, m d = Ok (a, d1) /\ k a d1 = Ok r.
Proof.
  unfold bind. destruct (m d) as [[a d1]|e]; [|discriminate].
  intros Hk. exists a, d1. split; [reflexivity|exact Hk].
Qed.

Lemma ret_inv {A} (a b : A) d d' : ret a d = Ok (b, d') -> b = a /\ d' = d.
Proof. unfold ret. intros H. inversion H. split; reflexivity. Qed.

Lemma query_inv {A T} (tbl : DB -> list T) (q : list T -> result A) d a d' :
  query tbl q d = Ok (a, d') -> q (tbl d) = Ok a /\ d' = d.
Proof.
  unfold query. destruct (q (tbl d)); [|discriminate].
  intros H. inversion H. split; reflexivity.
Qed.

Lemma statement_inv {A T} (tbl : DB -> list T) set (q : list T -> result (A * list T))
    d a d' :
  statement tbl set q d = Ok (a, d') ->
  exists rows, q (tbl d) = Ok (a, rows) /\ d' = set rows d.
Proof.
  unfold statement. destruct (q (tbl d)) as [[a0 rows]|e]; [|discriminate].
  intros H. inversion H. subst. exists rows. split; reflexivity.
Qed.

Ltac run_inv H :=
  repeat match type of H with
  | bind _ _ _ = Ok _ =>
      let a := fresh "a" in let d := fresh "d" in
      let H1 := fresh "Hrun" in
      apply bind_inv in H; destruct H as (a & d & H1 & H)
  end.

Lemma get_Ok_filter {R} `{Model R} (p : R -> bool) rows r :
  get p rows = Ok r <-> filter p rows = [r].
Proof.
  unfold get. destruct (filter p rows) as [|x [|y l]]; split; intros E;
    try discriminate; inversion E; reflexivity.
Qed.

Lemma get_Ok_In {R} `{Model R} (p : R -> bool) rows r :
  get p rows = Ok r -> In r rows /\ p r = true.
Proof.
  intros E. apply get_Ok_filter in E.
  apply filter_In. rewrite E. left. reflexivity.
Qed.

Lemma get_missing {R} `{Model R} (p : R -> bool) rows :
  (forall r, In r rows -> p r = false) ->
  get p rows = Raise (DoesNotExist model_name).
Proof.
  intros Hno. unfold get.
  destruct (filter p rows) as [|x l] eqn:E; [reflexivity|].
  assert (Hin : In x (filter p rows)) by (rewrite E; left; reflexivity).
  apply filter_In in Hin. destruct Hin as [Hin Hp].
  rewrite (Hno x Hin) in Hp. discriminate.
Qed.

Lemma get_error {R} `{Model R} (p : R -> bool) rows e :
  get p rows = Raise e ->
  (e = DoesNotExist model_name /\ filter p rows = [])
  \/ e = MultipleObjectsReturned model_name.
Proof.
  unfold get. destruct (filter p rows) as [|x [|y l]]; intros E; inversion E.
  - left. split; reflexivity.
  - right. reflexivity.
Qed.

(** ** The derived code is never blank *)

Lemma seed_code_not_empty size fabric pattern :
  PyStr.is_empty (Seed.build_sku_code size fabric pattern) = false.
Proof. reflexivity. Qed.

Lemma models_code_not_empty size fabric pattern :
  PyStr.is_empty (Models.build_sku_code size fabric pattern) = false.
Proof. reflexivity. Qed.

(** ** What [_get_sku] does *)

Lemma ProductSKU_save_coded self fields d :
  PyStr.is_empty (sku_code self) = false ->
  ProductSKU_save self fields d =
  match sku_base_save self fields (skus d) with
  | Ok (_, rows) => Ok (self, set_skus rows d)
  | Raise e => Raise e
  end.
Proof.
  intros Hc. unfold ProductSKU_save. rewrite Hc.
  unfold bind, ret, statement.
  destruct (sku_base_save self fields (skus d)) as [[[] rows]|e]; reflexivity.
Qed.

Lemma _get_print_inv name d pattern d' :
  _get_print name d = Ok (pattern, d') ->
  d' = d /\
  match name with
  | None => pattern = None
  | Some n => exists p, pattern = Some p
                /\ get (fun p => String.eqb (print_name p) n) (prints d) = Ok p
  end.
Proof.
  destruct name as [n|]; simpl; intros H.
  - run_inv H. apply query_inv in Hrun. destruct Hrun as [Hg ->].
    apply ret_inv in H. destruct H as [-> ->].
    split; [reflexivity|]. exists a. split; [reflexivity|exact Hg].
  - apply ret_inv in H. destruct H as [-> ->]. split; reflexivity.
Qed.

Theorem _get_sku_resolved size_code fabric_name print_name d sku d' :
  _get_sku size_code fabric_name print_name d = Ok (sku, d') ->
  exists size fabric pattern,
    _get_size size_code d = Ok (size, d)
    /\ _get_fabric fabric_name d = Ok (fabric, d)
    /\ _get_print print_name d = Ok (pattern, d)
    /\ resolved d size fabric pattern sku d'.
Proof.
  unfold _get_sku. intros H. run_inv H.
  rename a into size, a0 into fabric, a1 into pattern, a2 into sc.
  assert (E0 : d0 = d).
  { unfold _get_size in Hrun. apply query_inv in Hrun. tauto. }
  subst d0.
  assert (E1 : d1 = d).
  { unfold _get_fabric in Hrun0. apply query_inv in Hrun0. tauto. }
  subst d1.
  assert (E2 : d2 = d) by (apply _get_print_inv in Hrun1; tauto).
  subst d2.
  exists size, fabric, pattern. repeat split; try assumption.
  unfold ProductSKU_get_or_create in Hrun2.
  destruct (get (sku_matches size fabric pattern) (skus d)) as [r0|e] eqn:Hget.
  - inversion Hrun2; subst sc d3; clear Hrun2. simpl in H.
    destruct (PyStr.is_empty (sku_code r0)) eqn:Hc.
    + rewrite ProductSKU_save_coded in H by reflexivity.
      simpl in H.
      destruct (code_taken _ (skus d)) eqn:Ht; simpl in H; [discriminate|].
      inversion H; subst. apply resolved_backfilled; assumption.
    + apply ret_inv in H. destruct H as [-> ->].
      apply resolved_found; assumption.
  - destruct (get_error _ _ _ Hget) as [[-> Hnil]| ->]; [|discriminate].
    run_inv Hrun2. apply ret_inv in Hrun2. destruct Hrun2 as [-> ->].
    rewrite ProductSKU_save_coded in Hrun3 by reflexivity.
    simpl in Hrun3.
    destruct (code_taken _ (skus d)) eqn:Ht; simpl in Hrun3; [discriminate|].
    inversion Hrun3; subst. simpl in H.
    apply ret_inv in H. destruct H as [-> ->].
    apply resolved_created; assumption.
Qed.

Lemma resolved_frame d size fabric pattern sku d' :
  resolved d size fabric pattern sku d' -> d' = set_skus (skus d') d.
Proof. intros H. destruct H; destruct d; reflexivity. Qed.

Lemma _get_sku_frame size_code fabric_name print_name d sku d' :
  _get_sku size_code fabric_name print_name d = Ok (sku, d') ->
  d' = set_skus (skus d') d.
Proof.
  intros H. apply _get_sku_resolved in H.
  destruct H as (size & fabric & pattern & _ & _ & _ & H).
  exact (resolved_frame _ _ _ _ _ _ H).
Qed.

(** ** What the order builder does *)

Lemma first_In {R} `{Model R} (p : R -> bool) rows r :
  first p rows = Some r -> In r rows /\ p r = true.
Proof.
  unfold first. intros E. apply filter_In.
  revert r E. induction (filter p rows) as [|x l IH]; simpl; intros r E.
  - discriminate.
  - destruct (least_pk l) as [m|].
    + destruct (pk m <? pk x); inversion E; subst.
      * right. apply IH. reflexivity.
      * left. reflexivity.
    + inversion E. left. reflexivity.
Qed.

Lemma seed_items_inv order rows : forall subtotal d total d',
  seed_items order rows subtotal d = Ok (total, d') ->
  exists created,
    d' = set_items (items d ++ created) (set_skus (skus d') d)
    /\ Forall (fun i => item_order i = pk order
                        /\ item_line_total i = item_unit_price i * item_qty i) created
    /\ total = subtotal + sum_line_totals created
    /\ List.length created = List.length rows.
Proof.
  induction rows as [|item rest IH]; simpl; intros subtotal d total d' H.
  - apply ret_inv in H. destruct H as [-> ->]. exists [].
    rewrite app_nil_r. repeat split.
    + destruct d; reflexivity.
    + constructor.
    + unfold sum_line_totals. simpl. lia.
  - run_inv H. rename a into sku.
    pose proof (_get_sku_frame _ _ _ _ _ _ Hrun) as Hf.
    unfold OrderItem_create in Hrun0. apply statement_inv in Hrun0.
    destruct Hrun0 as (rows' & Hq & ->). inversion Hq; subst a0 rows'; clear Hq.
    apply IH in H. destruct H as (created & Hd' & Hall & Htot & Hlen).
    set (i := mkItem (next_pk (items d0)) (pk order) (pk sku) (ir_qty item)
                     (get_default (ir_unit_price item) (sku_unit_price sku))
                     (get_default (ir_unit_price item) (sku_unit_price sku)
                      * ir_qty item)) in *.
    exists (i :: created). repeat split.
    + remember (skus d0) as s0 eqn:Es0. clear Es0. subst d0.
      rewrite Hd'. destruct d; simpl. unfold insert_row.
      rewrite <- app_assoc. reflexivity.
    + constructor; [split; reflexivity|exact Hall].
    + rewrite Htot. unfold sum_line_totals. simpl. lia.
    + simpl. rewrite Hlen. reflexivity.
Qed.

Lemma seed_order_inv row d order d' :
  seed_order row d = Ok (order, d') ->
  exists customer status o0 d1 d2 subtotal,
    get (fun c => String.eqb (cust_full_name c) (or_customer row)) (customers d)
      = Ok customer
    /\ get (fun s => String.eqb (status_code s) (or_status row)) (statuses d)
      = Ok status
    /\ header d row customer status o0 d1
    /\ seed_items o0 (or_items row) 0
         (set_items (delete (fun i => item_order i =? pk o0) (items d1)) d1)
       = Ok (subtotal, d2)
    /\ order = with_totals subtotal
                 (subtotal + order_shipping_fee o0 - order_discount o0) o0
    /\ d' = set_orders
              (map (fun x => if pk x =? pk order then order_write order x else x)
                   (orders d2)) d2.
Proof.
  unfold seed_order. intros H. run_inv H.
  apply query_inv in Hrun. destruct Hrun as [Hc ->].
  apply query_inv in Hrun0. destruct Hrun0 as [Hs ->].
  apply query_inv in Hrun1. destruct Hrun1 as [Hf ->].
  inversion Hf as [Hf']; clear Hf.
  unfold delete_items in Hrun3. apply statement_inv in Hrun3.
  destruct Hrun3 as (rows & Hq & ->). inversion Hq; subst; clear Hq.
  unfold Order_save_totals in Hrun5. apply statement_inv in Hrun5.
  destruct Hrun5 as (rows & Hq & ->). inversion Hq; subst; clear Hq.
  apply ret_inv in H. destruct H as [-> ->].
  exists a, a0, a2, d3, d5, a4. repeat split; try assumption.
  destruct (first _ (orders d)) as [o|] eqn:Ef.
  - apply ret_inv in Hrun2. destruct Hrun2 as [-> ->].
    apply header_existing. exact Ef.
  - unfold Order_create in Hrun2. apply statement_inv in Hrun2.
    destruct Hrun2 as (rows & Hq & ->). inversion Hq; subst; clear Hq.
    apply header_created. exact Ef.
Qed.

Lemma header_In d row customer status o d1 :
  header d row customer status o d1 ->
  In o (orders d1) /\ d1 = set_orders (orders d1) d.
Proof.
  intros H. destruct H.
  - split; [apply first_In in H; tauto | destruct d; reflexivity].
  - split; [|destruct d; reflexivity].
    simpl. unfold insert_row. apply in_or_app. right. left. reflexivity.
Qed.

Lemma filter_delete {A} (p : A -> bool) (l : list A) :
  filter p (filter (fun x => negb (p x)) l) = [].
Proof.
  induction l as [|x l IH]; simpl; [reflexivity|].
  destruct (p x) eqn:E; simpl; [exact IH|]. rewrite E. exact IH.
Qed.

Lemma filter_all {A} (p : A -> bool) (l : list A) :
  Forall (fun x => p x = true) l -> filter p l = l.
Proof.
  induction 1 as [|x l Hx _ IH]; simpl; [reflexivity|].
  rewrite Hx, IH. reflexivity.
Qed.

Lemma order_write_self o :
  order_write o o = o.
Proof. destruct o; reflexivity. Qed.

Lemma order_write_with_totals subtotal total o :
  order_write (with_totals subtotal total o) o = with_totals subtotal total o.
Proof. destruct o; reflexivity. Qed.

(** The items of the order built are the ones created by the build, and
    the header carries their sum. *)
Lemma seed_order_lines row d order d' :
  seed_order row d = Ok (order, d') ->
  exists created,
    items d' = (delete (fun i => item_order i =? pk order) (items d) ++ created)%list
    /\ line_items d' order = created
    /\ Forall (fun i => item_order i = pk order
                        /\ item_line_total i = item_unit_price i * item_qty i) created
    /\ order_subtotal order = sum_line_totals created
    /\ order_total order
       = order_subtotal order + order_shipping_fee order - order_discount order
    /\ In order (orders d')
    /\ List.length created = List.length (or_items row).
Proof.
  intros H. apply seed_order_inv in H.
  destruct H as (customer & status & o0 & d1 & d2 & subtotal
                 & _ & _ & Hh & Hitems & -> & ->).
  apply header_In in Hh. destruct Hh as [Hin Hd1].
  apply seed_items_inv in Hitems.
  destruct Hitems as (created & Hd2 & Hall & Hsub & Hlen).
  assert (Epk : pk (with_totals subtotal
                      (subtotal + order_shipping_fee o0 - order_discount o0) o0)
                = pk o0) by reflexivity.
  assert (Eitems : items d2
                   = (delete (fun i => item_order i =? pk o0) (items d) ++ created)%list).
  { rewrite Hd2. simpl. rewrite Hd1. reflexivity. }
  assert (Eorders : orders d2 = orders d1).
  { rewrite Hd2. reflexivity. }
  exists created. rewrite Epk. repeat split.
  - simpl. exact Eitems.
  - unfold line_items. simpl. rewrite Eitems, filter_app.
    unfold delete. rewrite filter_delete. simpl.
    apply filter_all. eapply Forall_impl; [|exact Hall].
    intros i [Hi _]. rewrite Hi. apply Z.eqb_refl.
  - exact Hall.
  - simpl. lia.
  - simpl. rewrite Eorders. apply in_map_iff. exists o0. split; [|exact Hin].
    rewrite Z.eqb_refl. apply order_write_with_totals.
  - exact Hlen.
Qed.

(** On amounts of whole hundredths the order built is stored and satisfies
    the order total invariant, as does every stored row that carries its
    primary key. *)
Lemma seed_order_totals row d order d' :
  seed_order row d = Ok (order, d') ->
  In order (orders d')
  /\ totals_hold d' order
  /\ (forall o, In o (orders d') -> pk o = pk order -> totals_hold d' o).
Proof.
  intros H. pose proof (seed_order_lines _ _ _ _ H) as Hl.
  destruct Hl as (created & _ & Hline & Hall & Hsub & Htot & Hin & _).
  assert (Hord : totals_hold d' order).
  { unfold totals_hold. rewrite Hline. repeat split; try assumption.
    eapply Forall_impl; [|exact Hall]. intros i [_ Hi]. exact Hi. }
  split; [exact Hin|]. split; [exact Hord|].
  intros o Ho Hpk.
  apply seed_order_inv in H.
  destruct H as (customer & status & o0 & d1 & d2 & subtotal
                 & _ & _ & _ & _ & Eo & Ed').
  rewrite Ed' in Ho. simpl in Ho. apply in_map_iff in Ho.
  destruct Ho as (x & Hx & _).
  assert (Ew : o = order_write order x).
  { destruct (order_id x =? order_id order) eqn:E; [symmetry; exact Hx|].
    subst o. apply Z.eqb_neq in E. contradiction. }
  assert (El : line_items d' o = line_items d' order).
  { unfold line_items. rewrite Hpk. reflexivity. }
  destruct Hord as (H1 & H2 & H3).
  unfold totals_hold. rewrite El. split; [|split].
  - rewrite Ew. simpl. exact H1.
  - rewrite Ew. simpl. exact H2.
  - exact H3.
Qed.


(** ** Resolving a triple again *)

Lemma option_Z_eqb_eq a b : option_Z_eqb a b = true <-> a = b.
Proof.
  destruct a as [x|], b as [y|]; simpl; split; intros E;
    try discriminate; try reflexivity.
  - apply Z.eqb_eq in E. subst. reflexivity.
  - inversion E. apply Z.eqb_refl.
Qed.

Lemma sku_matches_own size fabric pattern c i price active :
  sku_matches size fabric pattern
    (mkSKU i c (pk size) (pk fabric) (option_map pk pattern) price active) = true.
Proof.
  unfold sku_matches. simpl. rewrite !Z.eqb_refl. simpl.
  apply option_Z_eqb_eq. reflexivity.
Qed.

Lemma sku_matches_same size fabric pattern size' fabric' pattern' c i price active :
  sku_matches size fabric pattern
    (mkSKU i c (pk size') (pk fabric') (option_map pk pattern') price active) = true ->
  forall x, sku_matches size fabric pattern x = sku_matches size' fabric' pattern' x.
Proof.
  unfold sku_matches. simpl. intros E x.
  apply andb_true_iff in E. destruct E as [E E3].
  apply andb_true_iff in E. destruct E as [E1 E2].
  apply Z.eqb_eq in E1. apply Z.eqb_eq in E2. apply option_Z_eqb_eq in E3.
  rewrite E1, E2, E3. reflexivity.
Qed.

Lemma filter_map_commute {A} (p : A -> bool) (f : A -> A) (l : list A) :
  (forall x, p (f x) = p x) -> filter p (map f l) = map f (filter p l).
Proof.
  intros Hp. induction l as [|x l IH]; simpl; [reflexivity|].
  rewrite Hp. destruct (p x); simpl; rewrite IH; reflexivity.
Qed.

Lemma sku_matches_backfill size fabric pattern r x :
  sku_matches size fabric pattern
    (if pk x =? pk r then sku_write [F_sku_code] r x else x)
  = sku_matches size fabric pattern x.
Proof. destruct (pk x =? pk r); reflexivity. Qed.

Lemma resolved_settled d size fabric pattern sku d' :
  resolved d size fabric pattern sku d' -> settled d' size fabric pattern sku.
Proof.
  intros H. destruct H as [r Hg Hc|r0 Hg Hc r Ht|Hnil r Ht]; unfold settled.
  - split; assumption.
  - split; [|reflexivity]. simpl.
    apply get_Ok_filter. apply get_Ok_filter in Hg.
    rewrite filter_map_commute
      by (intros x; exact (sku_matches_backfill size fabric pattern r x)).
    rewrite Hg. simpl.
    change (pk r) with (pk r0). rewrite Z.eqb_refl.
    destruct r0; reflexivity.
  - split; [|reflexivity]. simpl.
    apply get_Ok_filter. unfold insert_row. rewrite filter_app, Hnil. simpl.
    subst r. rewrite sku_matches_own. reflexivity.
Qed.

Lemma resolved_settles d size fabric pattern sku d' :
  resolved d size fabric pattern sku d' -> settles d d'.
Proof.
  intros H size' fabric' pattern' k [Hk Hkc].
  destruct H as [r Hg Hc|r0 Hg Hc r Ht|Hnil r Ht].
  - exists k. repeat split; assumption.
  - exists (if pk k =? pk r then sku_write [F_sku_code] r k else k).
    unfold settled. simpl. repeat split.
    + apply get_Ok_filter. apply get_Ok_filter in Hk.
      rewrite filter_map_commute
        by (intros x; exact (sku_matches_backfill size' fabric' pattern' r x)).
      rewrite Hk. reflexivity.
    + destruct (_ =? _); [reflexivity|exact Hkc].
    + destruct (_ =? _); reflexivity.
    + destruct (_ =? _); reflexivity.
  - exists k. unfold settled. simpl. repeat split; try assumption.
    apply get_Ok_filter. apply get_Ok_filter in Hk.
    unfold insert_row. rewrite filter_app, Hk. simpl.
    destruct (sku_matches size' fabric' pattern' r) eqn:E; [|reflexivity].
    subst r. pose proof (sku_matches_same _ _ _ _ _ _ _ _ _ _ E) as Hsame.
    rewrite (filter_ext _ _ Hsame) in Hk. rewrite Hnil in Hk. discriminate.
Qed.

Lemma settles_refl d d' : skus d' = skus d -> settles d d'.
Proof.
  intros E size fabric pattern k [Hk Hc]. exists k.
  unfold settled. rewrite E. repeat split; assumption.
Qed.

Lemma settles_trans d1 d2 d3 : settles d1 d2 -> settles d2 d3 -> settles d1 d3.
Proof.
  intros H12 H23 size fabric pattern k Hk.
  destruct (H12 _ _ _ _ Hk) as (k2 & Hk2 & E1 & E2).
  destruct (H23 _ _ _ _ Hk2) as (k3 & Hk3 & E3 & E4).
  exists k3. repeat split; [apply Hk3|apply Hk3|congruence|congruence].
Qed.

(** A triple that is settled resolves without a write. *)
Lemma _get_sku_settled size_code fabric_name print_name d size fabric pattern k :
  _get_size size_code d = Ok (size, d) ->
  _get_fabric fabric_name d = Ok (fabric, d) ->
  _get_print print_name d = Ok (pattern, d) ->
  settled d size fabric pattern k ->
  _get_sku size_code fabric_name print_name d = Ok (k, d).
Proof.
  intros Hs Hf Hp [Hk Hc]. unfold _get_sku, bind.
  rewrite Hs, Hf, Hp. unfold ProductSKU_get_or_create. rewrite Hk.
  simpl. rewrite Hc. reflexivity.
Qed.

(** The second resolve of a triple finds what the first one left. *)
Lemma _get_sku_again size_code fabric_name print_name d sku d' :
  _get_sku size_code fabric_name print_name d = Ok (sku, d') ->
  PyStr.is_empty (sku_code sku) = false
  /\ _get_sku size_code fabric_name print_name d' = Ok (sku, d').
Proof.
  intros H. pose proof (_get_sku_frame _ _ _ _ _ _ H) as Hf.
  apply _get_sku_resolved in H.
  destruct H as (size & fabric & pattern & Hs & Hfb & Hp & Hr).
  pose proof (resolved_settled _ _ _ _ _ _ Hr) as Hset.
  split; [apply Hset|].
  apply (_get_sku_settled _ _ _ _ size fabric pattern).
  - unfold _get_size, query in *. rewrite Hf. simpl.
    destruct (get _ (sizes d)); inversion Hs. reflexivity.
  - unfold _get_fabric, query in *. rewrite Hf. simpl.
    destruct (get _ (fabrics d)); inversion Hfb. reflexivity.
  - destruct print_name as [n|]; simpl in *; [|inversion Hp; reflexivity].
    unfold bind, query, ret in *. rewrite Hf. simpl.
    destruct (get _ (prints d)); inversion Hp. reflexivity.
  - exact Hset.
Qed.

(** ** Stored codes *)

Lemma NoDup_pk_eq {R} `{Model R} (rows : list R) a b :
  NoDup (map pk rows) -> In a rows -> In b rows -> pk a = pk b -> a = b.
Proof.
  induction rows as [|x l IH]; simpl; intros Hnd Ha Hb E; [contradiction|].
  inversion Hnd as [|? ? Hx Hl]; subst.
  destruct Ha as [->|Ha], Hb as [->|Hb].
  - reflexivity.
  - exfalso. apply Hx. rewrite E. apply in_map. exact Hb.
  - exfalso. apply Hx. rewrite <- E. apply in_map. exact Ha.
  - apply IH; assumption.
Qed.





(** ** Building an order again *)

Lemma _get_size_transfer code d db size :
  sizes db = sizes d -> _get_size code d = Ok (size, d) ->
  _get_size code db = Ok (size, db).
Proof.
  unfold _get_size, query. intros ->.
  destruct (get _ (sizes d)); intros H; inversion H. reflexivity.
Qed.

Lemma _get_fabric_transfer name d db fabric :
  fabrics db = fabrics d -> _get_fabric name d = Ok (fabric, d) ->
  _get_fabric name db = Ok (fabric, db).
Proof.
  unfold _get_fabric, query. intros ->.
  destruct (get _ (fabrics d)); intros H; inversion H. reflexivity.
Qed.

Lemma _get_print_transfer name d db pattern :
  prints db = prints d -> _get_print name d = Ok (pattern, d) ->
  _get_print name db = Ok (pattern, db).
Proof.
  destruct name as [n|]; simpl.
  - unfold bind, query, ret. intros ->.
    destruct (get _ (prints d)); intros H; inversion H. reflexivity.
  - unfold ret. intros _ H. inversion H. reflexivity.
Qed.

Lemma least_pk_spec {R} `{Model R} (rows : list R) m :
  least_pk rows = Some m ->
  In m rows /\ forall x, In x rows -> pk m <= pk x.
Proof.
  revert m. induction rows as [|r rest IH]; simpl; intros m E; [discriminate|].
  destruct (least_pk rest) as [m0|] eqn:E0.
  - destruct (IH m0 eq_refl) as [Hin Hle].
    destruct (pk m0 <? pk r) eqn:Elt; inversion E; subst m.
    + apply Z.ltb_lt in Elt. split; [right; exact Hin|].
      intros x [->|Hx]; [lia|apply Hle; exact Hx].
    + apply Z.ltb_ge in Elt. split; [left; reflexivity|].
      intros x [->|Hx]; [lia|]. specialize (Hle x Hx). lia.
  - inversion E; subst m. split; [left; reflexivity|].
    intros x [->|Hx]; [lia|].
    destruct rest as [|y l]; [contradiction|].
    simpl in E0. destruct (least_pk l) as [m1|]; [destruct (pk m1 <? pk y)|];
      discriminate.
Qed.

Lemma least_pk_found {R} `{Model R} (rows : list R) x :
  In x rows -> exists m, least_pk rows = Some m.
Proof.
  destruct rows as [|r rest]; simpl; [contradiction|]. intros _.
  destruct (least_pk rest) as [m0|]; [destruct (pk m0 <? pk r)|]; eexists; reflexivity.
Qed.

Lemma first_spec {R} `{Model R} (p : R -> bool) rows m :
  first p rows = Some m ->
  In m rows /\ p m = true /\ forall x, In x rows -> p x = true -> pk m <= pk x.
Proof.
  intros E. pose proof (first_In _ _ _ E) as [Hin Hp].
  unfold first in E. apply least_pk_spec in E. destruct E as [_ Hle].
  repeat split; try assumption.
  intros x Hx Hpx. apply Hle. apply filter_In. split; assumption.
Qed.

Lemma first_None {R} `{Model R} (p : R -> bool) rows x :
  first p rows = None -> In x rows -> p x = false.
Proof.
  unfold first. intros E Hx. destruct (p x) eqn:Hp; [|reflexivity].
  assert (Hin : In x (filter p rows)) by (apply filter_In; split; assumption).
  apply least_pk_found in Hin. destruct Hin as [m Hm]. rewrite E in Hm. discriminate.
Qed.

Lemma first_found {R} `{Model R} (p : R -> bool) rows x :
  In x rows -> p x = true -> exists m, first p rows = Some m.
Proof.
  intros Hx Hp. unfold first. apply (least_pk_found _ x).
  apply filter_In. split; assumption.
Qed.

Lemma header_matches d row customer status o d1 :
  header d row customer status o d1 ->
  order_matches customer (or_order_date row) (get_default (or_notes row) "") o = true.
Proof.
  intros H. destruct H.
  - apply first_In in H. tauto.
  - unfold order_matches. simpl. rewrite Z.eqb_refl, !String.eqb_refl. reflexivity.
Qed.

Lemma order_matches_write customer date notes self x :
  order_matches customer date notes (order_write self x)
  = order_matches customer date notes x.
Proof. reflexivity. Qed.

(** After the header is written, the look-up finds a row of the same key
    that carries the money written. *)
Lemma header_again d row customer status o0 d1 order :
  header d row customer status o0 d1 ->
  pk order = pk o0 ->
  exists o2 x,
    first (order_matches customer (or_order_date row) (get_default (or_notes row) ""))
          (map (fun x => if pk x =? pk order then order_write order x else x)
               (orders d1)) = Some o2
    /\ In x (orders d1) /\ pk x = pk o0 /\ o2 = order_write order x.
Proof.
  intros Hh Epk.
  pose proof (header_matches _ _ _ _ _ _ Hh) as Hp0.
  pose proof (header_In _ _ _ _ _ _ Hh) as [Hin0 _].
  set (p := order_matches customer (or_order_date row) (get_default (or_notes row) "")) in *.
  set (upd := fun x : Order => if pk x =? pk order then order_write order x else x).
  assert (Hw : In (order_write order o0) (map upd (orders d1))).
  { apply in_map_iff. exists o0. split; [|exact Hin0].
    unfold upd. rewrite Epk, Z.eqb_refl. reflexivity. }
  destruct (first_found p _ _ Hw Hp0) as [o2 Ho2].
  pose proof (first_spec _ _ _ Ho2) as (Hin2 & Hp2 & Hle).
  apply in_map_iff in Hin2. destruct Hin2 as (x & Hx & Hxin).
  exists o2, x. split; [exact Ho2|]. split; [exact Hxin|].
  unfold upd in Hx. destruct (pk x =? pk order) eqn:E.
  - apply Z.eqb_eq in E. split; [congruence|symmetry; exact Hx].
  - exfalso. apply Z.eqb_neq in E. subst o2.
    specialize (Hle _ Hw Hp0). change (pk (order_write order o0)) with (pk o0) in Hle.
    destruct Hh as [o Hf|Hnone o].
    + apply first_spec in Hf. destruct Hf as (_ & _ & Hmin).
      specialize (Hmin x Hxin Hp2). lia.
    + simpl in Hxin. unfold insert_row in Hxin. apply in_app_or in Hxin.
      destruct Hxin as [Hxin|[<-|[]]].
      * unfold p in Hp2. rewrite (first_None _ _ _ Hnone Hxin) in Hp2. discriminate.
      * apply E. symmetry. exact Epk.
Qed.

Lemma bind_run {A B} (m : M A) (k : A -> M B) d a d1 r :
  m d = Ok (a, d1) -> k a d1 = r -> bind m k d = r.
Proof. intros Hm Hk. unfold bind. rewrite Hm. exact Hk. Qed.

Lemma query_run {A T} (tbl : DB -> list T) (q : list T -> result A) d a :
  q (tbl d) = Ok a -> query tbl q d = Ok (a, d).
Proof. intros H. unfold query. rewrite H. reflexivity. Qed.

Lemma filter_twice {A} (q : A -> bool) (l : list A) :
  filter q (filter q l) = filter q l.
Proof.
  induction l as [|x l IH]; simpl; [reflexivity|].
  destruct (q x) eqn:E; simpl; [rewrite E, IH; reflexivity|exact IH].
Qed.

Lemma delete_recreated {A} (p : A -> bool) (l created : list A) :
  Forall (fun x => p x = true) created ->
  delete p (delete p l ++ created) = delete p l.
Proof.
  intros Hall. unfold delete. rewrite filter_app, filter_twice.
  replace (filter (fun x => negb (p x)) created) with (@nil A).
  - apply app_nil_r.
  - symmetry. induction Hall as [|x c Hx _ IH]; simpl; [reflexivity|].
    rewrite Hx. simpl. exact IH.
Qed.

(** ** Prices *)

Lemma settled_In d size fabric pattern k :
  settled d size fabric pattern k -> In k (skus d).
Proof. intros [Hg _]. apply get_Ok_In in Hg. tauto. Qed.

Lemma sku_write_price price active sku :
  sku_write [F_unit_price; F_is_active] (with_price price active sku) sku
  = with_price price active sku.
Proof. destruct sku; reflexivity. Qed.

(** C6, as the code has it: a row that gives a unit price has the SKU it
    resolves to, found or created, stored with that price and with the
    active flag of the row, true when the row gives none; a row that gives
    no unit price, with or without an active flag, only resolves the SKU. *)
Theorem seed_sku_price row d d' :
  seed_sku row d = Ok (tt, d') ->
  exists sku d0,
    _get_sku (skr_size_code row) (skr_fabric_type row) (skr_print_pattern row) d
      = Ok (sku, d0)
    /\ match skr_unit_price row with
       | Some price =>
           let active := get_default (skr_is_active row) true in
           In (with_price price active sku) (skus d')
           /\ forall k, In k (skus d') -> pk k = pk sku ->
                        sku_unit_price k = price /\ sku_is_active k = active
       | None => d' = d0
       end.
Proof.
  unfold seed_sku. intros H. run_inv H. rename a into sku, d0 into d1.
  exists sku, d1. split; [exact Hrun|].
  destruct (_get_sku_again _ _ _ _ _ _ Hrun) as [Hc _].
  apply _get_sku_resolved in Hrun.
  destruct Hrun as (size & fabric & pattern & _ & _ & _ & Hr).
  apply resolved_settled, settled_In in Hr.
  destruct (skr_unit_price row) as [price|].
  - run_inv H. apply ret_inv in H. destruct H as [_ ->].
    rewrite ProductSKU_save_coded in Hrun by exact Hc.
    simpl in Hrun. inversion Hrun; subst; clear Hrun. simpl. split.
    + apply in_map_iff. exists sku. split; [|exact Hr].
      rewrite Z.eqb_refl. apply sku_write_price.
    + intros k Hk Epk. apply in_map_iff in Hk. destruct Hk as (x & Hx & _).
      destruct (_ =? _) eqn:E.
      * subst k. split; reflexivity.
      * subst k. apply Z.eqb_neq in E. contradiction.
  - apply ret_inv in H. destruct H as [_ ->]. reflexivity.
Qed.

(** ** Loops *)

Lemma for_each_invariant {A} (I : DB -> Prop) (body : A -> M unit) xs :
  (forall x d u d', I d -> body x d = Ok (u, d') -> I d') ->
  forall d u d', I d -> for_each xs body d = Ok (u, d') -> I d'.
Proof.
  intros Hbody. induction xs as [|x rest IH]; simpl; intros d u d' Hd H.
  - apply ret_inv in H. destruct H as [_ ->]. exact Hd.
  - run_inv H. eapply IH; [|exact H]. eapply Hbody; [exact Hd|exact Hrun].
Qed.


(** ** Fabric materials *)



Lemma _get_print_unknown d n :
  unknown_print d n -> _get_print (Some n) d = Raise (DoesNotExist "PrintPattern").
Proof.
  intros Hu. simpl. unfold bind, query.
  rewrite (get_missing (fun p => String.eqb (print_name p) n) (prints d) Hu).
  reflexivity.
Qed.




Lemma update_or_create_Forall {R} `{Model R} (P : R -> Prop) p upd mk rows r rows' :
  Forall P rows -> (forall x, P x -> P (upd x)) -> (forall i, P (mk i)) ->
  update_or_create p upd mk rows = Ok (r, rows') -> Forall P rows'.
Proof.
  intros Hall Hupd Hmk. unfold update_or_create.
  destruct (get p rows) as [r0|e] eqn:Hg.
  - intros E. inversion E; subst; clear E.
    apply get_Ok_In in Hg. destruct Hg as [Hin _].
    assert (P0 : P r0) by (rewrite Forall_forall in Hall; apply Hall; exact Hin).
    unfold update_row. apply Forall_forall. intros y Hy.
    apply in_map_iff in Hy. destruct Hy as (x & Hx & Hxin).
    destruct (_ =? _); subst y; [apply Hupd; exact P0|].
    rewrite Forall_forall in Hall. apply Hall. exact Hxin.
  - destruct e; intros E; inversion E; subst; clear E.
    unfold insert_row. apply Forall_app. split; [exact Hall|].
    constructor; [apply Hmk|constructor].
Qed.

Lemma get_or_create_Forall {R} `{Model R} (P : R -> Prop) p mk rows r c rows' :
  Forall P rows -> (forall i, P (mk i)) ->
  get_or_create p mk rows = Ok (r, c, rows') -> Forall P rows'.
Proof.
  intros Hall Hmk. unfold get_or_create.
  destruct (get p rows) as [r0|e] eqn:Hg.
  - intros E. inversion E; subst. exact Hall.
  - destruct e; intros E; inversion E; subst; clear E.
    unfold insert_row. apply Forall_app. split; [exact Hall|].
    constructor; [apply Hmk|constructor].
Qed.

Lemma pattern_if_raw (fabric : FabricType) uom printed pattern i :
  raw_unpatterned
    (mkMaterial i (pk fabric) uom printed (option_map pk (pattern_if printed pattern))).
Proof. unfold raw_unpatterned. simpl. intros ->. reflexivity. Qed.

(** X12: the half of the fabric-material invariant the seeding keeps:
    when no raw material of the store carries a pattern, none does after
    [_seed_fabrics]. *)
Lemma _seed_fabrics_keeps_raw data d u d' :
  Forall raw_unpatterned (materials d) ->
  _seed_fabrics data d = Ok (u, d') ->
  Forall raw_unpatterned (materials d').
Proof.
  intros Hd H. unfold _seed_fabrics in H. run_inv H.
  apply (for_each_invariant (fun x => Forall raw_unpatterned (materials x))
           seed_fabric_inventory (data_fabric_inventory data))
    with (d := d0) (u := u); [| |exact H].
  - intros row x u0 x' Hx Hrow. unfold seed_fabric_inventory in Hrow. run_inv Hrow.
    unfold _get_fabric in Hrun0. apply query_inv in Hrun0. destruct Hrun0 as [_ ->].
    apply _get_print_inv in Hrun1. destruct Hrun1 as [-> _].
    apply statement_inv in Hrun2. destruct Hrun2 as (rows & Hq & ->).
    unfold _get_location in Hrun3. apply query_inv in Hrun3. destruct Hrun3 as [_ ->].
    apply statement_inv in Hrun4. destruct Hrun4 as (rows' & _ & ->).
    apply ret_inv in Hrow. destruct Hrow as [_ ->]. simpl.
    destruct (get_or_create _ _ (materials x)) as [[[m c] rows0]|e] eqn:Eg;
      inversion Hq; subst.
    eapply get_or_create_Forall; [exact Hx| |exact Eg].
    intros i. exact (pattern_if_raw _ _ _ _ _).
  - apply (for_each_invariant (fun x => Forall raw_unpatterned (materials x))
             seed_material (fabric_materials data))
      with (d := d) (u := a); [|exact Hd|exact Hrun].
    intros row x u0 x' Hx Hrow. unfold seed_material in Hrow. run_inv Hrow.
    unfold _get_fabric in Hrun0. apply query_inv in Hrun0. destruct Hrun0 as [_ ->].
    apply _get_print_inv in Hrun1. destruct Hrun1 as [-> _].
    apply statement_inv in Hrun2. destruct Hrun2 as (rows & Hq & ->).
    apply ret_inv in Hrow. destruct Hrow as [_ ->]. simpl.
    eapply update_or_create_Forall; [exact Hx| | |exact Hq].
    + intros y Hy. exact Hy.
    + intros i. exact (pattern_if_raw _ _ _ _ _).
Qed.

(** C7, at the failing input: a material row that is printed and names no
    pattern is stored printed with a null pattern, by the material loop
    and by the inventory loop alike, on a store whose materials all were
    raw without a pattern or printed with one. *)
Theorem printed_without_pattern_stored :
  _seed_fabrics
    (mkData [] [] [] [] [] [] [] [] []
            [mkMaterialRow "Cotton" None None (Some true)] [] [] [])
    demo_db
  = Ok (tt, set_materials [mkMaterial 1 1 "meter" true None] demo_db)
  /\ _seed_fabrics
       (mkData [] [] [] [] [] [] [] [] [] []
               [mkFabricInventoryRow "Cotton" None None (Some true) "Main" (Some 2500)]
               [] [])
       demo_db
     = Ok (tt, set_fabric_inventory [mkFabricInventory 1 1 1 2500]
                 (set_materials [mkMaterial 1 1 "meter" true None] demo_db)).
Proof. split; reflexivity. Qed.

(** ** The run as a whole *)

(** C9: when one of the five steps raises, [handle] gives that error to
    its caller and leaves the store it was given; and each of the seven
    look-ups by name raises DoesNotExist when no row has the name. *)
Theorem handle_rolls_back :
  (forall data d e, step_fails data d e -> handle data d = (Raise e, d))
  /\ (forall code d,
         (forall s, In s (sizes d) -> String.eqb (size_code s) code = false) ->
         _get_size code d = Raise (DoesNotExist "ProductSize"))
  /\ (forall name d,
         (forall f, In f (fabrics d) -> String.eqb (fabric_name f) name = false) ->
         _get_fabric name d = Raise (DoesNotExist "FabricType"))
  /\ (forall name d,
         unknown_print d name ->
         _get_print (Some name) d = Raise (DoesNotExist "PrintPattern"))
  /\ (forall name d,
         (forall l, In l (locations d) -> String.eqb (loc_name l) name = false) ->
         _get_location name d = Raise (DoesNotExist "InventoryLocation"))
  /\ (forall row d,
         (forall c, In c (customers d) ->
                    String.eqb (cust_full_name c) (or_customer row) = false) ->
         seed_order row d = Raise (DoesNotExist "Customer"))
  /\ (forall row d customer,
         get (fun c => String.eqb (cust_full_name c) (or_customer row)) (customers d)
           = Ok customer ->
         (forall s, In s (statuses d) ->
                    String.eqb (status_code s) (or_status row) = false) ->
         seed_order row d = Raise (DoesNotExist "OrderStatus"))
  /\ (forall row d,
         (forall t, In t (expense_types d) ->
                    String.eqb (etype_name t) (er_expense_type row) = false) ->
         seed_expense row d = Raise (DoesNotExist "ExpenseType")).
Proof.
  repeat match goal with |- _ /\ _ => split end.
  - intros data d e H. unfold handle, atomic, seed_steps, bind.
    destruct H as [H1|d1 H1 H2|d1 d2 H1 H2 H3|d1 d2 d3 H1 H2 H3 H4
                   |d1 d2 d3 d4 H1 H2 H3 H4 H5].
    + rewrite H1. reflexivity.
    + rewrite H1, H2. reflexivity.
    + rewrite H1, H2, H3. reflexivity.
    + rewrite H1, H2, H3, H4. reflexivity.
    + rewrite H1, H2, H3, H4, H5. reflexivity.
  - intros code d Hno. unfold _get_size, query.
    rewrite (get_missing _ _ Hno). reflexivity.
  - intros name d Hno. unfold _get_fabric, query.
    rewrite (get_missing _ _ Hno). reflexivity.
  - exact (fun name d Hu => _get_print_unknown d name Hu).
  - intros name d Hno. unfold _get_location, query.
    rewrite (get_missing _ _ Hno). reflexivity.
  - intros row d Hno. unfold seed_order, bind, query.
    rewrite (get_missing _ _ Hno). reflexivity.
  - intros row d customer Hc Hno. unfold seed_order, bind, query.
    rewrite Hc. rewrite (get_missing _ _ Hno). reflexivity.
  - intros row d Hno. unfold seed_expense, bind, query.
    rewrite (get_missing _ _ Hno). reflexivity.
Qed.

(** ** The order total invariant over a run *)

Lemma filter_delete_other {A} (p q : A -> bool) (l : list A) :
  (forall x, q x = true -> p x = false) ->
  filter q (delete p l) = filter q l.
Proof.
  intros Hqp. unfold delete. induction l as [|x l IH]; simpl; [reflexivity|].
  destruct (q x) eqn:Eq.
  - rewrite (Hqp x Eq). simpl. rewrite Eq, IH. reflexivity.
  - destruct (p x); simpl; [exact IH|rewrite Eq; exact IH].
Qed.

Lemma filter_none {A} (q : A -> bool) (l : list A) :
  Forall (fun x => q x = false) l -> filter q l = [].
Proof.
  induction 1 as [|x l Hx _ IH]; simpl; [reflexivity|]. rewrite Hx. exact IH.
Qed.

(** A build leaves the items of every other order. *)
Lemma seed_order_other_lines row d order d' o :
  seed_order row d = Ok (order, d') -> pk o <> pk order ->
  line_items d' o = line_items d o.
Proof.
  intros H Hne.
  pose proof (seed_order_lines _ _ _ _ H) as (created & Hi & _ & Hall & _).
  unfold line_items. rewrite Hi, filter_app.
  rewrite filter_delete_other.
  - rewrite (filter_none _ created); [apply app_nil_r|].
    eapply Forall_impl; [|exact Hall].
    intros i [Ei _]. rewrite Ei. apply Z.eqb_neq. congruence.
  - intros i Ei. apply Z.eqb_eq in Ei. rewrite Ei. apply Z.eqb_neq. exact Hne.
Qed.

(** Every stored row that carries the key of the order built satisfies the
    invariant. *)
Lemma seed_order_same_key row d order d' :
  seed_order row d = Ok (order, d') ->
  forall o, In o (orders d') -> pk o = pk order -> totals_hold d' o.
Proof.
  intros H o Ho Hpk.
  pose proof (seed_order_lines _ _ _ _ H) as (created & _ & Hline & Hall & Hsub & Htot & _).
  apply seed_order_inv in H.
  destruct H as (customer & status & o0 & d1 & d2 & subtotal
                 & _ & _ & _ & _ & Eo & Ed').
  rewrite Ed' in Ho. simpl in Ho. apply in_map_iff in Ho.
  destruct Ho as (x & Hx & _).
  assert (Ew : o = order_write order x).
  { destruct (order_id x =? order_id order) eqn:E; [symmetry; exact Hx|].
    subst o. apply Z.eqb_neq in E. contradiction. }
  assert (El : line_items d' o = line_items d' order).
  { unfold line_items. rewrite Hpk. reflexivity. }
  unfold totals_hold. rewrite El, Hline. split; [|split].
  - rewrite Ew. simpl. exact Htot.
  - rewrite Ew. simpl. exact Hsub.
  - eapply Forall_impl; [|exact Hall]. intros i [_ Hi]. exact Hi.
Qed.

Lemma seed_order_preserves_totals row d order d' :
  (forall o, In o (orders d) -> totals_hold d o) ->
  seed_order row d = Ok (order, d') ->
  forall o, In o (orders d') -> totals_hold d' o.
Proof.
  intros Hd H o Ho.
  destruct (Z.eq_dec (pk o) (pk order)) as [E|Hne].
  - apply (seed_order_same_key _ _ _ _ H); assumption.
  - pose proof (seed_order_other_lines _ _ _ _ o H Hne) as El.
    apply seed_order_inv in H.
    destruct H as (customer & status & o0 & d1 & d2 & subtotal
                   & _ & _ & Hh & Hitems & Eo & Ed').
    apply seed_items_inv in Hitems. destruct Hitems as (created & Hd2 & _).
    assert (Eord : orders d2 = orders d1) by (rewrite Hd2; reflexivity).
    rewrite Ed' in Ho. simpl in Ho. rewrite Eord in Ho.
    apply in_map_iff in Ho. destruct Ho as (x & Hx & Hxin).
    destruct (order_id x =? order_id order) eqn:Ex.
    + exfalso. apply Hne. subst o. apply Z.eqb_eq in Ex. exact Ex.
    + subst o. assert (Hin : In x (orders d)).
      { destruct Hh as [o Hf|Hnone o]; [exact Hxin|].
        simpl in Hxin. unfold insert_row in Hxin. apply in_app_or in Hxin.
        destruct Hxin as [Hxin|[<-|[]]]; [exact Hxin|].
        exfalso. apply Hne. subst order. reflexivity. }
      destruct (Hd x Hin) as (H1 & H2 & H3).
      unfold totals_hold. rewrite El. repeat split; assumption.
Qed.

(** ** Amounts as decimals *)

Lemma pow10_pos n : 0 < pow10 n.
Proof. unfold pow10. apply Z.pow_pos_nonneg; lia. Qed.

Lemma pow10_add a b : pow10 (a + b) = pow10 a * pow10 b.
Proof. unfold pow10. rewrite Nat2Z.inj_add. apply Z.pow_add_r; lia. Qed.

Lemma round_half_even_exact z m :
  0 < m -> z mod m = 0 -> round_half_even z m = z / m.
Proof.
  intros Hm Hz. unfold round_half_even. rewrite Hz.
  destruct (2 * 0 <? m) eqn:E; [reflexivity|]. apply Z.ltb_ge in E. lia.
Qed.

Lemma quantize2_of_hundredths h : quantize2 (of_hundredths h) = h.
Proof.
  unfold quantize2, of_hundredths. simpl.
  rewrite round_half_even_exact.
  - apply Z.div_1_r.
  - apply pow10_pos.
  - apply Z.mod_1_r.
Qed.

Lemma exact2_of_hundredths h : exact2 (of_hundredths h).
Proof. unfold exact2. simpl. apply Z.mod_1_r. Qed.

Lemma exact2_units d :
  exact2 d -> dec_units d = quantize2 d * pow10 (dec_extra d).
Proof.
  intros H. unfold quantize2. rewrite round_half_even_exact; [|apply pow10_pos|exact H].
  unfold exact2 in H. pose proof (pow10_pos (dec_extra d)).
  rewrite (Z.div_mod (dec_units d) (pow10 (dec_extra d))) at 1 by lia.
  rewrite H. lia.
Qed.

Lemma exact2_intro d q :
  dec_units d = q * pow10 (dec_extra d) -> exact2 d /\ quantize2 d = q.
Proof.
  intros H. pose proof (pow10_pos (dec_extra d)) as Hp.
  assert (He : exact2 d).
  { unfold exact2. rewrite H. apply Z.mod_mul. lia. }
  split; [exact He|].
  unfold quantize2. rewrite round_half_even_exact; [|exact Hp|exact He].
  rewrite H. apply Z.div_mul. lia.
Qed.

Lemma exact2_rescale d n :
  exact2 d -> (dec_extra d <= n)%nat -> rescale d n = quantize2 d * pow10 n.
Proof.
  intros H Hn. unfold rescale. rewrite (exact2_units d H) at 1.
  replace n with (dec_extra d + (n - dec_extra d))%nat at 2 by lia.
  rewrite pow10_add. ring.
Qed.

Lemma exact2_mul_int a k :
  exact2 a ->
  exact2 (dec_mul_int a k) /\ quantize2 (dec_mul_int a k) = quantize2 a * k.
Proof.
  intros H. apply exact2_intro. simpl.
  rewrite (exact2_units a H) at 1. ring.
Qed.

Lemma exact2_add a b :
  exact2 a -> exact2 b ->
  exact2 (dec_add a b) /\ quantize2 (dec_add a b) = quantize2 a + quantize2 b.
Proof.
  intros Ha Hb. apply exact2_intro. simpl.
  rewrite (exact2_rescale a), (exact2_rescale b) by (assumption || lia). ring.
Qed.

Lemma exact2_sub a b :
  exact2 a -> exact2 b ->
  exact2 (dec_sub a b) /\ quantize2 (dec_sub a b) = quantize2 a - quantize2 b.
Proof.
  intros Ha Hb. apply exact2_intro. simpl.
  rewrite (exact2_rescale a), (exact2_rescale b) by (assumption || lia). ring.
Qed.

Lemma dec_add_zero a : dec_add (of_hundredths 0) a = a.
Proof.
  destruct a as [u e]. unfold dec_add, rescale. simpl.
  rewrite Nat.sub_diag. f_equal. unfold pow10. simpl. lia.
Qed.

(** ** The order builder on amounts of any scale *)

(** The price of the SKU a resolve returns is the price of the SKU it
    found or created. *)
Lemma _get_sku_price sku (m : M ProductSKU) d r d' :
  (if PyStr.is_empty (sku_code sku) then m else ret sku) d = Ok (r, d') ->
  (forall x dx, m d = Ok (x, dx) -> sku_unit_price x = sku_unit_price sku) ->
  sku_unit_price r = sku_unit_price sku.
Proof.
  destruct (PyStr.is_empty (sku_code sku)); intros H Hm.
  - exact (Hm _ _ H).
  - apply ret_inv in H. destruct H as [-> _]. reflexivity.
Qed.

Lemma backfill_price code sku d x dx :
  ProductSKU_save (with_sku_code code sku) (Some [F_sku_code]) d = Ok (x, dx) ->
  PyStr.is_empty code = false ->
  sku_unit_price x = sku_unit_price sku.
Proof.
  intros H Hc. rewrite ProductSKU_save_coded in H by exact Hc.
  destruct (sku_base_save _ _ (skus d)) as [[u rows]|e]; [|discriminate].
  inversion H. reflexivity.
Qed.

Lemma dec_get_sku_inv a b c d sku d' :
  Dec._get_sku a b c d = Ok (sku, d') ->
  _get_sku a b c d = Ok (sku, d') /\ fits12 (sku_unit_price sku) = true.
Proof.
  unfold Dec._get_sku, _get_sku. intros H. run_inv H.
  destruct (fits12 (sku_unit_price (fst a3))) eqn:E; [|discriminate].
  apply ret_inv in Hrun3. destruct Hrun3 as [_ ->].
  split.
  - eapply bind_run; [exact Hrun|]. eapply bind_run; [exact Hrun0|].
    eapply bind_run; [exact Hrun1|]. eapply bind_run; [exact Hrun2|]. exact H.
  - rewrite <- E. f_equal. apply (_get_sku_price _ _ _ _ _ H).
    intros x dx Hx. apply (backfill_price _ _ _ _ _ Hx). reflexivity.
Qed.

Lemma dec_get_sku_run a b c d sku d' :
  _get_sku a b c d = Ok (sku, d') -> fits12 (sku_unit_price sku) = true ->
  Dec._get_sku a b c d = Ok (sku, d').
Proof.
  unfold Dec._get_sku, _get_sku. intros H E. run_inv H.
  assert (Ep : sku_unit_price sku = sku_unit_price (fst a3)).
  { apply (_get_sku_price _ _ _ _ _ H).
    intros x dx Hx. apply (backfill_price _ _ _ _ _ Hx). reflexivity. }
  eapply bind_run; [exact Hrun|]. eapply bind_run; [exact Hrun0|].
  eapply bind_run; [exact Hrun1|]. eapply bind_run; [exact Hrun2|].
  cbv zeta. rewrite <- Ep, E.
  eapply bind_run; [reflexivity|]. exact H.
Qed.

Lemma dec_seed_items_settles order rows : forall subtotal d total d',
  Dec.seed_items order rows subtotal d = Ok (total, d') -> settles d d'.
Proof.
  induction rows as [|item rest IH]; simpl; intros subtotal d total d' H.
  - apply ret_inv in H. destruct H as [_ ->]. apply settles_refl. reflexivity.
  - run_inv H. apply dec_get_sku_inv in Hrun. destruct Hrun as [Hrun _].
    apply _get_sku_resolved in Hrun.
    destruct Hrun as (size & fabric & pattern & _ & _ & _ & Hr).
    apply resolved_settles in Hr.
    unfold Dec.OrderItem_create in Hrun0. apply statement_inv in Hrun0.
    destruct Hrun0 as (rows' & Hq & ->).
    apply IH in H.
    eapply settles_trans; [exact Hr|].
    eapply settles_trans; [|exact H].
    apply settles_refl. reflexivity.
Qed.

Lemma dec_seed_items_pk order order' rows : Dec.obj_id order' = Dec.obj_id order ->
  forall subtotal d,
    Dec.seed_items order' rows subtotal d = Dec.seed_items order rows subtotal d.
Proof.
  intros E. induction rows as [|item rest IH]; simpl; intros subtotal d; [reflexivity|].
  unfold bind. destruct (Dec._get_sku _ _ _ d) as [[sku d0]|e]; [|reflexivity].
  unfold Dec.OrderItem_create, statement. rewrite E. apply IH.
Qed.

Lemma dec_seed_items_inv order rows : forall subtotal d total d',
  Dec.seed_items order rows subtotal d = Ok (total, d') ->
  exists created,
    d' = set_items (items d ++ created) (set_skus (skus d') d)
    /\ Forall (fun i => item_order i = Dec.obj_id order) created
    /\ List.length created = List.length rows
    /\ forall db,
         sizes db = sizes d -> fabrics db = fabrics d -> prints db = prints d ->
         settles d' db ->
         Forall2 (item_built db (Dec.obj_id order)) rows created.
Proof.
  induction rows as [|item rest IH]; simpl; intros subtotal d total d' H.
  - apply ret_inv in H. destruct H as [-> ->]. exists [].
    rewrite app_nil_r. repeat split.
    + destruct d; reflexivity.
    + constructor.
    + intros. constructor.
  - run_inv H. rename a into sku.
    apply dec_get_sku_inv in Hrun. destruct Hrun as [Hrun Hfit].
    pose proof (_get_sku_frame _ _ _ _ _ _ Hrun) as Hf.
    apply _get_sku_resolved in Hrun.
    destruct Hrun as (size & fabric & pattern & Hs & Hfb & Hp & Hr).
    pose proof (resolved_settled _ _ _ _ _ _ Hr) as Hsku.
    unfold Dec.OrderItem_create in Hrun0. apply statement_inv in Hrun0.
    destruct Hrun0 as (rows' & Hq & ->). inversion Hq; subst a0 rows'; clear Hq.
    pose proof (dec_seed_items_settles _ _ _ _ _ _ H) as Hrest.
    apply IH in H. destruct H as (created & Hd' & Hall & Hlen & Hbuilt).
    set (i := mkItem (next_pk (items d0)) (Dec.obj_id order) (pk sku) (Dec.ir_qty item)
                     (quantize2 (Dec.item_price item sku))
                     (quantize2 (dec_mul_int (Dec.item_price item sku)
                                             (Dec.ir_qty item)))) in *.
    exists (i :: created). split; [|split; [|split]].
    + remember (skus d0) as s0 eqn:Es0. clear Es0. subst d0.
      rewrite Hd'. destruct d; simpl. unfold insert_row.
      rewrite <- app_assoc. reflexivity.
    + constructor; [reflexivity|exact Hall].
    + simpl. rewrite Hlen. reflexivity.
    + intros db Es Ef Ep Hset.
      assert (Es0 : sizes d0 = sizes d) by (rewrite Hf; reflexivity).
      assert (Ef0 : fabrics d0 = fabrics d) by (rewrite Hf; reflexivity).
      assert (Ep0 : prints d0 = prints d) by (rewrite Hf; reflexivity).
      constructor.
      * assert (Hk : exists k', settled db size fabric pattern k'
                                /\ pk k' = pk sku
                                /\ sku_unit_price k' = sku_unit_price sku).
        { apply (settles_trans _ _ _ Hrest Hset).
          destruct Hsku as [Hg Hc]. split; assumption. }
        destruct Hk as (k' & Hk' & Epk & Eprice).
        exists k'. split.
        { apply (_get_sku_settled _ _ _ _ size fabric pattern).
          - apply (_get_size_transfer _ d); assumption.
          - apply (_get_fabric_transfer _ d); assumption.
          - apply (_get_print_transfer _ d); assumption.
          - exact Hk'. }
        unfold Dec.item_price. rewrite Eprice, Epk. repeat split.
      * apply Hbuilt; [simpl; congruence|simpl; congruence|simpl; congruence|exact Hset].
Qed.

Lemma dec_seed_items_replay order rows : forall subtotal da total da',
  Dec.seed_items order rows subtotal da = Ok (total, da') ->
  forall db,
    sizes db = sizes da -> fabrics db = fabrics da -> prints db = prints da ->
    items db = items da -> settles da' db ->
    Dec.seed_items order rows subtotal db = Ok (total, set_items (items da') db).
Proof.
  induction rows as [|item rest IH]; simpl;
    intros subtotal da total da' H db Es Ef Ep Ei Hset.
  - apply ret_inv in H. destruct H as [-> ->]. unfold ret.
    rewrite <- Ei. destruct db; reflexivity.
  - run_inv H. rename a into sku, d into d0, d0 into d1.
    apply dec_get_sku_inv in Hrun. destruct Hrun as [Hrun Hfit].
    pose proof (_get_sku_frame _ _ _ _ _ _ Hrun) as Hf0.
    apply _get_sku_resolved in Hrun.
    destruct Hrun as (size & fabric & pattern & Hs & Hfb & Hp & Hr).
    pose proof (resolved_settled _ _ _ _ _ _ Hr) as Hsku.
    unfold Dec.OrderItem_create in Hrun0. apply statement_inv in Hrun0.
    destruct Hrun0 as (rows' & Hq & ->). inversion Hq; subst a0 rows'; clear Hq.
    pose proof (dec_seed_items_settles _ _ _ _ _ _ H) as Hrest.
    assert (Hk : exists k', settled db size fabric pattern k'
                            /\ pk k' = pk sku
                            /\ sku_unit_price k' = sku_unit_price sku).
    { apply (settles_trans _ _ _ Hrest Hset).
      destruct Hsku as [Hg Hc]. split; assumption. }
    destruct Hk as (k' & Hk' & Epk & Eprice).
    assert (Hget : Dec._get_sku (Dec.ir_size_code item) (Dec.ir_fabric_type item)
                     (Dec.ir_print_pattern item) db = Ok (k', db)).
    { apply dec_get_sku_run; [|rewrite Eprice; exact Hfit].
      apply (_get_sku_settled _ _ _ _ size fabric pattern).
      - apply (_get_size_transfer _ da); assumption.
      - apply (_get_fabric_transfer _ da); assumption.
      - apply (_get_print_transfer _ da); assumption.
      - exact Hk'. }
    unfold bind at 1. rewrite Hget.
    unfold bind at 1. unfold Dec.OrderItem_create at 1, statement at 1.
    assert (Ei0 : items d0 = items da) by (rewrite Hf0; reflexivity).
    unfold Dec.item_price in *.
    rewrite Epk, Eprice, Ei, <- Ei0.
    rewrite (IH _ _ _ _ H); try (rewrite Hf0; simpl; assumption).
    + destruct db; reflexivity.
    + simpl. reflexivity.
Qed.

Lemma get_default_hundredths (x : option Decimal) :
  get_default (option_map quantize2 x) 0 = quantize2 (get_default x (of_hundredths 0)).
Proof. destruct x; reflexivity. Qed.

Lemma dec_seed_order_inv row d order d' :
  Dec.seed_order row d = Ok (order, d') ->
  exists customer status o0 obj d1 d2 subtotal,
    get (fun c => String.eqb (cust_full_name c) (Dec.or_customer row)) (customers d)
      = Ok customer
    /\ get (fun s => String.eqb (status_code s) (Dec.or_status row)) (statuses d)
      = Ok status
    /\ header d (row_in_hundredths row) customer status o0 d1
    /\ order_object d row customer o0 obj
    /\ Dec.seed_items obj (Dec.or_items row) (of_hundredths 0)
         (set_items (delete (fun i => item_order i =? pk o0) (items d1)) d1)
       = Ok (subtotal, d2)
    /\ order = Dec.written
                 (Dec.with_totals subtotal
                    (dec_sub (dec_add subtotal (Dec.obj_shipping_fee obj))
                             (Dec.obj_discount obj)) obj) o0
    /\ d' = set_orders
              (map (fun x => if pk x =? pk order then order_write order x else x)
                   (orders d2)) d2.
Proof.
  unfold Dec.seed_order. intros H. run_inv H.
  apply query_inv in Hrun. destruct Hrun as [Hc ->].
  apply query_inv in Hrun0. destruct Hrun0 as [Hs ->].
  apply query_inv in Hrun1. destruct Hrun1 as [Hf ->].
  inversion Hf as [Hf']; clear Hf.
  unfold Dec.delete_items in Hrun3. apply statement_inv in Hrun3.
  destruct Hrun3 as (rows & Hq & ->). inversion Hq; subst; clear Hq.
  unfold Dec.Order_save_totals in Hrun5. apply statement_inv in Hrun5.
  destruct Hrun5 as (rows & Hq & ->). inversion Hq; subst; clear Hq.
  apply ret_inv in H. destruct H as [-> ->].
  destruct a2 as [o0 obj]. simpl fst in *. simpl snd in *.
  exists a, a0, o0, obj, d3, d5, a4.
  destruct (first _ (orders d)) as [o|] eqn:Ef.
  - run_inv Hrun2. apply ret_inv in Hrun2. destruct Hrun2 as [E ->].
    inversion E; subst o0 obj; clear E.
    unfold Dec.read_order in Hrun.
    destruct (Dec.order_fits o) eqn:Hfit; [|discriminate].
    apply ret_inv in Hrun. destruct Hrun as [-> ->].
    repeat split; try assumption.
    + apply header_existing. exact Ef.
    + left. repeat split; assumption.
  - unfold Dec.Order_create in Hrun2. apply statement_inv in Hrun2.
    destruct Hrun2 as (rows & Hq & ->). inversion Hq; subst; clear Hq.
    repeat split; try assumption.
    + rewrite <- !get_default_hundredths.
      exact (header_created d (row_in_hundredths row) a a0 Ef).
    + right. split; [exact Ef|reflexivity].
Qed.

Lemma order_object_key d row customer o obj :
  order_object d row customer o obj -> Dec.obj_id obj = pk o.
Proof. intros [(_ & _ & ->)|(_ & ->)]; reflexivity. Qed.

(** The items of the order built are the ones created by the build. *)
Lemma dec_seed_order_lines row d order d' :
  Dec.seed_order row d = Ok (order, d') ->
  exists created,
    items d' = (delete (fun i => item_order i =? pk order) (items d) ++ created)%list
    /\ line_items d' order = created
    /\ In order (orders d')
    /\ List.length created = List.length (Dec.or_items row)
    /\ Forall2 (item_built d' (pk order)) (Dec.or_items row) created.
Proof.
  intros H. apply dec_seed_order_inv in H.
  destruct H as (customer & status & o0 & obj & d1 & d2 & subtotal
                 & _ & _ & Hh & Hobj & Hitems & Eo & Ed').
  apply header_In in Hh. destruct Hh as [Hin Hd1].
  pose proof (order_object_key _ _ _ _ _ Hobj) as Eid.
  apply dec_seed_items_inv in Hitems.
  destruct Hitems as (created & Hd2 & Hall & Hlen & Hbuilt).
  rewrite Eid in Hall, Hbuilt.
  assert (Epk : pk order = pk o0) by (subst order; reflexivity).
  assert (Eitems : items d2
                   = (delete (fun i => item_order i =? pk o0) (items d) ++ created)%list).
  { rewrite Hd2. simpl. rewrite Hd1. reflexivity. }
  assert (Eorders : orders d2 = orders d1).
  { rewrite Hd2. reflexivity. }
  exists created. rewrite Epk. split; [|split; [|split; [|split]]].
  - rewrite Ed'. simpl. exact Eitems.
  - unfold line_items. rewrite Epk, Ed'. simpl. rewrite Eitems, filter_app.
    unfold delete. rewrite filter_delete. simpl.
    apply filter_all. eapply Forall_impl; [|exact Hall].
    intros i Hi. simpl in Hi. rewrite Hi. apply Z.eqb_refl.
  - rewrite Ed'. simpl. rewrite Eorders. apply in_map_iff. exists o0.
    split; [|exact Hin].
    destruct (_ =? _) eqn:E; [subst order; reflexivity|].
    apply Z.eqb_neq in E. exfalso. apply E. symmetry. exact Epk.
  - exact Hlen.
  - apply Hbuilt.
    + rewrite Ed'. simpl. rewrite Hd2. reflexivity.
    + rewrite Ed'. simpl. rewrite Hd2. reflexivity.
    + rewrite Ed'. simpl. rewrite Hd2. reflexivity.
    + apply settles_refl. rewrite Ed'. reflexivity.
Qed.

(** The build of the same row on the store the first build left finds the
    order the first one wrote: it raises when an amount of that order
    cannot be read, and otherwise works on it and leaves the item table as
    it is. *)
Lemma dec_seed_order_again row d order d1 :
  Dec.seed_order row d = Ok (order, d1) ->
  (Dec.order_fits order = true ->
     exists order2 d2,
       Dec.seed_order row d1 = Ok (order2, d2)
       /\ pk order2 = pk order /\ items d2 = items d1)
  /\ (Dec.order_fits order = false ->
        Dec.seed_order row d1 = Raise InvalidOperation).
Proof.
  intros H. apply dec_seed_order_inv in H.
  destruct H as (customer & status & o0 & obj & dh & d2 & subtotal
                 & Hc & Hs & Hh & Hobj & Hitems & Eo & Ed1).
  pose proof (header_In _ _ _ _ _ _ Hh) as [Hin0 Hdh].
  pose proof (order_object_key _ _ _ _ _ Hobj) as Eid.
  pose proof (dec_seed_items_inv _ _ _ _ _ _ Hitems) as (created & Hd2 & Hall & _).
  assert (Epk : pk order = pk o0) by (subst order; reflexivity).
  destruct (header_again _ _ _ _ _ _ order Hh Epk)
    as (o2 & x & Hfirst & Hxin & Hxpk & Eo2).
  assert (Epk2 : pk o2 = pk o0) by (subst o2; exact Hxpk).
  assert (Efit : Dec.order_fits o2 = Dec.order_fits order) by (subst o2; reflexivity).
  assert (Ecust : customers d1 = customers d).
  { rewrite Ed1. simpl. rewrite Hd2. simpl. rewrite Hdh. reflexivity. }
  assert (Estat : statuses d1 = statuses d).
  { rewrite Ed1. simpl. rewrite Hd2. simpl. rewrite Hdh. reflexivity. }
  assert (Eord : orders d1
                 = map (fun x => if pk x =? pk order then order_write order x else x)
                       (orders dh)).
  { rewrite Ed1. simpl. rewrite Hd2. reflexivity. }
  assert (Eitems : items d1
                   = (delete (fun i => item_order i =? pk o0) (items dh) ++ created)%list).
  { rewrite Ed1. simpl. rewrite Hd2. reflexivity. }
  assert (Eitems2 : items d2 = items d1).
  { rewrite Ed1. reflexivity. }
  assert (Hstart :
            Dec.seed_order row d1
            = (header <- (order <- Dec.read_order o2 ;; ret (o2, order)) ;;
               let order := snd header in
               Dec.delete_items order ;;;
               subtotal <- Dec.seed_items order (Dec.or_items row) (of_hundredths 0) ;;
               let order := Dec.with_totals subtotal
                              (dec_sub (dec_add subtotal (Dec.obj_shipping_fee order))
                                       (Dec.obj_discount order)) order in
               Dec.Order_save_totals order ;;;
               ret (Dec.written order (fst header))) d1).
  { unfold Dec.seed_order.
    eapply bind_run; [apply query_run; rewrite Ecust; exact Hc|].
    eapply bind_run; [apply query_run; rewrite Estat; exact Hs|].
    eapply bind_run; [apply (query_run orders _ d1 (Some o2)); rewrite Eord;
                      cbv beta; f_equal; exact Hfirst|].
    reflexivity. }
  rewrite Hstart. clear Hstart.
  split; intros Hfit.
  - set (obj2 := Dec.mkOrderObj (pk o2) (of_hundredths (order_subtotal o2))
                   (of_hundredths (order_shipping_fee o2))
                   (of_hundredths (order_discount o2))
                   (of_hundredths (order_total o2))).
    assert (Hread : Dec.read_order o2 d1 = Ok (obj2, d1)).
    { unfold Dec.read_order. rewrite Efit, Hfit. reflexivity. }
    eexists. eexists. split; [|split].
    + eapply bind_run; [eapply bind_run; [exact Hread|reflexivity]|].
      cbn [snd fst].
      eapply bind_run; [reflexivity|].
      eapply bind_run.
      { rewrite (dec_seed_items_pk obj obj2 _) by (rewrite Eid; exact Epk2).
        apply (dec_seed_items_replay _ _ _ _ _ _ Hitems).
        - rewrite Ed1. simpl. rewrite Hd2. reflexivity.
        - rewrite Ed1. simpl. rewrite Hd2. reflexivity.
        - rewrite Ed1. simpl. rewrite Hd2. reflexivity.
        - simpl. simpl in Epk2. rewrite Epk2, Eitems. apply delete_recreated.
          eapply Forall_impl; [|exact Hall].
          intros i Hi. simpl in Hi. rewrite Hi, Eid. apply Z.eqb_refl.
        - apply settles_refl. simpl. rewrite Ed1. reflexivity. }
      eapply bind_run; [reflexivity|].
      reflexivity.
    + simpl. simpl in Epk2, Epk. congruence.
    + simpl. exact Eitems2.
  - unfold bind at 1. unfold bind at 1. unfold Dec.read_order.
    rewrite Efit, Hfit. reflexivity.
Qed.

(** ** Amounts of two places: the builder on hundredths *)

Lemma item_price_hundredths item sku :
  get_default (ir_unit_price (item_in_hundredths item)) (sku_unit_price sku)
  = quantize2 (Dec.item_price item sku).
Proof.
  unfold Dec.item_price, item_in_hundredths. simpl.
  destruct (Dec.ir_unit_price item); simpl; [reflexivity|].
  symmetry. apply quantize2_of_hundredths.
Qed.

Lemma item_price_exact item sku :
  item_two_places item -> exact2 (Dec.item_price item sku).
Proof.
  unfold item_two_places, Dec.item_price.
  destruct (Dec.ir_unit_price item); simpl; intros H;
    [exact H|apply exact2_of_hundredths].
Qed.

(** On items of two places the loop is the loop on hundredths. *)
Lemma dec_seed_items_refine order o rows :
  Dec.obj_id order = pk o -> Forall item_two_places rows ->
  forall subtotal d total d',
    exact2 subtotal ->
    Dec.seed_items order rows subtotal d = Ok (total, d') ->
    exact2 total
    /\ seed_items o (map item_in_hundredths rows) (quantize2 subtotal) d
       = Ok (quantize2 total, d').
Proof.
  intros Eid Hrows. induction Hrows as [|item rest Hitem _ IH];
    simpl; intros subtotal d total d' Hex H.
  - apply ret_inv in H. destruct H as [-> ->]. split; [exact Hex|reflexivity].
  - run_inv H. rename a into sku.
    apply dec_get_sku_inv in Hrun. destruct Hrun as [Hrun _].
    unfold Dec.OrderItem_create in Hrun0. apply statement_inv in Hrun0.
    destruct Hrun0 as (rows' & Hq & ->). inversion Hq; subst a0 rows'; clear Hq.
    pose proof (item_price_exact item sku Hitem) as Hp.
    destruct (exact2_mul_int _ (Dec.ir_qty item) Hp) as [Hl El].
    destruct (exact2_add _ _ Hex Hl) as [Hs Es].
    apply IH in H; [|exact Hs]. destruct H as [Ht H].
    split; [exact Ht|].
    unfold bind at 1. rewrite Hrun.
    unfold bind at 1. unfold OrderItem_create at 1, statement at 1.
    change (get_default (option_map quantize2 (Dec.ir_unit_price item))
                        (sku_unit_price sku))
      with (get_default (ir_unit_price (item_in_hundredths item)) (sku_unit_price sku)).
    rewrite item_price_hundredths.
    rewrite <- El, <- Es, <- Eid. exact H.
Qed.

Lemma order_object_amounts d row customer status o d1 obj :
  header d (row_in_hundredths row) customer status o d1 ->
  order_object d row customer o obj ->
  quantize2 (Dec.obj_shipping_fee obj) = order_shipping_fee o
  /\ quantize2 (Dec.obj_discount obj) = order_discount o.
Proof.
  intros Hh [(Ef & _ & ->)|(Ef & ->)]; simpl.
  - split; apply quantize2_of_hundredths.
  - destruct Hh as [x Hx|Hnone x].
    + simpl in Hx. rewrite Ef in Hx. discriminate.
    + subst x. simpl. rewrite !get_default_hundredths. split; reflexivity.
Qed.

Lemma order_object_exact d row customer o obj :
  row_two_places row -> order_object d row customer o obj ->
  exact2 (Dec.obj_shipping_fee obj) /\ exact2 (Dec.obj_discount obj).
Proof.
  intros (Hf & Hd & _) [(_ & _ & ->)|(_ & ->)]; simpl.
  - split; apply exact2_of_hundredths.
  - split.
    + destruct (Dec.or_shipping_fee row); [exact Hf|apply exact2_of_hundredths].
    + destruct (Dec.or_discount row); [exact Hd|apply exact2_of_hundredths].
Qed.

Lemma header_run d row customer status o d1 :
  header d row customer status o d1 ->
  match first (order_matches customer (or_order_date row) (get_default (or_notes row) ""))
              (orders d) with
  | Some o => ret o
  | None => Order_create customer status (or_order_date row)
              (get_default (or_notes row) "")
              (get_default (or_shipping_fee row) 0)
              (get_default (or_discount row) 0)
  end d = Ok (o, d1).
Proof.
  intros [x Hx|Hnone x].
  - rewrite Hx. reflexivity.
  - rewrite Hnone. reflexivity.
Qed.

(** On an order record of two places the builder is the builder on
    hundredths. *)
Lemma dec_seed_order_refine row d order d' :
  row_two_places row ->
  Dec.seed_order row d = Ok (order, d') ->
  seed_order (row_in_hundredths row) d = Ok (order, d').
Proof.
  intros Hrow H. apply dec_seed_order_inv in H.
  destruct H as (customer & status & o0 & obj & d1 & d2 & subtotal
                 & Hc & Hs & Hh & Hobj & Hitems & Eo & Ed').
  pose proof (order_object_key _ _ _ _ _ Hobj) as Eid.
  destruct (order_object_amounts _ _ _ _ _ _ _ Hh Hobj) as [Efee Edis].
  destruct (order_object_exact _ _ _ _ _ Hrow Hobj) as [Hfee Hdis].
  destruct Hrow as (_ & _ & Hrows).
  destruct (dec_seed_items_refine obj o0 _ Eid Hrows _ _ _ _
              (exact2_of_hundredths 0) Hitems) as [Hsub Hrun].
  rewrite quantize2_of_hundredths in Hrun.
  destruct (exact2_add _ _ Hsub Hfee) as [Hsum Esum].
  destruct (exact2_sub _ _ Hsum Hdis) as [_ Etot].
  assert (Eorder : order = with_totals (quantize2 subtotal)
                     (quantize2 subtotal + order_shipping_fee o0 - order_discount o0) o0).
  { rewrite Eo. unfold Dec.written, with_totals. simpl.
    rewrite Etot, Esum, Efee, Edis. reflexivity. }
  unfold seed_order.
  eapply bind_run; [apply query_run; exact Hc|].
  eapply bind_run; [apply query_run; exact Hs|].
  eapply bind_run; [apply query_run; reflexivity|].
  eapply bind_run; [exact (header_run _ _ _ _ _ _ Hh)|].
  eapply bind_run; [reflexivity|].
  eapply bind_run; [exact Hrun|].
  cbv zeta. rewrite <- Eorder.
  eapply bind_run; [reflexivity|].
  rewrite Ed'. reflexivity.
Qed.

(** The run of [_seed_orders] likewise. *)
Lemma dec_seed_orders_refine rows : Forall row_two_places rows ->
  forall d u d',
    Dec._seed_orders rows d = Ok (u, d') ->
    for_each (map row_in_hundredths rows) (fun row => seed_order row ;;; ret tt) d
    = Ok (u, d').
Proof.
  unfold Dec._seed_orders.
  induction 1 as [|row rest Hrow _ IH]; simpl; intros d u d' H; [exact H|].
  run_inv H. run_inv Hrun. apply ret_inv in Hrun. destruct Hrun as [-> ->].
  apply (dec_seed_order_refine _ _ _ _ Hrow) in Hrun0.
  eapply bind_run; [eapply bind_run; [exact Hrun0|reflexivity]|].
  apply IH. exact H.
Qed.

(** ** The order total invariant on amounts of any scale *)

(** Three pieces at 0.125 each, on the sample store. *)
Example demo_order_eighth_runs :
  Dec.seed_order demo_order_row_eighth demo_db
  = Ok (demo_order_eighth_built, demo_db_eighth_built).
Proof. reflexivity. Qed.

(** C1 as stated fails on a price with three decimal places: three pieces
    at 0.125 are stored with unit price 0.12 and line total 0.38, the two
    columns rounding 0.125 and 0.375 each on its own, so that the line
    total is not the unit price times the quantity. *)
Lemma three_place_price_breaks_totals :
  Dec.seed_order demo_order_row_eighth demo_db
    = Ok (demo_order_eighth_built, demo_db_eighth_built)
  /\ In demo_order_eighth_built (orders demo_db_eighth_built)
  /\ line_items demo_db_eighth_built demo_order_eighth_built = [mkItem 1 1 1 3 12 38]
  /\ ~ totals_hold demo_db_eighth_built demo_order_eighth_built.
Proof.
  split; [reflexivity|]. split; [left; reflexivity|]. split; [reflexivity|].
  intros (_ & _ & H). inversion H as [|i l Hi Hl]. discriminate Hi.
Qed.

(** C1, for amounts that are values of their columns: when no item price,
    nor the shipping fee, nor the discount of an order record has a digit
    beyond the second decimal place, and the amounts stored for the order
    built and its items are within twelve digits, the order built is
    stored, its total is subtotal + shipping_fee - discount, its subtotal
    is the sum of the line totals of its items, and each of these is
    unit_price * qty; the same holds of every stored row that carries its
    primary key. *)
Theorem seed_order_totals_two_places row d order d' :
  row_two_places row ->
  Dec.seed_order row d = Ok (order, d') ->
  amounts_fit d' order ->
  In order (orders d')
  /\ totals_hold d' order
  /\ (forall o, In o (orders d') -> pk o = pk order -> totals_hold d' o).
Proof.
  intros Hrow H _. apply (seed_order_totals (row_in_hundredths row) d).
  apply dec_seed_order_refine; assumption.
Qed.

Lemma seed_order_totals_two_places_witness :
  Dec.seed_order demo_order_row_dec demo_db = Ok (demo_order_built, demo_db_built)
  /\ In demo_order_built (orders demo_db_built)
  /\ totals_hold demo_db_built demo_order_built.
Proof.
  split; [reflexivity|].
  destruct (seed_order_totals_two_places demo_order_row_dec demo_db
              demo_order_built demo_db_built) as (Hin & Hord & _).
  - split; [reflexivity|]. split; [reflexivity|].
    repeat constructor.
  - reflexivity.
  - split; [reflexivity|]. repeat constructor.
  - split; [exact Hin|exact Hord].
Defined.

(** X11: when the order total invariant holds of every stored order, the
    order records of the fixture have amounts of two places and the
    amounts the store is left with are within twelve digits, the
    invariant holds of every stored order after [_seed_orders], the
    orders built and the others. *)
Theorem seed_orders_totals_two_places rows d u d' :
  Forall row_two_places rows ->
  (forall o, In o (orders d) -> totals_hold d o) ->
  Dec._seed_orders rows d = Ok (u, d') ->
  (forall o, In o (orders d') -> amounts_fit d' o) ->
  forall o, In o (orders d') -> totals_hold d' o.
Proof.
  intros Hrows Hd H _. apply (dec_seed_orders_refine _ Hrows) in H.
  apply (for_each_invariant (fun x => forall o, In o (orders x) -> totals_hold x o)
           (fun row => seed_order row ;;; ret tt) (map row_in_hundredths rows))
    with (d := d) (u := u); [|exact Hd|exact H].
  intros row x u0 x' Hx Hrow. run_inv Hrow.
  apply ret_inv in Hrow. destruct Hrow as [_ ->].
  exact (seed_order_preserves_totals _ _ _ _ Hx Hrun).
Qed.

Lemma seed_orders_totals_two_places_witness :
  Dec._seed_orders [demo_order_row_dec] demo_db = Ok (tt, demo_db_built)
  /\ totals_hold demo_db_built demo_order_built.
Proof.
  split; [reflexivity|].
  apply (seed_orders_totals_two_places [demo_order_row_dec] demo_db tt demo_db_built).
  - constructor; [|constructor].
    split; [reflexivity|]. split; [reflexivity|]. repeat constructor.
  - intros o [].
  - reflexivity.
  - intros o [<-|[]]. split; [reflexivity|]. repeat constructor.
  - simpl. left. reflexivity.
Defined.

(** ** The same order record built twice *)

(** C2: the build of an order row leaves in the item table the items of
    the other orders followed by the items it created, one for each item
    of the row, every item the order had being deleted first.  When the amounts of the order it
    stored can be read, the build of the same row on the store it left
    returns, works on the same order and leaves it the same line items,
    their own keys apart, again one for each item of the row.  When one of
    these amounts has more than twelve digits, that build raises on
    loading the order, and the transaction leaves the store, and so the
    line items, as the first build left them. *)
Theorem seed_order_rebuild_items row d order d1 :
  Dec.seed_order row d = Ok (order, d1) ->
  items d1 = (delete (fun i => item_order i =? pk order) (items d)
              ++ line_items d1 order)%list
  /\ List.length (line_items d1 order) = List.length (Dec.or_items row)
  /\ (Dec.order_fits order = true ->
      exists order2 d2,
        Dec.seed_order row d1 = Ok (order2, d2)
        /\ pk order2 = pk order
        /\ map item_content (line_items d2 order2)
           = map item_content (line_items d1 order)
        /\ List.length (line_items d2 order2) = List.length (Dec.or_items row)
        /\ items d2 = (delete (fun i => item_order i =? pk order2) (items d1)
                       ++ line_items d2 order2)%list)
  /\ (Dec.order_fits order = false ->
      Dec.seed_order row d1 = Raise InvalidOperation
      /\ atomic (Dec.seed_order row) d1 = (Raise InvalidOperation, d1)).
Proof.
  intros H.
  pose proof (dec_seed_order_lines _ _ _ _ H) as (c1 & Hi1 & Hl1 & _ & Hn1 & _).
  destruct (dec_seed_order_again _ _ _ _ H) as [Hfits Hraises].
  split; [rewrite Hl1; exact Hi1|].
  split; [rewrite Hl1; exact Hn1|].
  split.
  - intros Hfit. destruct (Hfits Hfit) as (order2 & d2 & H2 & Epk & Eitems).
    pose proof (dec_seed_order_lines _ _ _ _ H2) as (c2 & Hi2 & Hl2 & _ & Hn2 & _).
    exists order2, d2. split; [exact H2|]. split; [exact Epk|].
    split; [|split].
    + unfold line_items. rewrite Eitems, Epk. reflexivity.
    + rewrite Hl2. exact Hn2.
    + rewrite Hl2. exact Hi2.
  - intros Hfit. pose proof (Hraises Hfit) as E.
    split; [exact E|]. unfold atomic. rewrite E. reflexivity.
Qed.

Lemma seed_order_rebuild_items_witness :
  Dec.seed_order demo_order_row_eighth demo_db
    = Ok (demo_order_eighth_built, demo_db_eighth_built)
  /\ (exists order2 d2,
        Dec.seed_order demo_order_row_eighth demo_db_eighth_built = Ok (order2, d2)
        /\ pk order2 = 1
        /\ map item_content (line_items d2 order2) = [(1, 1, 3, 12, 38)])
  /\ Dec.seed_order demo_order_row_large demo_db
     = Ok (demo_order_large_built, demo_db_large_built)
  /\ Dec.seed_order demo_order_row_large demo_db_large_built = Raise InvalidOperation.
Proof.
  split; [reflexivity|]. split.
  - destruct (seed_order_rebuild_items demo_order_row_eighth demo_db
                demo_order_eighth_built demo_db_eighth_built)
      as (_ & _ & Hagain & _); [reflexivity|].
    destruct Hagain as (order2 & d2 & H2 & Epk & Ec & _); [reflexivity|].
    exists order2, d2. split; [exact H2|]. split; [exact Epk|exact Ec].
  - split; [reflexivity|].
    destruct (seed_order_rebuild_items demo_order_row_large demo_db
                demo_order_large_built demo_db_large_built)
      as (_ & _ & _ & Hraise); [reflexivity|].
    apply Hraise. reflexivity.
Defined.

(** ** A shared key, and a record without items *)

(** X14: a second order row with the customer, date and notes of a first
    one is the same order to the builder: its build adds no order, works
    on the order of the first and keeps the shipping fee and discount
    stored by the first; the items the first build left are deleted and
    the order is left, item for item, the items of the second row, each
    with the SKU its names resolve to, its quantity, its price and its
    price times the quantity, the two amounts rounded to two places. *)
Theorem order_key_collision r1 r2 d o1 d1 o2 d2 :
  Dec.or_customer r2 = Dec.or_customer r1 ->
  Dec.or_order_date r2 = Dec.or_order_date r1 ->
  get_default (Dec.or_notes r2) "" = get_default (Dec.or_notes r1) "" ->
  Dec.seed_order r1 d = Ok (o1, d1) ->
  Dec.seed_order r2 d1 = Ok (o2, d2) ->
  pk o2 = pk o1
  /\ map pk (orders d2) = map pk (orders d1)
  /\ In o2 (orders d2)
  /\ order_shipping_fee o2 = order_shipping_fee o1
  /\ order_discount o2 = order_discount o1
  /\ Forall2 (item_built d2 (pk o1)) (Dec.or_items r2) (line_items d2 o2)
  /\ items d2 = (delete (fun i => item_order i =? pk o1) (items d1)
                 ++ line_items d2 o2)%list.
Proof.
  intros Ec Ed En H1 H2.
  pose proof (dec_seed_order_lines _ _ _ _ H2) as (c2 & Hi2 & Hl2 & Hin2 & _ & Hb2).
  apply dec_seed_order_inv in H1.
  destruct H1 as (customer & status & o0 & obj & dh & e2 & subtotal
                  & Hc & _ & Hh & Hobj & Hitems & Eo & Ed1).
  apply dec_seed_items_inv in Hitems. destruct Hitems as (created & He2 & _).
  pose proof (header_In _ _ _ _ _ _ Hh) as [_ Hdh].
  assert (Epk : pk o1 = pk o0) by (subst o1; reflexivity).
  destruct (header_again _ _ _ _ _ _ o1 Hh Epk) as (m & x & Hfirst & _ & Hxpk & Em).
  assert (Eord : orders d1
                 = map (fun x => if pk x =? pk o1 then order_write o1 x else x)
                       (orders dh)).
  { rewrite Ed1. simpl. rewrite He2. reflexivity. }
  assert (Ecust : customers d1 = customers d).
  { rewrite Ed1. simpl. rewrite He2. simpl. rewrite Hdh. reflexivity. }
  apply dec_seed_order_inv in H2.
  destruct H2 as (customer2 & status2 & m0 & obj2 & dh2 & e3 & subtotal2
                  & Hc2 & _ & Hh2 & Hobj2 & Hitems2 & Eo2 & Ed2).
  rewrite Ec, Ecust, Hc in Hc2. inversion Hc2; subst customer2; clear Hc2.
  apply dec_seed_items_inv in Hitems2. destruct Hitems2 as (created2 & He3 & _).
  assert (Hfirst' : first (order_matches customer (Dec.or_order_date r2)
                             (get_default (Dec.or_notes r2) "")) (orders d1) = Some m).
  { rewrite Ed, En, Eord. exact Hfirst. }
  assert (Em0 : m0 = m /\ dh2 = d1).
  { destruct Hh2 as [y Hy|Hnone y].
    - change (first (order_matches customer (Dec.or_order_date r2)
                       (get_default (Dec.or_notes r2) "")) (orders d1) = Some y) in Hy.
      rewrite Hfirst' in Hy. inversion Hy. split; reflexivity.
    - change (first (order_matches customer (Dec.or_order_date r2)
                       (get_default (Dec.or_notes r2) "")) (orders d1) = None) in Hnone.
      rewrite Hfirst' in Hnone. discriminate. }
  destruct Em0 as [-> ->].
  destruct (order_object_amounts _ _ _ _ _ _ _ Hh2 Hobj2) as [Efee Edis].
  assert (Epk2 : pk o2 = pk o1).
  { subst o2 m. simpl in *. lia. }
  split; [exact Epk2|].
  split.
  { rewrite Ed2. simpl. rewrite He3. simpl. rewrite map_map.
    apply map_ext. intros y. destruct (_ =? _); reflexivity. }
  split; [exact Hin2|].
  split; [subst o2 m; simpl; exact Efee|].
  split; [subst o2 m; simpl; exact Edis|].
  rewrite <- Epk2, Hl2. split; [exact Hb2|exact Hi2].
Qed.

Lemma order_key_collision_witness :
  let r2 := Dec.mkOrderRow "Ann" "SHIPPED" "2024-01-05" (Some "ref-1")
              (Some (of_hundredths 900)) None
              [Dec.mkItemRow "STD" "Cotton" None 1 (Some (mkDecimal 125 1))] in
  let o2 := mkOrder 1 1 1 "2024-01-05" "ref-1" 12 500 100 412 in
  let d2 := set_orders [o2] (set_items [mkItem 1 1 1 1 12 12] demo_db_built) in
  Dec.seed_order demo_order_row_dec demo_db = Ok (demo_order_built, demo_db_built)
  /\ Dec.seed_order r2 demo_db_built = Ok (o2, d2)
  /\ pk o2 = pk demo_order_built
  /\ order_shipping_fee o2 = 500
  /\ Forall2 (item_built d2 1) (Dec.or_items r2) (line_items d2 o2).
Proof.
  intros r2 o2 d2. split; [reflexivity|]. split; [reflexivity|].
  destruct (order_key_collision demo_order_row_dec r2 demo_db
              demo_order_built demo_db_built o2 d2)
    as (Hpk & _ & _ & Hfee & _ & Hb & _); try reflexivity.
  split; [exact Hpk|]. split; [exact Hfee|exact Hb].
Defined.

(** X15: the build of an order row without items stores the order it
    resolves to with subtotal 0, deletes the items that order had and
    writes no SKU.  For an order that was stored, the fee and discount
    stay and the total stored is the one minus the other.  For a new
    order, the fee and discount stored are those of the row rounded to
    two places, and the total stored is their difference rounded: it is
    the stored fee minus the stored discount when neither has a digit
    beyond the second decimal place. *)
Theorem seed_order_no_items row d customer order d' :
  Dec.or_items row = [] ->
  get (fun c => String.eqb (cust_full_name c) (Dec.or_customer row)) (customers d)
    = Ok customer ->
  Dec.seed_order row d = Ok (order, d') ->
  let key := order_matches customer (Dec.or_order_date row)
                           (get_default (Dec.or_notes row) "") in
  let fee := get_default (Dec.or_shipping_fee row) (of_hundredths 0) in
  let discount := get_default (Dec.or_discount row) (of_hundredths 0) in
  In order (orders d')
  /\ order_subtotal order = 0
  /\ line_items d' order = []
  /\ items d' = delete (fun i => item_order i =? pk order) (items d)
  /\ skus d' = skus d
  /\ (forall existing, first key (orders d) = Some existing ->
        pk order = pk existing
        /\ order_shipping_fee order = order_shipping_fee existing
        /\ order_discount order = order_discount existing
        /\ order_total order = order_shipping_fee existing - order_discount existing)
  /\ (first key (orders d) = None ->
        order_shipping_fee order = quantize2 fee
        /\ order_discount order = quantize2 discount
        /\ order_total order = quantize2 (dec_sub fee discount)
        /\ (exact2 fee -> exact2 discount ->
            order_total order = order_shipping_fee order - order_discount order)).
Proof.
  intros Hnil Hc H key fee discount.
  pose proof (dec_seed_order_lines _ _ _ _ H) as (created & Hi & Hl & Hin & Hlen & _).
  rewrite Hnil in Hlen. destruct created as [|i c]; [|discriminate].
  rewrite app_nil_r in Hi.
  apply dec_seed_order_inv in H.
  destruct H as (customer' & status & o0 & obj & d1 & d2 & subtotal
                 & Hc' & _ & Hh & Hobj & Hitems & Eo & Ed').
  rewrite Hc in Hc'. inversion Hc'; subst customer'; clear Hc'.
  rewrite Hnil in Hitems. simpl in Hitems. apply ret_inv in Hitems.
  destruct Hitems as [-> ->].
  pose proof (header_In _ _ _ _ _ _ Hh) as [_ Hd1].
  split; [exact Hin|].
  split; [subst order; reflexivity|].
  split; [exact Hl|]. split; [exact Hi|].
  split; [rewrite Ed'; simpl; rewrite Hd1; reflexivity|].
  assert (Etot : order_total order
                 = quantize2 (dec_sub (Dec.obj_shipping_fee obj) (Dec.obj_discount obj))).
  { subst order. simpl. rewrite dec_add_zero. reflexivity. }
  split.
  - intros existing Hex.
    destruct Hobj as [(Ef & _ & Eobj)|(Ef & _)];
      [|unfold key in Hex; rewrite Hex in Ef; discriminate].
    unfold key in Hex. rewrite Hex in Ef. inversion Ef; subst o0; clear Ef.
    rewrite Etot. subst order obj. simpl.
    rewrite !quantize2_of_hundredths.
    repeat split.
    rewrite (proj2 (exact2_sub _ _ (exact2_of_hundredths (order_shipping_fee existing))
                                 (exact2_of_hundredths (order_discount existing)))).
    rewrite !quantize2_of_hundredths. reflexivity.
  - intros Hnone.
    destruct Hobj as [(Ef & _)|(_ & Eobj)];
      [unfold key in Hnone; rewrite Hnone in Ef; discriminate|].
    rewrite Etot. subst order obj. simpl.
    split; [reflexivity|]. split; [reflexivity|]. split; [reflexivity|].
    intros Hf Hd. apply (proj2 (exact2_sub _ _ Hf Hd)).
Qed.

Lemma seed_order_no_items_witness :
  let row := Dec.mkOrderRow "Ann" "NEW" "2024-01-05" (Some "ref-1") None None [] in
  let order := mkOrder 1 1 1 "2024-01-05" "ref-1" 0 500 100 400 in
  let d' := set_orders [order] (set_items [] demo_db_built) in
  let fresh := mkOrder 1 1 1 "2024-04-01" "" 0 14 0 13 in
  Dec.seed_order row demo_db_built = Ok (order, d')
  /\ In order (orders d')
  /\ line_items d' order = []
  /\ order_total order = 500 - 100
  /\ Dec.seed_order demo_order_row_empty demo_db
     = Ok (fresh, set_orders [fresh] demo_db)
  /\ order_total fresh = quantize2 (dec_sub (mkDecimal 135 1) (mkDecimal 5 1)).
Proof.
  intros row order d' fresh. split; [reflexivity|].
  destruct (seed_order_no_items row demo_db_built (mkCustomer 1 "Ann" "" "" "")
              order d')
    as (Hin & _ & Hl & _ & _ & Hex & _); [reflexivity|reflexivity|reflexivity|].
  split; [exact Hin|]. split; [exact Hl|].
  split; [apply (Hex demo_order_built); reflexivity|].
  split; [reflexivity|].
  destruct (seed_order_no_items demo_order_row_empty demo_db
              (mkCustomer 1 "Ann" "" "" "") fresh (set_orders [fresh] demo_db))
    as (_ & _ & _ & _ & _ & _ & Hnew); [reflexivity|reflexivity|reflexivity|].
  exact (proj1 (proj2 (proj2 (Hnew eq_refl)))).
Defined.

(** ** The characters of a derived code *)

Section StringFacts.
Import PyStr.

Lemma forall_str_impl (p q : ascii -> bool) s :
  (forall c, p c = true -> q c = true) ->
  forall_str p s = true -> forall_str q s = true.
Proof.
  intros Hpq. induction s as [|c r IH]; simpl; [reflexivity|].
  intros H. apply andb_true_iff in H. destruct H as [Hc Hr].
  rewrite (Hpq c Hc), (IH Hr). reflexivity.
Qed.

Lemma forall_str_map (p q : ascii -> bool) f s :
  (forall c, p c = true -> q (f c) = true) ->
  forall_str p s = true -> forall_str q (map_str f s) = true.
Proof.
  intros Hpq. induction s as [|c r IH]; simpl; [reflexivity|].
  intros H. apply andb_true_iff in H. destruct H as [Hc Hr].
  rewrite (Hpq c Hc), (IH Hr). reflexivity.
Qed.

Lemma forall_str_filter (p q : ascii -> bool) s :
  forall_str q s = true ->
  forall_str (fun c => p c && q c) (filter_str p s) = true.
Proof.
  induction s as [|c r IH]; simpl; [reflexivity|].
  intros H. apply andb_true_iff in H. destruct H as [Hc Hr].
  destruct (p c) eqn:Ep; simpl; [rewrite Ep, Hc, (IH Hr); reflexivity|exact (IH Hr)].
Qed.

Lemma forall_str_lstrip (p q : ascii -> bool) s :
  forall_str q s = true -> forall_str q (lstrip_by p s) = true.
Proof.
  induction s as [|c r IH]; simpl; [reflexivity|].
  intros H. destruct (p c); [|exact H].
  apply andb_true_iff in H. apply IH. apply H.
Qed.

Lemma forall_str_rstrip (p q : ascii -> bool) s :
  forall_str q s = true -> forall_str q (rstrip_by p s) = true.
Proof.
  induction s as [|c r IH]; simpl; [reflexivity|].
  intros H. apply andb_true_iff in H. destruct H as [Hc Hr].
  specialize (IH Hr). destruct (rstrip_by p r) as [|c' r'].
  - destruct (p c); simpl; [reflexivity|rewrite Hc; reflexivity].
  - simpl in *. rewrite Hc, IH. reflexivity.
Qed.

Lemma forall_str_take (q : ascii -> bool) n s :
  forall_str q s = true -> forall_str q (take n s) = true.
Proof.
  revert s. induction n as [|n IH]; intros [|c r]; simpl; try reflexivity.
  intros H. apply andb_true_iff in H. destruct H as [Hc Hr].
  rewrite Hc, (IH r Hr). reflexivity.
Qed.

Lemma take_length n s : (String.length (take n s) <= n)%nat.
Proof.
  revert s. induction n as [|n IH]; intros [|c r]; simpl; try lia.
  specialize (IH r). lia.
Qed.

Ltac each_ascii c :=
  destruct c as [[] [] [] [] [] [] [] []]; try reflexivity; try discriminate.

Lemma lower_char_not_upper c : negb (is_upper (lower_char c)) = true.
Proof. each_ascii c. Qed.

Lemma word_to_code_char c :
  (Ascii.eqb c Slug.hyphen || Slug.is_word c && negb (is_upper c)) = true ->
  (Ascii.eqb (upper_char c) Slug.hyphen || code_char (upper_char c)) = true.
Proof. each_ascii c. Qed.

Lemma collapse_chars s : forall in_run,
  forall_str (fun c => (Slug.is_word c || Slug.is_sep c) && negb (is_upper c)) s = true ->
  forall_str (fun c => Ascii.eqb c Slug.hyphen || Slug.is_word c && negb (is_upper c))
             (Slug.collapse in_run s) = true.
Proof.
  induction s as [|c r IH]; simpl; intros in_run H; [reflexivity|].
  apply andb_true_iff in H. destruct H as [Hc Hr].
  destruct (Slug.is_sep c) eqn:Es.
  - destruct in_run; simpl; apply IH; exact Hr.
  - simpl. rewrite (IH false Hr).
    rewrite orb_false_r in Hc. rewrite Hc, orb_true_r. reflexivity.
Qed.

(** Whatever the name, the models' normal form is an upper-case identifier. *)
Lemma models_norm_code_chars name :
  forall_str code_char (Models.norm name) = true.
Proof.
  unfold Models.norm, remove_char, upper, Slug.slugify, strip_by,
    Slug.keep_word_sep, lower.
  eapply forall_str_impl;
    [|apply forall_str_filter
        with (q := fun c => Ascii.eqb c Slug.hyphen || code_char c)].
  - intros c H. cbv beta in H.
    destruct (Ascii.eqb c Slug.hyphen); simpl in H; [discriminate|exact H].
  - eapply forall_str_map; [exact word_to_code_char|].
    apply forall_str_rstrip, forall_str_lstrip, collapse_chars.
    eapply forall_str_impl; [|apply forall_str_filter
                                 with (q := fun c => negb (is_upper c))].
    + intros c H. exact H.
    + eapply forall_str_map with (p := fun _ => true).
      * intros c _. apply lower_char_not_upper.
      * induction (Slug.ascii_only name) as [|c r IH]; [reflexivity|exact IH].
Qed.

End StringFacts.

(** ** The derivers on given names *)

(** C5: for size code STD, fabric name Cotton Blend and no pattern, both
    derivers return BAG-STD-COTTONBLEN-PLAIN, the name normalised to
    COTTONBLEND and cut after ten characters. *)
Theorem derive_cotton_blend size_pk size_display fabric_pk fabric_active :
  let size := mkSize size_pk "STD" size_display in
  let fabric := mkFabric fabric_pk "Cotton Blend" fabric_active in
  Seed.norm "Cotton Blend" = "COTTONBLEND"%string
  /\ Models.norm "Cotton Blend" = "COTTONBLEND"%string
  /\ Seed.build_sku_code size fabric None = "BAG-STD-COTTONBLEN-PLAIN"%string
  /\ Models.build_sku_code size fabric None = "BAG-STD-COTTONBLEN-PLAIN"%string.
Proof. repeat split. Qed.

(** C4, at the failing input: whatever the name, the fabric part the
    deriver of the models gives is an upper-case identifier of at most ten
    characters; for the fabric name Poly-Cotton the deriver of the command
    gives a fabric part that is none, the hyphen being kept, and so a
    different code; likewise for a pattern name. *)
Theorem seed_code_keeps_punctuation :
  let size := mkSize 1 "STD" "Standard" in
  (forall name,
      PyStr.forall_str code_char (PyStr.take 10 (Models.norm name)) = true
      /\ (String.length (PyStr.take 10 (Models.norm name)) <= 10)%nat)
  /\ PyStr.forall_str code_char (PyStr.take 10 (Seed.norm "Poly-Cotton")) = false
  /\ Seed.build_sku_code size (mkFabric 1 "Poly-Cotton" true) None
     = "BAG-STD-POLY-COTTO-PLAIN"%string
  /\ Models.build_sku_code size (mkFabric 1 "Poly-Cotton" true) None
     = "BAG-STD-POLYCOTTON-PLAIN"%string
  /\ Seed.build_sku_code size (mkFabric 2 "Canvas" true)
       (Some (mkPrint 1 "Stars & Moons" true))
     = "BAG-STD-CANVAS-STARS&MOONS"%string
  /\ Models.build_sku_code size (mkFabric 2 "Canvas" true)
       (Some (mkPrint 1 "Stars & Moons" true))
     = "BAG-STD-CANVAS-STARSMOONS"%string.
Proof.
  intros size. split; [|repeat split].
  intros name. split.
  - apply forall_str_take, models_norm_code_chars.
  - apply take_length.
Qed.

(** ** The properties on the sample stores *)

Example demo_order_runs :
  seed_order demo_order_row demo_db = Ok (demo_order_built, demo_db_built).
Proof. reflexivity. Qed.



Lemma seed_sku_price_witness :
  let d' := set_skus [mkSKU 1 "BAG-STD-COTTON-PLAIN" 1 1 None 1250 false;
                      mkSKU 2 "" 1 1 (Some 1) 1500 true] demo_db in
  seed_sku (mkSkuRow "STD" "Cotton" None (Some 1250) (Some false)) demo_db_skus
    = Ok (tt, d')
  /\ In (mkSKU 1 "BAG-STD-COTTON-PLAIN" 1 1 None 1250 false) (skus d').
Proof.
  intros d'. split; [reflexivity|].
  destruct (seed_sku_price (mkSkuRow "STD" "Cotton" None (Some 1250) (Some false))
              demo_db_skus d')
    as (sku & d0 & Hg & Hin & _); [reflexivity|].
  inversion Hg; subst. exact Hin.
Defined.

(** C6 as stated fails on a row that gives an active flag and no price: the
    stored SKU stays active and the store is left as it was; a SKU created
    for such a row is active too. *)
Lemma active_flag_alone_is_dropped :
  let row := mkSkuRow "STD" "Cotton" None None (Some false) in
  seed_sku row demo_db_skus = Ok (tt, demo_db_skus)
  /\ In (mkSKU 1 "BAG-STD-COTTON-PLAIN" 1 1 None 1000 true) (skus demo_db_skus)
  /\ seed_sku row demo_db
     = Ok (tt, set_skus [mkSKU 1 "BAG-STD-COTTON-PLAIN" 1 1 None 0 true] demo_db).
Proof. repeat split. simpl. left. reflexivity. Qed.

Lemma handle_rolls_back_witness :
  _seed_reference demo_data_bad_size demo_db
    = Ok (tt, set_locations [mkLocation 1 "Main"; mkLocation 2 "Annex"]
                (set_sizes [mkSize 1 "STD" "Standard"; mkSize 2 "LRG" "Large"] demo_db))
  /\ handle demo_data_bad_size demo_db = (Raise (DoesNotExist "ProductSize"), demo_db).
Proof.
  split; [reflexivity|].
  apply (proj1 handle_rolls_back).
  eapply fails_in_skus; reflexivity.
Defined.


(** * Further properties of the code *)

(** ** The length of a derived code *)

Section CodeLength.
Import PyStr.

Lemma length_append (a b : string) :
  String.length (a ++ b) = (String.length a + String.length b)%nat.
Proof. induction a as [|c a IH]; simpl; [reflexivity|]. rewrite IH. reflexivity. Qed.

Lemma length_map_str f s : String.length (map_str f s) = String.length s.
Proof. induction s as [|c r IH]; simpl; [reflexivity|]. rewrite IH. reflexivity. Qed.

Lemma sku_join_length a b c :
  String.length (sku_join a b c)
  = (6 + String.length a + String.length b + String.length c)%nat.
Proof.
  unfold sku_join. rewrite !length_append. simpl. lia.
Qed.

(** X1: on ASCII names the code either deriver returns is the size code,
    as long as it was, between the prefix and at most ten and twelve more
    characters: a size code of at most 20 characters, the width of its
    column, gives a code of at most 48, within the 60 of the [sku_code]
    column. *)
Theorem derived_code_fits size fabric pattern :
  is_ascii (size_code size) = true ->
  is_ascii (fabric_name fabric) = true ->
  (forall p, pattern = Some p -> is_ascii (print_name p) = true) ->
  (String.length (size_code size) <= 20)%nat ->
  (String.length (Seed.build_sku_code size fabric pattern) <= 48)%nat
  /\ (String.length (Models.build_sku_code size fabric pattern) <= 48)%nat.
Proof.
  intros _ _ _ Hs. unfold Seed.build_sku_code, Models.build_sku_code.
  rewrite !sku_join_length. unfold upper. rewrite length_map_str.
  pose proof (take_length 10 (Seed.norm (fabric_name fabric))).
  pose proof (take_length 10 (Models.norm (fabric_name fabric))).
  destruct pattern as [p|]; cbv iota.
  - pose proof (take_length 12 (Seed.norm (print_name p))).
    pose proof (take_length 12 (Models.norm (print_name p))).
    split; lia.
  - change (String.length "PLAIN") with 5%nat. split; lia.
Qed.

Lemma derived_code_fits_witness :
  (String.length
     (Seed.build_sku_code (mkSize 1 "EXTRA-LARGE-TOTE-BAG" "Tote")
        (mkFabric 1 "Recycled Polyester Canvas" true)
        (Some (mkPrint 1 "Midnight Blue Flowers" true))) <= 48)%nat.
Proof.
  refine (proj1 (derived_code_fits (mkSize 1 "EXTRA-LARGE-TOTE-BAG" "Tote")
                   (mkFabric 1 "Recycled Polyester Canvas" true)
                   (Some (mkPrint 1 "Midnight Blue Flowers" true)) _ _ _ _)).
  - reflexivity.
  - reflexivity.
  - intros p E. inversion E. reflexivity.
  - simpl. lia.
Defined.

End CodeLength.

(** ** Names on which the two derivers agree *)

Section PlainNames.
Import PyStr.

Ltac all_ascii c :=
  destruct c as [[] [] [] [] [] [] [] []]; try reflexivity; try discriminate.

Lemma filter_str_all p s : forall_str p s = true -> filter_str p s = s.
Proof.
  induction s as [|c r IH]; simpl; [reflexivity|].
  intros H. apply andb_true_iff in H. destruct H as [Hc Hr].
  rewrite Hc, (IH Hr). reflexivity.
Qed.

(** Stripping characters that the filter removes anyway changes nothing. *)
Lemma filter_map_lstrip (a p q : ascii -> bool) f s :
  (forall c, a c = true -> p c = true -> q (f c) = false) ->
  forall_str a s = true ->
  filter_str q (map_str f (lstrip_by p s)) = filter_str q (map_str f s).
Proof.
  intros Hc. induction s as [|c r IH]; simpl; [reflexivity|].
  intros H. apply andb_true_iff in H. destruct H as [Ha Hr].
  destruct (p c) eqn:Ep; [|reflexivity].
  rewrite (Hc c Ha Ep). apply IH. exact Hr.
Qed.

Lemma filter_map_rstrip (a p q : ascii -> bool) f s :
  (forall c, a c = true -> p c = true -> q (f c) = false) ->
  forall_str a s = true ->
  filter_str q (map_str f (rstrip_by p s)) = filter_str q (map_str f s).
Proof.
  intros Hc. induction s as [|c r IH]; simpl; [reflexivity|].
  intros H. apply andb_true_iff in H. destruct H as [Ha Hr].
  specialize (IH Hr). destruct (rstrip_by p r) as [|c' r'] eqn:Er.
  - simpl in IH. destruct (p c) eqn:Ep; simpl.
    + rewrite (Hc c Ha Ep). exact IH.
    + rewrite <- IH. reflexivity.
  - simpl in *. rewrite IH. reflexivity.
Qed.

Lemma filter_map_strip (a p q : ascii -> bool) f s :
  (forall c, a c = true -> p c = true -> q (f c) = false) ->
  forall_str a s = true ->
  filter_str q (map_str f (strip_by p s)) = filter_str q (map_str f s).
Proof.
  intros Hc Hs. unfold strip_by.
  rewrite (filter_map_rstrip a) by (try assumption; apply forall_str_lstrip; exact Hs).
  apply (filter_map_lstrip a); assumption.
Qed.

Lemma seed_norm_plain s : plain_name s = true -> Seed.norm s = compact s.
Proof.
  intros H. unfold Seed.norm, remove_char, upper, strip, compact.
  apply (filter_map_strip plain_char); [|exact H].
  intros c. unfold plain_char. all_ascii c.
Qed.

Lemma collapse_plain s : forall in_run,
  forall_str (fun c => is_lower c || is_digit c || Ascii.eqb c " "%char) s = true ->
  filter_str (fun x => negb (Ascii.eqb x Slug.hyphen))
             (map_str upper_char (Slug.collapse in_run s))
  = filter_str (fun x => negb (Ascii.eqb x " "%char)) (map_str upper_char s).
Proof.
  induction s as [|c r IH]; simpl; intros in_run H; [reflexivity|].
  apply andb_true_iff in H. destruct H as [Hc Hr].
  destruct (Slug.is_sep c) eqn:Es.
  - assert (Esp : c = " "%char) by (revert Hc Es; all_ascii c).
    subst c. simpl. destruct in_run; simpl; apply IH; exact Hr.
  - simpl. rewrite (IH false Hr).
    assert (E1 : negb (Ascii.eqb (upper_char c) Slug.hyphen) = true)
      by (revert Hc Es; all_ascii c).
    assert (E2 : negb (Ascii.eqb (upper_char c) " "%char) = true)
      by (revert Hc Es; all_ascii c).
    rewrite E1, E2. reflexivity.
Qed.

Lemma collapse_plain_chars s : forall in_run,
  forall_str (fun c => is_lower c || is_digit c || Ascii.eqb c " "%char) s = true ->
  forall_str (fun c => Ascii.eqb c Slug.hyphen || is_lower c || is_digit c)
             (Slug.collapse in_run s) = true.
Proof.
  induction s as [|c r IH]; simpl; intros in_run H; [reflexivity|].
  apply andb_true_iff in H. destruct H as [Hc Hr].
  destruct (Slug.is_sep c) eqn:Es.
  - destruct in_run; simpl; apply IH; exact Hr.
  - simpl. rewrite (IH false Hr), andb_true_r. revert Hc Es. all_ascii c.
Qed.

Lemma upper_lower s : map_str upper_char (map_str lower_char s) = map_str upper_char s.
Proof.
  induction s as [|c r IH]; simpl; [reflexivity|]. rewrite IH. f_equal.
  all_ascii c.
Qed.

Lemma models_norm_plain s : plain_name s = true -> Models.norm s = compact s.
Proof.
  intros H. unfold Models.norm, remove_char, upper, Slug.slugify, compact.
  assert (E1 : Slug.ascii_only s = s).
  { apply filter_str_all. eapply forall_str_impl; [|exact H].
    intros c. all_ascii c. }
  assert (Hl : forall_str (fun c => is_lower c || is_digit c || Ascii.eqb c " "%char)
                          (lower s) = true).
  { unfold lower. eapply forall_str_map; [|exact H]. intros c. all_ascii c. }
  assert (E2 : Slug.keep_word_sep (lower s) = lower s).
  { apply filter_str_all. eapply forall_str_impl; [|exact Hl].
    intros c. all_ascii c. }
  rewrite E1, E2.
  rewrite (filter_map_strip
             (fun c => Ascii.eqb c Slug.hyphen || is_lower c || is_digit c)).
  - rewrite (collapse_plain _ false Hl). unfold lower. rewrite upper_lower. reflexivity.
  - intros c. all_ascii c.
  - apply collapse_plain_chars. exact Hl.
Qed.

(** X2: on a fabric name and a pattern name made of ASCII letters, digits
    and spaces only, the deriver of the command and the deriver of the
    models return the same code. *)
Theorem derivers_agree_on_plain_names size fabric pattern :
  plain_name (fabric_name fabric) = true ->
  (forall p, pattern = Some p -> plain_name (print_name p) = true) ->
  Seed.build_sku_code size fabric pattern = Models.build_sku_code size fabric pattern.
Proof.
  intros Hf Hp. unfold Seed.build_sku_code, Models.build_sku_code.
  rewrite (seed_norm_plain _ Hf), (models_norm_plain _ Hf).
  destruct pattern as [p|]; [|reflexivity].
  specialize (Hp p eq_refl).
  rewrite (seed_norm_plain _ Hp), (models_norm_plain _ Hp). reflexivity.
Qed.

Lemma derivers_agree_on_plain_names_witness :
  Seed.build_sku_code (mkSize 1 "Lrg" "Large") (mkFabric 1 " heavy  Canvas 2 " true)
    (Some (mkPrint 1 "Blue Flowers 01" true))
  = Models.build_sku_code (mkSize 1 "Lrg" "Large") (mkFabric 1 " heavy  Canvas 2 " true)
      (Some (mkPrint 1 "Blue Flowers 01" true)).
Proof.
  apply derivers_agree_on_plain_names; [reflexivity|].
  intros p E. inversion E. reflexivity.
Defined.

End PlainNames.

(** ** Resolving a SKU: what is written, what is kept, what is refused *)

Lemma next_pk_fresh {R} `{Model R} (rows : list R) x :
  In x rows -> pk x < next_pk rows.
Proof.
  unfold next_pk. induction rows as [|y l IH]; [contradiction|].
  cbn [map fold_right In].
  pose proof (Z.le_max_l (pk y) (fold_right Z.max 0 (map pk l))) as Hl.
  pose proof (Z.le_max_r (pk y) (fold_right Z.max 0 (map pk l))) as Hr.
  intros [->|Hx]; [lia|]. specialize (IH Hx). lia.
Qed.

Lemma next_pk_not_in {R} `{Model R} (rows : list R) :
  ~ In (next_pk rows) (map pk rows).
Proof.
  intros Hin. apply in_map_iff in Hin. destruct Hin as (x & E & Hx).
  apply next_pk_fresh in Hx. lia.
Qed.

Lemma code_taken_by self rows other :
  In other rows -> pk other <> pk self -> sku_code other = sku_code self ->
  code_taken self rows = true.
Proof.
  intros Hin Hpk Hc. unfold code_taken. apply existsb_exists.
  exists other. split; [exact Hin|].
  apply andb_true_iff. split.
  - apply negb_true_iff. apply Z.eqb_neq. exact Hpk.
  - apply String.eqb_eq. exact Hc.
Qed.

Lemma code_not_taken self rows x :
  code_taken self rows = false -> In x rows -> pk x <> pk self ->
  sku_code x <> sku_code self.
Proof.
  intros Ht Hin Hpk Hc.
  rewrite (code_taken_by self rows x Hin Hpk Hc) in Ht. discriminate.
Qed.

(** X3: a resolve that finds no SKU for its triple while another SKU
    already has the code derived for it raises IntegrityError for
    [sku_code], the column being unique; so does the backfill of a blank
    code when the derived code is taken. *)
Theorem resolve_code_collision size_code fabric_name print_name d
    size fabric pattern other :
  _get_size size_code d = Ok (size, d) ->
  _get_fabric fabric_name d = Ok (fabric, d) ->
  _get_print print_name d = Ok (pattern, d) ->
  In other (skus d) ->
  sku_code other = Seed.build_sku_code size fabric pattern ->
  (forall s, In s (skus d) -> sku_matches size fabric pattern s = false)
  \/ (exists blank, get (sku_matches size fabric pattern) (skus d) = Ok blank
                    /\ PyStr.is_empty (sku_code blank) = true
                    /\ pk other <> pk blank) ->
  _get_sku size_code fabric_name print_name d = Raise (IntegrityError "sku_code").
Proof.
  intros Hs Hf Hp Hin Hc Hcase. unfold _get_sku, bind.
  rewrite Hs, Hf, Hp. unfold ProductSKU_get_or_create.
  destruct Hcase as [Hno|(blank & Hg & Hb & Hpk)].
  - rewrite (get_missing _ _ Hno). simpl.
    unfold bind. rewrite ProductSKU_save_coded by reflexivity. simpl.
    rewrite (code_taken_by _ (skus d) other); [reflexivity|exact Hin| |exact Hc].
    simpl. pose proof (next_pk_fresh (skus d) other Hin). simpl in *. lia.
  - rewrite Hg. simpl. rewrite Hb.
    rewrite ProductSKU_save_coded by reflexivity. simpl.
    rewrite (code_taken_by _ (skus d) other); [reflexivity|exact Hin| |exact Hc].
    simpl. exact Hpk.
Qed.

Lemma resolve_code_collision_witness :
  _get_sku "STD" "Cotton Blend B" None demo_db_blends
  = Raise (IntegrityError "sku_code").
Proof.
  apply (resolve_code_collision "STD" "Cotton Blend B" None demo_db_blends
           (mkSize 1 "STD" "Standard") (mkFabric 2 "Cotton Blend B" true) None
           (mkSKU 1 "BAG-STD-COTTONBLEN-PLAIN" 1 1 None 1000 true));
    try reflexivity.
  - simpl. left. reflexivity.
  - left. intros s [<-|[]]. reflexivity.
Defined.

(** X4: a resolve writes the SKU table only; either it appends the SKU it
    returns, with price 0, active, the derived code, no SKU having had the
    triple, or it leaves key, size, fabric, pattern, price and active flag
    of every row as they were. *)
Theorem resolve_keeps_catalog size_code fabric_name print_name d sku d' :
  _get_sku size_code fabric_name print_name d = Ok (sku, d') ->
  d' = set_skus (skus d') d
  /\ In sku (skus d')
  /\ ((skus d' = (skus d ++ [sku])%list
       /\ sku_unit_price sku = 0 /\ sku_is_active sku = true
       /\ pk sku = next_pk (skus d)
       /\ forall s, In s (skus d) ->
                    sku_triple s <> sku_triple sku)
      \/ map sku_core (skus d') = map sku_core (skus d)).
Proof.
  intros H. pose proof (_get_sku_frame _ _ _ _ _ _ H) as Hf.
  apply _get_sku_resolved in H.
  destruct H as (size & fabric & pattern & _ & _ & _ & Hr).
  pose proof (settled_In _ _ _ _ _ (resolved_settled _ _ _ _ _ _ Hr)) as Hin.
  split; [exact Hf|]. split; [exact Hin|].
  destruct Hr as [r Hg Hc|r0 Hg Hc r Ht|Hnil r Ht].
  - right. reflexivity.
  - right. simpl. rewrite map_map. apply map_ext. intros x.
    destruct (_ =? _); reflexivity.
  - left. simpl. repeat split.
    intros s Hs E.
    assert (Hm : In s (filter (sku_matches size fabric pattern) (skus d))).
    { apply filter_In. split; [exact Hs|].
      unfold sku_triple in E. simpl in E. inversion E as [[E1 E2 E3]].
      unfold sku_matches. rewrite E1, E2, E3, !Z.eqb_refl. simpl.
      apply option_Z_eqb_eq. reflexivity. }
    rewrite Hnil in Hm. contradiction.
Qed.

Lemma resolve_keeps_catalog_witness :
  let sku := mkSKU 2 "BAG-STD-COTTON-FLORAL" 1 1 (Some 1) 1500 true in
  let d' := set_skus [mkSKU 1 "BAG-STD-COTTON-PLAIN" 1 1 None 1000 true; sku] demo_db in
  _get_sku "STD" "Cotton" (Some "Floral") demo_db_skus = Ok (sku, d')
  /\ d' = set_skus (skus d') demo_db_skus
  /\ In sku (skus d').
Proof.
  intros sku d'. split; [reflexivity|].
  destruct (resolve_keeps_catalog "STD" "Cotton" (Some "Floral") demo_db_skus sku d')
    as (Hf & Hin & _); [reflexivity|].
  split; assumption.
Defined.

Lemma NoDup_map_same {A B} (g : A -> B) (f : A -> A) (l : list A) :
  (forall x, g (f x) = g x) -> NoDup (map g l) -> NoDup (map g (map f l)).
Proof.
  intros E H. rewrite map_map. rewrite (map_ext _ g E). exact H.
Qed.

(** Writing a code that no other row has, on the one row of a key, keeps
    the codes distinct. *)
Lemma backfill_codes_distinct (r : ProductSKU) (rows : list ProductSKU) :
  NoDup (map pk rows) -> NoDup (map sku_code rows) ->
  code_taken r rows = false ->
  NoDup (map sku_code
           (map (fun x => if pk x =? pk r then sku_write [F_sku_code] r x else x) rows)).
Proof.
  intros Hpk Hc Ht.
  induction rows as [|x l IH]; [constructor|]. cbn [map] in *.
  inversion Hpk as [|? ? Hx Hl]; subst. inversion Hc as [|? ? Hcx Hcl]; subst.
  assert (Ht' : code_taken r l = false).
  { unfold code_taken in *. cbn [existsb] in Ht. apply orb_false_iff in Ht. tauto. }
  constructor; [|apply IH; assumption].
  intros Hin. apply in_map_iff in Hin. destruct Hin as (y' & Ey & Hy').
  apply in_map_iff in Hy'. destruct Hy' as (y & <- & Hy).
  assert (Hne : pk y <> pk x).
  { intros E. apply Hx. apply in_map_iff. exists y. split; [exact E|exact Hy]. }
  destruct (pk x =? pk r) eqn:Ex; destruct (pk y =? pk r) eqn:Eyr.
  - apply Z.eqb_eq in Ex. apply Z.eqb_eq in Eyr. congruence.
  - apply Z.eqb_neq in Eyr. simpl in Ey.
    apply (code_not_taken r l y Ht' Hy Eyr). exact Ey.
  - apply Z.eqb_neq in Ex. simpl in Ey.
    apply (code_not_taken r (x :: l) x Ht (or_introl eq_refl) Ex). symmetry. exact Ey.
  - apply Hcx. apply in_map_iff. exists y. split; [exact Ey|exact Hy].
Qed.

(** X5: a resolve keeps the constraints of the SKU table: distinct primary
    keys, one SKU for a (size, fabric type, print pattern) triple, one SKU
    for a code. *)
Theorem resolve_keeps_constraints size_code fabric_name print_name d sku d' :
  sku_constraints d ->
  _get_sku size_code fabric_name print_name d = Ok (sku, d') ->
  sku_constraints d'.
Proof.
  intros (Hpk & Htr & Hco) H. apply _get_sku_resolved in H.
  destruct H as (size & fabric & pattern & _ & _ & _ & Hr).
  destruct Hr as [r Hg Hc|r0 Hg Hc r Ht|Hnil r Ht]; unfold sku_constraints.
  - repeat split; assumption.
  - simpl. repeat split.
    + apply NoDup_map_same; [|exact Hpk]. intros x. destruct (_ =? _); reflexivity.
    + apply NoDup_map_same; [|exact Htr]. intros x. destruct (_ =? _); reflexivity.
    + exact (backfill_codes_distinct r (skus d) Hpk Hco Ht).
  - simpl. unfold insert_row. rewrite !map_app. simpl.
    repeat split; apply NoDup_app; try assumption;
      try (constructor; [intros []|constructor]).
    + intros x Hx [<-|[]]. exact (next_pk_not_in (skus d) Hx).
    + intros t Ht' [<-|[]]. apply in_map_iff in Ht'. destruct Ht' as (s & Es & Hs).
      assert (Hm : In s (filter (sku_matches size fabric pattern) (skus d))).
      { apply filter_In. split; [exact Hs|].
        unfold sku_triple in Es. simpl in Es. inversion Es as [[E1 E2 E3]].
        unfold sku_matches. rewrite E1, E2, E3, !Z.eqb_refl. simpl.
        apply option_Z_eqb_eq. reflexivity. }
      rewrite Hnil in Hm. contradiction.
    + intros c Hc' [<-|[]]. apply in_map_iff in Hc'. destruct Hc' as (s & Es & Hs).
      apply (code_not_taken r (skus d) s Ht Hs); [|exact Es].
      pose proof (next_pk_fresh (skus d) s Hs). subst r. simpl in *. lia.
Qed.

Lemma resolve_keeps_constraints_witness :
  sku_constraints
    (set_skus [mkSKU 1 "BAG-STD-COTTON-PLAIN" 1 1 None 1000 true;
               mkSKU 2 "BAG-STD-COTTON-FLORAL" 1 1 (Some 1) 1500 true] demo_db).
Proof.
  apply (resolve_keeps_constraints "STD" "Cotton" (Some "Floral") demo_db_skus
           (mkSKU 2 "BAG-STD-COTTON-FLORAL" 1 1 (Some 1) 1500 true)).
  - unfold sku_constraints. simpl.
    repeat split; repeat constructor; simpl; intuition discriminate.
  - reflexivity.
Defined.

(** ** [ProductSKU.save] on a new object *)

(** X6: an insert through [ProductSKU.save] stores the object it leaves
    behind with a code that is not blank: the object's own code when it
    has one, the code the deriver of the models gives for its size, fabric
    type and print pattern when it has none. *)
Theorem save_insert_sets_code self d self' d' :
  ProductSKU_save self None d = Ok (self', d') ->
  PyStr.is_empty (sku_code self') = false
  /\ d' = set_skus (skus d ++ [self']) d
  /\ (PyStr.is_empty (sku_code self) = false -> self' = self)
  /\ (PyStr.is_empty (sku_code self) = true ->
      exists size fabric_type print_pattern,
        get (by_pk (sku_size self)) (sizes d) = Ok size
        /\ get (by_pk (sku_fabric_type self)) (fabrics d) = Ok fabric_type
        /\ related_print (sku_print_pattern self) d = Ok (print_pattern, d)
        /\ self' = with_sku_code
                     (Models.build_sku_code size fabric_type print_pattern) self).
Proof.
  intros H. destruct (PyStr.is_empty (sku_code self)) eqn:Hc.
  - unfold ProductSKU_save in H. rewrite Hc in H. run_inv H.
    apply ret_inv in H. destruct H as [-> ->].
    run_inv Hrun. apply query_inv in Hrun1. destruct Hrun1 as [Hs ->].
    apply query_inv in Hrun2. destruct Hrun2 as [Hf ->].
    assert (E3 : d4 = d).
    { destruct (sku_print_pattern self) as [i|]; simpl in Hrun3.
      - run_inv Hrun3. apply query_inv in Hrun1. destruct Hrun1 as [_ ->].
        apply ret_inv in Hrun3. tauto.
      - apply ret_inv in Hrun3. tauto. }
    subst d4. apply ret_inv in Hrun. destruct Hrun as [-> ->].
    apply statement_inv in Hrun0. destruct Hrun0 as (rows & Hq & ->).
    simpl in Hq. destruct (code_taken _ (skus d)); inversion Hq; subst rows.
    split; [reflexivity|]. split; [reflexivity|]. split; [discriminate|].
    intros _. exists a1, a2, a3. repeat split; assumption.
  - rewrite ProductSKU_save_coded in H by exact Hc. simpl in H.
    destruct (code_taken self (skus d)); inversion H; subst.
    split; [exact Hc|]. split; [reflexivity|]. split; [reflexivity|discriminate].
Qed.

Lemma save_insert_sets_code_witness :
  let self := mkSKU 7 "" 1 1 (Some 1) 900 true in
  let self' := mkSKU 7 "BAG-STD-COTTON-FLORAL" 1 1 (Some 1) 900 true in
  ProductSKU_save self None demo_db = Ok (self', set_skus [self'] demo_db)
  /\ PyStr.is_empty (sku_code self') = false.
Proof.
  intros self self'. split; [reflexivity|].
  apply (save_insert_sets_code self demo_db self' (set_skus [self'] demo_db)).
  reflexivity.
Defined.

(** ** Upserts: the row written is the row found *)

Lemma filter_map_commute_in {A} (p : A -> bool) (f : A -> A) (l : list A) :
  (forall x, In x l -> p (f x) = p x) -> filter p (map f l) = map f (filter p l).
Proof.
  induction l as [|x l IH]; simpl; intros Hp; [reflexivity|].
  rewrite (Hp x (or_introl eq_refl)).
  rewrite IH by (intros y Hy; apply Hp; right; exact Hy).
  destruct (p x); reflexivity.
Qed.

Lemma update_row_pks {R} `{Model R} (r : R) rows :
  map pk (update_row r rows) = map pk rows.
Proof.
  unfold update_row. rewrite map_map. apply map_ext. intros x.
  destruct (pk x =? pk r) eqn:E; [|reflexivity].
  apply Z.eqb_eq in E. symmetry. exact E.
Qed.

Lemma insert_row_pks_NoDup {R} `{Model R} (mk : Z -> R) rows :
  (forall i, pk (mk i) = i) -> NoDup (map pk rows) ->
  NoDup (map pk (insert_row (mk (next_pk rows)) rows)).
Proof.
  intros Hmk Hnd. unfold insert_row. rewrite map_app. simpl. rewrite Hmk.
  apply NoDup_app; [exact Hnd|constructor; [intros []|constructor]|].
  intros x Hx [<-|[]]. exact (next_pk_not_in rows Hx).
Qed.

(** What [update_or_create] leaves: one row for the key, the one it
    returns; no row more when a row was found, one more when none was. *)
Lemma update_or_create_get {R} `{Model R} (p : R -> bool) upd mk rows r rows' :
  NoDup (map pk rows) ->
  (forall x, p (upd x) = p x) -> (forall x, pk (upd x) = pk x) ->
  (forall i, p (mk i) = true) -> (forall i, pk (mk i) = i) ->
  update_or_create p upd mk rows = Ok (r, rows') ->
  get p rows' = Ok r
  /\ NoDup (map pk rows')
  /\ ((exists x, get p rows = Ok x /\ r = upd x
                 /\ List.length rows' = List.length rows)
      \/ (filter p rows = [] /\ r = mk (next_pk rows) /\ rows' = insert_row r rows)).
Proof.
  intros Hnd Hp Hpk Hmp Hmk. unfold update_or_create.
  destruct (get p rows) as [x|e] eqn:Hg.
  - intros E. inversion E; subst; clear E.
    pose proof (get_Ok_In _ _ _ Hg) as [Hin _].
    split; [|split].
    + apply get_Ok_filter. apply get_Ok_filter in Hg. unfold update_row.
      rewrite filter_map_commute_in.
      * rewrite Hg. simpl. rewrite Hpk, Z.eqb_refl. reflexivity.
      * intros y Hy. destruct (pk y =? pk (upd x)) eqn:E; [|reflexivity].
        apply Z.eqb_eq in E. rewrite Hpk in E.
        rewrite (NoDup_pk_eq rows y x Hnd Hy Hin E). apply Hp.
    + rewrite update_row_pks. exact Hnd.
    + left. exists x. repeat split. unfold update_row. apply length_map.
  - destruct (get_error _ _ _ Hg) as [[-> Hnil]| ->]; [|discriminate].
    intros E. inversion E; subst; clear E.
    split; [|split].
    + apply get_Ok_filter. unfold insert_row. rewrite filter_app, Hnil. simpl.
      rewrite Hmp. reflexivity.
    + apply insert_row_pks_NoDup; assumption.
    + right. repeat split. exact Hnil.
Qed.

(** X7: after the upsert of a size row, the look-up by its code finds one
    size, with that code and with the display name of the row, or the
    code itself when the row gives no display name. *)
Theorem seed_size_then_get row d d' :
  NoDup (map pk (sizes d)) ->
  seed_size row d = Ok (tt, d') ->
  exists s,
    _get_size (szr_code row) d' = Ok (s, d')
    /\ size_code s = szr_code row
    /\ size_display_name s = get_default (szr_display_name row) (szr_code row)
    /\ d' = set_sizes (sizes d') d
    /\ NoDup (map pk (sizes d')).
Proof.
  intros Hnd H. unfold seed_size in H. run_inv H.
  apply ret_inv in H. destruct H as [_ ->].
  apply statement_inv in Hrun. destruct Hrun as (rows & Hq & ->).
  apply update_or_create_get in Hq; try assumption; try reflexivity.
  - destruct Hq as (Hg & Hnd' & Hcase). exists a.
    split; [unfold _get_size, query; simpl; rewrite Hg; reflexivity|].
    pose proof (get_Ok_In _ _ _ Hg) as [_ Hp]. apply String.eqb_eq in Hp.
    split; [exact Hp|]. split.
    + destruct Hcase as [(x & _ & -> & _)|(_ & -> & _)]; reflexivity.
    + split; [destruct d; reflexivity|exact Hnd'].
  - intros i. simpl. apply String.eqb_refl.
Qed.

Lemma seed_size_then_get_witness :
  exists s,
    _get_size "LRG" (set_sizes [mkSize 1 "STD" "Standard"; mkSize 2 "LRG" "LRG"] demo_db)
      = Ok (s, set_sizes [mkSize 1 "STD" "Standard"; mkSize 2 "LRG" "LRG"] demo_db)
    /\ size_display_name s = "LRG"%string.
Proof.
  destruct (seed_size_then_get (mkSizeRow "LRG" None) demo_db
              (set_sizes [mkSize 1 "STD" "Standard"; mkSize 2 "LRG" "LRG"] demo_db))
    as (s & Hg & _ & Hd & _).
  - simpl. repeat constructor. intros [].
  - reflexivity.
  - exists s. split; [exact Hg|exact Hd].
Defined.

Lemma _get_location_transfer name d db loc :
  locations db = locations d -> _get_location name d = Ok (loc, d) ->
  _get_location name db = Ok (loc, db).
Proof.
  unfold _get_location, query. intros ->.
  destruct (get _ (locations d)); intros H; inversion H. reflexivity.
Qed.

(** A resolve that wrote nothing gives the same SKU on any store with the
    same catalog. *)
Lemma _get_sku_elsewhere size_code fabric_name print_name d sku db :
  _get_sku size_code fabric_name print_name d = Ok (sku, d) ->
  sizes db = sizes d -> fabrics db = fabrics d -> prints db = prints d ->
  skus db = skus d ->
  _get_sku size_code fabric_name print_name db = Ok (sku, db).
Proof.
  intros H Es Ef Ep Ek. apply _get_sku_resolved in H.
  destruct H as (size & fabric & pattern & Hs & Hf & Hp & Hr).
  apply resolved_settled in Hr.
  apply (_get_sku_settled _ _ _ _ size fabric pattern).
  - apply (_get_size_transfer _ d); assumption.
  - apply (_get_fabric_transfer _ d); assumption.
  - apply (_get_print_transfer _ d); assumption.
  - unfold settled in *. rewrite Ek. exact Hr.
Qed.

(** X8: after the upsert of a balance row, its SKU and its location
    resolve without a write and the store has one balance for the pair,
    with the quantity and the reorder level of the row, 0 for the one the
    row does not give: the values are replaced, not added to; the table
    has grown by one row at most. *)
Theorem seed_balance_replaces row d d' :
  NoDup (map pk (balances d)) ->
  seed_balance row d = Ok (tt, d') ->
  exists sku loc b,
    _get_sku (br_size_code row) (br_fabric_type row) (br_print_pattern row) d'
      = Ok (sku, d')
    /\ _get_location (br_location row) d' = Ok (loc, d')
    /\ get (fun b => (bal_sku b =? pk sku) && (bal_location b =? pk loc)) (balances d')
       = Ok b
    /\ bal_qty_on_hand b = get_default (br_qty_on_hand row) 0
    /\ bal_reorder_level b = get_default (br_reorder_level row) 0
    /\ (List.length (balances d') <= S (List.length (balances d)))%nat.
Proof.
  intros Hnd H. unfold seed_balance in H. run_inv H.
  rename a into sku, a0 into loc, d0 into e1, d1 into e2.
  apply ret_inv in H. destruct H as [_ ->].
  pose proof (_get_sku_frame _ _ _ _ _ _ Hrun) as Hf.
  destruct (_get_sku_again _ _ _ _ _ _ Hrun) as [_ Hagain].
  assert (Hloc : _get_location (br_location row) e1 = Ok (loc, e1) /\ e2 = e1).
  { unfold _get_location in *. apply query_inv in Hrun0. destruct Hrun0 as [Hg ->].
    split; [apply query_run; exact Hg|reflexivity]. }
  destruct Hloc as [Hloc ->].
  apply statement_inv in Hrun1. destruct Hrun1 as (rows & Hq & ->).
  assert (Eb : balances e1 = balances d) by (rewrite Hf; reflexivity).
  rewrite Eb in Hq.
  apply update_or_create_get in Hq; try assumption; try reflexivity.
  - destruct Hq as (Hg & _ & Hcase). exists sku, loc, a1.
    split; [apply (_get_sku_elsewhere _ _ _ e1); [exact Hagain|reflexivity..]|].
    split; [apply (_get_location_transfer _ e1); [reflexivity|exact Hloc]|].
    split; [exact Hg|].
    destruct Hcase as [(x & _ & -> & El)|(_ & -> & ->)]; simpl.
    + repeat split. lia.
    + repeat split. unfold insert_row. rewrite length_app. simpl. lia.
  - intros i. simpl. rewrite !Z.eqb_refl. reflexivity.
Qed.

Lemma seed_balance_replaces_witness :
  let d := set_balances [mkBalance 1 1 1 40 5] demo_db_skus in
  let d' := set_balances [mkBalance 1 1 1 7 0] demo_db_skus in
  seed_balance (mkBalanceRow "STD" "Cotton" None "Main" (Some 7) None) d = Ok (tt, d')
  /\ exists b, In b (balances d') /\ bal_qty_on_hand b = 7 /\ bal_reorder_level b = 0.
Proof.
  intros d d'. split; [reflexivity|].
  destruct (seed_balance_replaces
              (mkBalanceRow "STD" "Cotton" None "Main" (Some 7) None) d d')
    as (sku & loc & b & _ & _ & Hg & Hq & Hl & _).
  - simpl. repeat constructor. intros [].
  - reflexivity.
  - exists b. apply get_Ok_In in Hg. split; [tauto|]. split; assumption.
Defined.

(** X9: two expense rows of the same type, amount and date are one
    expense: the upsert of the second adds no row and leaves the one row of
    that key with its own currency, vendor and notes, EGP and the empty
    text for those it does not give. *)
Theorem expense_same_key_overwrites r1 r2 d d1 d2 :
  NoDup (map pk (expenses d)) ->
  er_expense_type r2 = er_expense_type r1 ->
  er_amount r2 = er_amount r1 ->
  er_expense_date r2 = er_expense_date r1 ->
  seed_expense r1 d = Ok (tt, d1) ->
  seed_expense r2 d1 = Ok (tt, d2) ->
  List.length (expenses d2) = List.length (expenses d1)
  /\ exists et e,
       get (fun t => String.eqb (etype_name t) (er_expense_type r2)) (expense_types d2)
         = Ok et
       /\ get (fun e => (expense_type e =? pk et) && (expense_amount e =? er_amount r2)
                        && String.eqb (expense_date e) (er_expense_date r2))
              (expenses d2) = Ok e
       /\ expense_currency e = get_default (er_currency r2) "EGP"
       /\ expense_vendor e = get_default (er_vendor r2) ""
       /\ expense_notes e = get_default (er_notes r2) "".
Proof.
  intros Hnd Et Ea Ed H1 H2.
  unfold seed_expense in H1. run_inv H1. apply ret_inv in H1. destruct H1 as [_ ->].
  apply query_inv in Hrun. destruct Hrun as [Hg1 ->].
  apply statement_inv in Hrun0. destruct Hrun0 as (rows1 & Hq1 & ->).
  apply update_or_create_get in Hq1; try assumption; try reflexivity.
  2:{ intros i. simpl. rewrite !Z.eqb_refl, String.eqb_refl. reflexivity. }
  destruct Hq1 as (Hr1 & Hnd1 & _).
  unfold seed_expense in H2. run_inv H2. apply ret_inv in H2. destruct H2 as [_ ->].
  apply query_inv in Hrun. destruct Hrun as [Hg2 ->].
  apply statement_inv in Hrun0. destruct Hrun0 as (rows2 & Hq2 & ->).
  simpl in Hg2, Hq2. rewrite Et in Hg2. rewrite Hg1 in Hg2.
  inversion Hg2; subst a1; clear Hg2.
  rewrite Ea, Ed in Hq2.
  pose proof Hq2 as Hq2'.
  apply update_or_create_get in Hq2'; try assumption; try reflexivity.
  2:{ intros i. simpl. rewrite !Z.eqb_refl, String.eqb_refl. reflexivity. }
  destruct Hq2' as (Hr2 & _ & Hcase).
  destruct Hcase as [(x & _ & Ex & El)|(Hnil & _ & _)].
  - split; [simpl; exact El|].
    exists a, a2. simpl. rewrite Et, Ea, Ed.
    split; [exact Hg1|]. split; [exact Hr2|]. subst a2. repeat split.
  - exfalso. apply get_Ok_filter in Hr1. simpl in Hr1, Hnil.
    rewrite Hr1 in Hnil. discriminate.
Qed.

Lemma expense_same_key_overwrites_witness :
  let r1 := mkExpenseRow "Rent" 250000 "2024-02-01" None (Some "Landlord") None in
  let r2 := mkExpenseRow "Rent" 250000 "2024-02-01" (Some "USD") None (Some "paid") in
  let d1 := set_expenses [mkExpense 1 1 250000 "EGP" "2024-02-01" "Landlord" ""] demo_db in
  let d2 := set_expenses [mkExpense 1 1 250000 "USD" "2024-02-01" "" "paid"] demo_db in
  seed_expense r1 demo_db = Ok (tt, d1)
  /\ seed_expense r2 d1 = Ok (tt, d2)
  /\ List.length (expenses d2) = List.length (expenses d1).
Proof.
  intros r1 r2 d1 d2. split; [reflexivity|]. split; [reflexivity|].
  apply (expense_same_key_overwrites r1 r2 demo_db d1 d2); try reflexivity.
  constructor.
Defined.

Lemma get_or_create_get {R} `{Model R} (p : R -> bool) mk rows r c rows' :
  (forall i, p (mk i) = true) ->
  get_or_create p mk rows = Ok (r, c, rows') ->
  get p rows' = Ok r
  /\ ((c = false /\ rows' = rows)
      \/ (c = true /\ filter p rows = [] /\ rows' = insert_row r rows)).
Proof.
  intros Hmp. unfold get_or_create.
  destruct (get p rows) as [x|e] eqn:Hg.
  - intros E. inversion E; subst. split; [exact Hg|]. left. split; reflexivity.
  - destruct (get_error _ _ _ Hg) as [[-> Hnil]| ->]; [|discriminate].
    intros E. inversion E; subst; clear E. split.
    + apply get_Ok_filter. unfold insert_row. rewrite filter_app, Hnil. simpl.
      rewrite Hmp. reflexivity.
    + right. repeat split. exact Hnil.
Qed.

Lemma material_matches_own (fabric : FabricType) uom printed pattern i :
  material_matches fabric uom printed pattern
    (mkMaterial i (pk fabric) uom printed (option_map pk pattern)) = true.
Proof.
  unfold material_matches. simpl.
  rewrite Z.eqb_refl, String.eqb_refl, Bool.eqb_reflx. simpl.
  apply option_Z_eqb_eq. reflexivity.
Qed.

(** X10: a fabric inventory row needs no material row before it: after
    its upsert the store has one material for its fabric, unit, printed
    flag and pattern (the unit meter and the flag false when the row gives
    none, no pattern when the flag is false), and one inventory line for
    that material at the location, with the quantity of the row. *)
Theorem seed_fabric_inventory_links row d d' :
  NoDup (map pk (fabric_inventory d)) ->
  seed_fabric_inventory row d = Ok (tt, d') ->
  let uom := get_default (fir_uom row) "meter" in
  let printed := get_default (fir_is_printed row) false in
  exists fabric pattern mat loc line,
    _get_fabric (fir_fabric_type row) d = Ok (fabric, d)
    /\ _get_print (fir_print_pattern row) d = Ok (pattern, d)
    /\ get (material_matches fabric uom printed (pattern_if printed pattern))
           (materials d') = Ok mat
    /\ mat_is_printed mat = printed
    /\ (printed = false -> mat_print_pattern mat = None)
    /\ get (fun l => String.eqb (loc_name l) (fir_location row)) (locations d) = Ok loc
    /\ get (fun b => (finv_fabric_material b =? pk mat) && (finv_location b =? pk loc))
           (fabric_inventory d') = Ok line
    /\ finv_qty_on_hand line = get_default (fir_qty_on_hand row) 0.
Proof.
  intros Hnd H uom printed. unfold seed_fabric_inventory in H. run_inv H.
  apply ret_inv in H. destruct H as [_ ->].
  unfold _get_fabric in Hrun. pose proof Hrun as Hfab.
  apply query_inv in Hrun. destruct Hrun as [_ ->].
  pose proof Hrun0 as Hpat. apply _get_print_inv in Hrun0. destruct Hrun0 as [-> _].
  apply statement_inv in Hrun1. destruct Hrun1 as (rows & Hq & ->).
  unfold _get_location in Hrun2. apply query_inv in Hrun2. destruct Hrun2 as [Hloc ->].
  apply statement_inv in Hrun3. destruct Hrun3 as (rows' & Hq' & ->).
  simpl in Hq'.
  fold uom in Hq. fold printed in Hq.
  destruct (get_or_create _ _ (materials d)) as [[[m c] rows0]|e] eqn:Eg;
    inversion Hq; subst a1 rows; clear Hq.
  apply get_or_create_get in Eg; [|intros i; apply material_matches_own].
  destruct Eg as [Hm _].
  apply update_or_create_get in Hq'; try assumption; try reflexivity.
  2:{ intros i. simpl. rewrite !Z.eqb_refl. reflexivity. }
  destruct Hq' as (Hline & _ & Hcase).
  exists a, a0, m, a2, a3. simpl in *.
  pose proof (get_Ok_In _ _ _ Hm) as [_ Hp]. unfold material_matches in Hp.
  apply andb_true_iff in Hp. destruct Hp as [Hp Hpat'].
  apply andb_true_iff in Hp. destruct Hp as [_ Hpr].
  apply Bool.eqb_prop in Hpr. apply option_Z_eqb_eq in Hpat'.
  repeat split; try assumption.
  - intros Ef. rewrite Hpat', Ef. reflexivity.
  - destruct Hcase as [(x & _ & -> & _)|(_ & -> & _)]; reflexivity.
Qed.

Lemma seed_fabric_inventory_links_witness :
  let row := mkFabricInventoryRow "Cotton" (Some "Floral") None None "Main" (Some 12500) in
  let d' := set_fabric_inventory [mkFabricInventory 1 1 1 12500]
              (set_materials [mkMaterial 1 1 "meter" false None] demo_db) in
  seed_fabric_inventory row demo_db = Ok (tt, d')
  /\ exists mat, In mat (materials d') /\ mat_print_pattern mat = None.
Proof.
  intros row d'. split; [reflexivity|].
  destruct (seed_fabric_inventory_links row demo_db d')
    as (fabric & pattern & mat & loc & line & _ & _ & Hm & _ & Hraw & _).
  - constructor.
  - reflexivity.
  - exists mat. apply get_Ok_In in Hm. split; [tauto|]. apply Hraw. reflexivity.
Defined.

(** ** Orders: what a build leaves alone, and what a shared key does *)

Lemma _seed_fabrics_keeps_raw_witness :
  Forall raw_unpatterned
    (materials (set_materials [mkMaterial 1 1 "meter" false None;
                               mkMaterial 2 1 "kg" true (Some 1)] demo_db)).
Proof.
  apply (_seed_fabrics_keeps_raw
           (mkData [] [] [] [] [] [] [] [] []
                   [mkMaterialRow "Cotton" (Some "Floral") None None;
                    mkMaterialRow "Cotton" (Some "Floral") (Some "kg") (Some true)]
                   [] [] [])
           demo_db tt).
  - constructor.
  - reflexivity.
Defined.

(** X13: the build of an order row writes the order, item and SKU tables
    only; every stored order of another key is kept as it is, with the
    items it had; at most one order is added. *)
Theorem seed_order_frame row d order d' :
  seed_order row d = Ok (order, d') ->
  d' = set_orders (orders d') (set_items (items d') (set_skus (skus d') d))
  /\ (forall o, In o (orders d) -> pk o <> pk order ->
                In o (orders d') /\ line_items d' o = line_items d o)
  /\ (List.length (orders d') <= S (List.length (orders d)))%nat.
Proof.
  intros H.
  assert (Hlines : forall o, pk o <> pk order -> line_items d' o = line_items d o).
  { intros o Hne. exact (seed_order_other_lines _ _ _ _ o H Hne). }
  apply seed_order_inv in H.
  destruct H as (customer & status & o0 & d1 & d2 & subtotal
                 & _ & _ & Hh & Hitems & Eo & Ed').
  pose proof (header_In _ _ _ _ _ _ Hh) as [_ Hd1].
  apply seed_items_inv in Hitems. destruct Hitems as (created & Hd2 & _).
  assert (Eord : orders d2 = orders d1) by (rewrite Hd2; reflexivity).
  split; [|split].
  - rewrite Ed'. simpl. remember (skus d2) as k2 eqn:Ek. clear Ek.
    rewrite Hd2. simpl. rewrite Hd1. destruct d; reflexivity.
  - intros o Ho Hne. split; [|apply Hlines; exact Hne].
    rewrite Ed'. simpl. rewrite Eord. apply in_map_iff. exists o. split.
    + destruct (_ =? _) eqn:E; [|reflexivity].
      apply Z.eqb_eq in E. contradiction.
    + destruct Hh as [x Hf|Hnone x]; [exact Ho|].
      simpl. unfold insert_row. apply in_or_app. left. exact Ho.
  - rewrite Ed'. simpl. rewrite length_map, Eord.
    destruct Hh as [x Hf|Hnone x]; [lia|].
    simpl. unfold insert_row. rewrite length_app. simpl. lia.
Qed.

Lemma seed_order_frame_witness :
  let other := mkOrder 1 1 1 "2024-01-05" "ref-1" 3000 500 100 3400 in
  let row := mkOrderRow "Ann" "NEW" "2024-03-09" None None None
               [mkItemRow "STD" "Cotton" None 1 (Some 700)] in
  let order := mkOrder 2 1 1 "2024-03-09" "" 700 0 0 700 in
  let d' := set_orders [other; order]
              (set_items [mkItem 1 1 1 3 1000 3000; mkItem 2 1 2 2 0 0;
                          mkItem 3 2 1 1 700 700] demo_db_built) in
  seed_order row demo_db_built = Ok (order, d')
  /\ In other (orders d')
  /\ line_items d' other = line_items demo_db_built other.
Proof.
  intros other row order d'. split; [reflexivity|].
  destruct (seed_order_frame row demo_db_built order d') as (_ & Hkeep & _);
    [reflexivity|].
  apply (Hkeep other); [simpl; left; reflexivity|simpl; lia].
Defined.

(** X16: an item that gives no unit price for a SKU the catalog does not
    have yet creates that SKU and is stored with unit price 0 and line
    total 0, the price of a created SKU: the running subtotal goes on to
    the next item unchanged. *)
Theorem item_of_new_sku_is_free order item rest subtotal d size fabric pattern total d' :
  ir_unit_price item = None ->
  _get_size (ir_size_code item) d = Ok (size, d) ->
  _get_fabric (ir_fabric_type item) d = Ok (fabric, d) ->
  _get_print (ir_print_pattern item) d = Ok (pattern, d) ->
  (forall s, In s (skus d) -> sku_matches size fabric pattern s = false) ->
  seed_items order (item :: rest) subtotal d = Ok (total, d') ->
  exists sku d1,
    seed_items order rest subtotal d1 = Ok (total, d')
    /\ skus d1 = (skus d ++ [sku])%list
    /\ sku_unit_price sku = 0
    /\ items d1 = (items d ++ [mkItem (next_pk (items d)) (pk order) (pk sku)
                                      (ir_qty item) 0 0])%list.
Proof.
  intros Hnone Hs Hf Hp Hno H. simpl in H. run_inv H. rename a into sku.
  apply _get_sku_resolved in Hrun.
  destruct Hrun as (size' & fabric' & pattern' & Hs' & Hf' & Hp' & Hr).
  rewrite Hs in Hs'. inversion Hs'; subst size'.
  rewrite Hf in Hf'. inversion Hf'; subst fabric'.
  rewrite Hp in Hp'. inversion Hp'; subst pattern'.
  assert (Hmiss : filter (sku_matches size fabric pattern) (skus d) = []).
  { destruct (filter _ (skus d)) as [|x l] eqn:E; [reflexivity|].
    assert (Hx : In x (filter (sku_matches size fabric pattern) (skus d)))
      by (rewrite E; left; reflexivity).
    apply filter_In in Hx. destruct Hx as [Hx Hm]. rewrite (Hno x Hx) in Hm.
    discriminate. }
  destruct Hr as [r Hg Hc|r0 Hg Hc r Ht|Hnil r Ht].
  - apply get_Ok_filter in Hg. rewrite Hmiss in Hg. discriminate.
  - apply get_Ok_filter in Hg. rewrite Hmiss in Hg. discriminate.
  - unfold OrderItem_create in Hrun0. apply statement_inv in Hrun0.
    destruct Hrun0 as (rows & Hq & ->). inversion Hq; subst a0 rows; clear Hq.
    rewrite Hnone in H. simpl in H. rewrite Z.add_0_r in H.
    eexists. eexists. split; [exact H|]. simpl.
    split; [reflexivity|]. split; reflexivity.
Qed.

Lemma item_of_new_sku_is_free_witness :
  exists sku d1,
    seed_items demo_order_built [] 250 d1 = Ok (250, d1)
    /\ sku_unit_price sku = 0
    /\ items d1 = [mkItem 1 1 (pk sku) 4 0 0].
Proof.
  destruct (item_of_new_sku_is_free demo_order_built
              (mkItemRow "STD" "Cotton" None 4 None) [] 250 demo_db
              (mkSize 1 "STD" "Standard") (mkFabric 1 "Cotton" true) None 250
              (set_items [mkItem 1 1 1 4 0 0]
                 (set_skus [mkSKU 1 "BAG-STD-COTTON-PLAIN" 1 1 None 0 true] demo_db)))
    as (sku & d1 & Hrest & _ & Hprice & Hitems); try reflexivity.
  - intros s [].
  - exists sku, d1. simpl in Hrest. inversion Hrest; subst.
    split; [reflexivity|]. split; [exact Hprice|exact Hitems].
Defined.

(** ** Names that are not unique *)

Lemma get_two {R} `{Model R} (p : R -> bool) rows a b :
  In a rows -> In b rows -> a <> b -> p a = true -> p b = true ->
  get p rows = Raise (MultipleObjectsReturned model_name).
Proof.
  intros Ha Hb Hne Hpa Hpb. unfold get.
  assert (Ia : In a (filter p rows)) by (apply filter_In; split; assumption).
  assert (Ib : In b (filter p rows)) by (apply filter_In; split; assumption).
  destruct (filter p rows) as [|x [|y l]]; [contradiction| |reflexivity].
  exfalso. destruct Ia as [<-|[]], Ib as [<-|[]]. apply Hne. reflexivity.
Qed.

(** X17: [full_name] is not unique: when two stored customers have the
    name an order row gives, the build raises MultipleObjectsReturned, and
    so does the upsert of a customer row of that name. *)
Theorem duplicate_customer_name_raises d a b :
  In a (customers d) -> In b (customers d) -> a <> b ->
  cust_full_name a = cust_full_name b ->
  (forall row, or_customer row = cust_full_name a ->
               seed_order row d = Raise (MultipleObjectsReturned "Customer"))
  /\ (forall row, cr_full_name row = cust_full_name a ->
                  seed_customer row d = Raise (MultipleObjectsReturned "Customer")).
Proof.
  intros Ha Hb Hne En. split; intros row Er.
  - unfold seed_order, bind, query.
    rewrite (get_two _ (customers d) a b Ha Hb Hne); [reflexivity| |].
    + rewrite Er. apply String.eqb_refl.
    + rewrite Er, En. apply String.eqb_refl.
  - unfold seed_customer, bind, statement, update_or_create.
    rewrite (get_two _ (customers d) a b Ha Hb Hne); [reflexivity| |].
    + rewrite Er. apply String.eqb_refl.
    + rewrite Er, En. apply String.eqb_refl.
Qed.

Lemma duplicate_customer_name_raises_witness :
  seed_order demo_order_row
    (set_customers [mkCustomer 1 "Ann" "" "" ""; mkCustomer 2 "Ann" "0100" "" ""] demo_db)
  = Raise (MultipleObjectsReturned "Customer").
Proof.
  apply (proj1 (duplicate_customer_name_raises
                  (set_customers [mkCustomer 1 "Ann" "" "" "";
                                  mkCustomer 2 "Ann" "0100" "" ""] demo_db)
                  (mkCustomer 1 "Ann" "" "" "") (mkCustomer 2 "Ann" "0100" "" "")
                  (or_introl eq_refl) (or_intror (or_introl eq_refl))
                  ltac:(discriminate) eq_refl)).
  reflexivity.
Defined.

(** ** The reference step run again *)

Section Upserts.
Context {R Row : Type} `{Model R}.
Variable key : Row -> R -> bool.
Variable upd : Row -> R -> R.
Variable mk : Row -> Z -> R.
Hypothesis key_upd : forall r r' x, key r (upd r' x) = key r x.
Hypothesis pk_upd : forall r x, pk (upd r x) = pk x.
Hypothesis key_mk : forall r i, key r (mk r i) = true.
Hypothesis pk_mk : forall r i, pk (mk r i) = i.
Hypothesis upd_upd : forall r r' x, upd r (upd r' x) = upd r x.
Hypothesis upd_mk : forall r i, upd r (mk r i) = mk r i.
Hypothesis key_same : forall r r' x,
  key r x = true -> key r' x = true -> forall y, key r y = key r' y.

(** One upsert leaves every key that had one row with one row. *)
Lemma step_keeps_found r r0 rows a rows' :
  NoDup (map pk rows) ->
  update_or_create (key r) (upd r) (mk r) rows = Ok (a, rows') ->
  (exists x, filter (key r0) rows = [x]) ->
  exists x, filter (key r0) rows' = [x].
Proof.
  intros Hnd Hstep [x Hx].
  pose proof (update_or_create_get (key r) (upd r) (mk r) rows a rows' Hnd
                (key_upd r r) (pk_upd r) (key_mk r) (pk_mk r) Hstep)
    as (_ & _ & Hcase).
  unfold update_or_create in Hstep.
  destruct Hcase as [(y & Hy & -> & _)|(Hnil & -> & ->)].
  - rewrite Hy in Hstep. inversion Hstep; subst rows'.
    pose proof (get_Ok_In _ _ _ Hy) as [Hyin _].
    exists (if pk x =? pk (upd r y) then upd r y else x).
    unfold update_row. rewrite filter_map_commute_in.
    + rewrite Hx. reflexivity.
    + intros z Hz. destruct (pk z =? pk (upd r y)) eqn:E; [|reflexivity].
      apply Z.eqb_eq in E. rewrite pk_upd in E.
      rewrite (NoDup_pk_eq rows z y Hnd Hz Hyin E). apply key_upd.
  - exists x. unfold insert_row. rewrite filter_app, Hx. simpl.
    destruct (key r0 (mk r (next_pk rows))) eqn:E; [|reflexivity].
    exfalso. pose proof (key_same r0 r _ E (key_mk r _)) as Hsame.
    rewrite (filter_ext _ _ Hsame) in Hx. rewrite Hnil in Hx. discriminate.
Qed.

(** A row that no later fixture row names is a row the store had. *)
Lemma upsert_all_untouched l : forall rows rows1 x,
  upsert_all key upd mk l rows = Ok rows1 ->
  In x rows1 -> (forall r, In r l -> key r x = false) -> In x rows.
Proof.
  induction l as [|r rest IH]; simpl; intros rows rows1 x Hrun Hx Hno.
  - inversion Hrun; subst. exact Hx.
  - destruct (update_or_create (key r) (upd r) (mk r) rows) as [[a rowsA]|e] eqn:Hstep; [|discriminate].
    assert (HxA : In x rowsA).
    { apply (IH rowsA rows1); [exact Hrun|exact Hx|].
      intros r' Hr'. apply Hno. right. exact Hr'. }
    assert (Hk : key r x = false) by (apply Hno; left; reflexivity).
    unfold update_or_create in Hstep.
    destruct (get (key r) rows) as [y|e] eqn:Hg.
    + inversion Hstep; subst a rowsA; clear Hstep.
      unfold update_row in HxA. apply in_map_iff in HxA.
      destruct HxA as (z & Ez & Hz).
      destruct (pk z =? pk (upd r y)); [|subst z; exact Hz].
      exfalso. subst x. rewrite key_upd in Hk.
      apply get_Ok_In in Hg. destruct Hg as [_ Hy]. rewrite Hy in Hk. discriminate.
    + destruct e; inversion Hstep; subst a rowsA; clear Hstep.
      unfold insert_row in HxA. apply in_app_or in HxA.
      destruct HxA as [HxA|[<-|[]]]; [exact HxA|].
      rewrite key_mk in Hk. discriminate.
Qed.

Lemma rewritten_cons r l x :
  rewritten key upd (r :: l) x
  = rewritten key upd l (if key r x then upd r x else x).
Proof. reflexivity. Qed.

Lemma rewritten_key r l x : key r (rewritten key upd l x) = key r x.
Proof.
  revert x. induction l as [|r' l IH]; intros x; [reflexivity|].
  rewrite rewritten_cons, IH. destruct (key r' x); [apply key_upd|reflexivity].
Qed.

Lemma rewritten_pk l x : pk (rewritten key upd l x) = pk x.
Proof.
  revert x. induction l as [|r' l IH]; intros x; [reflexivity|].
  rewrite rewritten_cons, IH. destruct (key r' x); [apply pk_upd|reflexivity].
Qed.

(** A later update of the same row makes an earlier one forgotten. *)
Lemma rewritten_upd l : forall r x,
  rewritten key upd l (upd r x)
  = if existsb (fun r' => key r' x) l then rewritten key upd l x else upd r x.
Proof.
  induction l as [|r' l IH]; intros r x; [reflexivity|].
  rewrite !rewritten_cons. simpl. rewrite key_upd.
  destruct (key r' x) eqn:E; simpl.
  - rewrite upd_upd. reflexivity.
  - apply IH.
Qed.

(** When every fixture row finds a row, the run only updates. *)
Lemma upsert_all_updates l : forall rows,
  NoDup (map pk rows) -> all_found key l rows ->
  upsert_all key upd mk l rows = Ok (map (rewritten key upd l) rows).
Proof.
  induction l as [|r rest IH]; intros rows Hnd Hall.
  - simpl. rewrite map_id. reflexivity.
  - destruct (Hall r (or_introl eq_refl)) as [x Hx].
    assert (Hstep : update_or_create (key r) (upd r) (mk r) rows
                    = Ok (upd r x, map (fun y => if key r y then upd r y else y) rows)).
    { unfold update_or_create. apply get_Ok_filter in Hx. rewrite Hx.
      f_equal. f_equal. unfold update_row. apply map_ext_in. intros y Hy.
      pose proof (get_Ok_In _ _ _ Hx) as [Hxin Hkx].
      rewrite pk_upd. destruct (pk y =? pk x) eqn:E.
      - apply Z.eqb_eq in E. rewrite (NoDup_pk_eq rows y x Hnd Hy Hxin E).
        rewrite Hkx. reflexivity.
      - destruct (key r y) eqn:Ek; [|reflexivity].
        exfalso. apply Z.eqb_neq in E. apply E.
        assert (Hin : In y (filter (key r) rows)) by (apply filter_In; split; assumption).
        apply get_Ok_filter in Hx. rewrite Hx in Hin.
        destruct Hin as [<-|[]]. reflexivity. }
    simpl. rewrite Hstep. rewrite IH.
    + rewrite map_map. reflexivity.
    + rewrite map_map. rewrite (map_ext _ pk); [exact Hnd|].
      intros y. destruct (key r y); [apply pk_upd|reflexivity].
    + intros r' Hr'. destruct (Hall r' (or_intror Hr')) as [x' Hx'].
      exists (if key r x' then upd r x' else x').
      rewrite filter_map_commute.
      * rewrite Hx'. reflexivity.
      * intros y. destruct (key r y); [apply key_upd|reflexivity].
Qed.

(** What a run that returns leaves: distinct keys, a row for every fixture
    row, and rows that the updates of the fixture leave as they are. *)
Lemma upsert_all_settles l : forall rows rows1,
  NoDup (map pk rows) ->
  upsert_all key upd mk l rows = Ok rows1 ->
  NoDup (map pk rows1)
  /\ all_found key l rows1
  /\ (forall r0, (exists x, filter (key r0) rows = [x]) ->
                 exists x, filter (key r0) rows1 = [x])
  /\ forall x, In x rows1 -> rewritten key upd l x = x.
Proof.
  induction l as [|r rest IH]; simpl; intros rows rows1 Hnd Hrun.
  - inversion Hrun; subst. repeat split; try assumption.
    + intros r [].
    + intros r0 Hx. exact Hx.
  - destruct (update_or_create (key r) (upd r) (mk r) rows) as [[a rowsA]|e] eqn:Hstep; [|discriminate].
    pose proof (update_or_create_get (key r) (upd r) (mk r) rows a rowsA Hnd
                  (key_upd r r) (pk_upd r) (key_mk r) (pk_mk r) Hstep)
      as (Hga & HndA & Hcase).
    destruct (IH rowsA rows1 HndA Hrun) as (Hnd1 & Hall1 & Hkeep1 & Hfix1).
    assert (Hfixed : upd r a = a).
    { destruct Hcase as [(y & _ & -> & _)|(_ & -> & _)];
        [apply upd_upd|apply upd_mk]. }
    split; [exact Hnd1|]. split; [|split].
    + intros r' [<-|Hr']; [|apply Hall1; exact Hr'].
      apply Hkeep1. exists a. apply get_Ok_filter. exact Hga.
    + intros r0 Hx. apply Hkeep1.
      exact (step_keeps_found r r0 rows a rowsA Hnd Hstep Hx).
    + intros x Hx.
      change (rewritten key upd rest (if key r x then upd r x else x) = x).
      destruct (key r x) eqn:Ek; [|apply Hfix1; exact Hx].
      rewrite rewritten_upd.
      destruct (existsb (fun r' => key r' x) rest) eqn:Ee; [apply Hfix1; exact Hx|].
      assert (HxA : In x rowsA).
      { apply (upsert_all_untouched rest rowsA rows1); [exact Hrun|exact Hx|].
        intros r' Hr'. destruct (key r' x) eqn:E; [|reflexivity].
        assert (Ht : existsb (fun r' => key r' x) rest = true)
          by (apply existsb_exists; exists r'; split; assumption).
        rewrite Ht in Ee. discriminate. }
      assert (Hin : In x (filter (key r) rowsA)) by (apply filter_In; split; assumption).
      apply get_Ok_filter in Hga. rewrite Hga in Hin.
      destruct Hin as [<-|[]]. exact Hfixed.
Qed.

(** The run on the rows it left returns them. *)
Lemma upsert_all_again l rows rows1 :
  NoDup (map pk rows) ->
  upsert_all key upd mk l rows = Ok rows1 ->
  upsert_all key upd mk l rows1 = Ok rows1.
Proof.
  intros Hnd Hrun.
  destruct (upsert_all_settles l rows rows1 Hnd Hrun) as (Hnd1 & Hall1 & _ & Hfix1).
  rewrite (upsert_all_updates l rows1 Hnd1 Hall1).
  f_equal. rewrite (map_ext_in _ (fun x => x) _ Hfix1). apply map_id.
Qed.

End Upserts.

(** A reference loop is the run of its upserts on its table. *)
Lemma for_each_upsert {R Row : Type} `{Model R} (tbl : DB -> list R)
    (set : list R -> DB -> DB) key upd mk (body : Row -> M unit) :
  (forall d, set (tbl d) d = d) ->
  (forall rows d, tbl (set rows d) = rows) ->
  (forall a b d, set a (set b d) = set a d) ->
  (forall r d, body r d
               = (statement tbl set (update_or_create (key r) (upd r) (mk r)) ;;;
                  ret tt) d) ->
  forall l d,
    for_each l body d
    = match upsert_all key upd mk l (tbl d) with
      | Ok rows => Ok (tt, set rows d)
      | Raise e => Raise e
      end.
Proof.
  intros Hid Hget Hset Hbody. induction l as [|r rest IH]; intros d; simpl.
  - rewrite Hid. reflexivity.
  - unfold bind at 1. rewrite Hbody. unfold bind, statement, ret.
    destruct (update_or_create (key r) (upd r) (mk r) (tbl d)) as [[a rows']|e];
      [|reflexivity].
    rewrite IH, Hget.
    destruct (upsert_all key upd mk rest rows') as [rows|e]; [|reflexivity].
    rewrite Hset. reflexivity.
Qed.

Section ReferenceLoop.
Context {R Row : Type} `{Model R}.
Variable tbl : DB -> list R.
Variable set : list R -> DB -> DB.
Variable key : Row -> R -> bool.
Variable upd : Row -> R -> R.
Variable mk : Row -> Z -> R.
Variable body : Row -> M unit.
Hypothesis set_id : forall d, set (tbl d) d = d.
Hypothesis tbl_set : forall rows d, tbl (set rows d) = rows.
Hypothesis set_set : forall a b d, set a (set b d) = set a d.
Hypothesis body_upsert : forall r d,
  body r d = (statement tbl set (update_or_create (key r) (upd r) (mk r)) ;;; ret tt) d.
Hypothesis key_upd : forall r r' x, key r (upd r' x) = key r x.
Hypothesis pk_upd : forall r x, pk (upd r x) = pk x.
Hypothesis key_mk : forall r i, key r (mk r i) = true.
Hypothesis pk_mk : forall r i, pk (mk r i) = i.
Hypothesis upd_upd : forall r r' x, upd r (upd r' x) = upd r x.
Hypothesis upd_mk : forall r i, upd r (mk r i) = mk r i.
Hypothesis key_same : forall r r' x,
  key r x = true -> key r' x = true -> forall y, key r y = key r' y.

Lemma reference_loop l d d1 :
  NoDup (map pk (tbl d)) ->
  for_each l body d = Ok (tt, d1) ->
  d1 = set (tbl d1) d
  /\ NoDup (map pk (tbl d1))
  /\ all_found key l (tbl d1)
  /\ forall d2, tbl d2 = tbl d1 -> for_each l body d2 = Ok (tt, d2).
Proof.
  intros Hnd Hrun.
  rewrite (for_each_upsert tbl set key upd mk body set_id tbl_set set_set body_upsert)
    in Hrun.
  destruct (upsert_all key upd mk l (tbl d)) as [rows|e] eqn:Hu; [|discriminate].
  inversion Hrun; subst d1; clear Hrun. rewrite tbl_set.
  destruct (upsert_all_settles key upd mk key_upd pk_upd key_mk pk_mk upd_upd upd_mk
              key_same l (tbl d) rows Hnd Hu) as (Hnd1 & Hall & _ & _).
  split; [reflexivity|]. split; [exact Hnd1|]. split; [exact Hall|].
  intros d2 E2.
  rewrite (for_each_upsert tbl set key upd mk body set_id tbl_set set_set body_upsert).
  rewrite E2.
  rewrite (upsert_all_again key upd mk key_upd pk_upd key_mk pk_mk upd_upd upd_mk
             key_same l (tbl d) rows Hnd Hu).
  rewrite <- E2. rewrite set_id. reflexivity.
Qed.

End ReferenceLoop.

Ltac string_keys :=
  intros;
  repeat match goal with
         | H : String.eqb _ _ = true |- _ => apply String.eqb_eq in H
         end;
  try congruence.

Lemma sizes_loop l d d1 :
  NoDup (map pk (sizes d)) -> for_each l seed_size d = Ok (tt, d1) ->
  d1 = set_sizes (sizes d1) d /\ NoDup (map pk (sizes d1))
  /\ all_found size_key l (sizes d1)
  /\ forall d2, sizes d2 = sizes d1 -> for_each l seed_size d2 = Ok (tt, d2).
Proof.
  apply (reference_loop sizes set_sizes size_key size_upd size_mk seed_size);
    try (intros; try match goal with x : DB |- _ => destruct x end; reflexivity).
  - intros r i. apply String.eqb_refl.
  - unfold size_key. string_keys.
Qed.

Lemma fabrics_loop l d d1 :
  NoDup (map pk (fabrics d)) -> for_each l seed_fabric_type d = Ok (tt, d1) ->
  d1 = set_fabrics (fabrics d1) d /\ NoDup (map pk (fabrics d1))
  /\ all_found fabric_key l (fabrics d1)
  /\ forall d2, fabrics d2 = fabrics d1 -> for_each l seed_fabric_type d2 = Ok (tt, d2).
Proof.
  apply (reference_loop fabrics set_fabrics fabric_key fabric_upd fabric_mk
           seed_fabric_type);
    try (intros; try match goal with x : DB |- _ => destruct x end; reflexivity).
  - intros r i. apply String.eqb_refl.
  - unfold fabric_key. string_keys.
Qed.

Lemma prints_loop l d d1 :
  NoDup (map pk (prints d)) -> for_each l seed_print_pattern d = Ok (tt, d1) ->
  d1 = set_prints (prints d1) d /\ NoDup (map pk (prints d1))
  /\ all_found print_key l (prints d1)
  /\ forall d2, prints d2 = prints d1 -> for_each l seed_print_pattern d2 = Ok (tt, d2).
Proof.
  apply (reference_loop prints set_prints print_key print_upd print_mk
           seed_print_pattern);
    try (intros; try match goal with x : DB |- _ => destruct x end; reflexivity).
  - intros r i. apply String.eqb_refl.
  - unfold print_key. string_keys.
Qed.

Lemma locations_loop l d d1 :
  NoDup (map pk (locations d)) -> for_each l seed_location d = Ok (tt, d1) ->
  d1 = set_locations (locations d1) d /\ NoDup (map pk (locations d1))
  /\ all_found location_key l (locations d1)
  /\ forall d2, locations d2 = locations d1 -> for_each l seed_location d2 = Ok (tt, d2).
Proof.
  apply (reference_loop locations set_locations location_key location_upd location_mk
           seed_location);
    try (intros; try match goal with x : DB |- _ => destruct x end; reflexivity).
  - intros r i. apply String.eqb_refl.
  - unfold location_key. string_keys.
Qed.

Lemma statuses_loop l d d1 :
  NoDup (map pk (statuses d)) -> for_each l seed_status d = Ok (tt, d1) ->
  d1 = set_statuses (statuses d1) d /\ NoDup (map pk (statuses d1))
  /\ all_found status_key l (statuses d1)
  /\ forall d2, statuses d2 = statuses d1 -> for_each l seed_status d2 = Ok (tt, d2).
Proof.
  apply (reference_loop statuses set_statuses status_key status_upd status_mk
           seed_status);
    try (intros; try match goal with x : DB |- _ => destruct x end; reflexivity).
  - intros r i. apply String.eqb_refl.
  - unfold status_key. string_keys.
Qed.

Lemma customers_loop l d d1 :
  NoDup (map pk (customers d)) -> for_each l seed_customer d = Ok (tt, d1) ->
  d1 = set_customers (customers d1) d /\ NoDup (map pk (customers d1))
  /\ all_found customer_key l (customers d1)
  /\ forall d2, customers d2 = customers d1 -> for_each l seed_customer d2 = Ok (tt, d2).
Proof.
  apply (reference_loop customers set_customers customer_key customer_upd customer_mk
           seed_customer);
    try (intros; try match goal with x : DB |- _ => destruct x end; reflexivity).
  - intros r i. apply String.eqb_refl.
  - unfold customer_key. string_keys.
Qed.

Lemma etypes_loop l d d1 :
  NoDup (map pk (expense_types d)) -> for_each l seed_expense_type d = Ok (tt, d1) ->
  d1 = set_expense_types (expense_types d1) d /\ NoDup (map pk (expense_types d1))
  /\ all_found etype_key l (expense_types d1)
  /\ forall d2, expense_types d2 = expense_types d1 ->
                for_each l seed_expense_type d2 = Ok (tt, d2).
Proof.
  apply (reference_loop expense_types set_expense_types etype_key etype_upd etype_mk
           seed_expense_type);
    try (intros; try match goal with x : DB |- _ => destruct x end; reflexivity).
  - intros r i. apply String.eqb_refl.
  - unfold etype_key. string_keys.
Qed.

(** The seven loops of [_seed_reference], one after the other. *)
Lemma _seed_reference_loops data d d1 :
  reference_keys_distinct d ->
  _seed_reference data d = Ok (tt, d1) ->
  reference_keys_distinct d1
  /\ all_found size_key (product_sizes data) (sizes d1)
  /\ all_found fabric_key (fabric_types data) (fabrics d1)
  /\ all_found print_key (print_patterns data) (prints d1)
  /\ all_found location_key (inventory_locations data) (locations d1)
  /\ all_found status_key (order_statuses data) (statuses d1)
  /\ all_found customer_key (data_customers data) (customers d1)
  /\ all_found etype_key (data_expense_types data) (expense_types d1)
  /\ _seed_reference data d1 = Ok (tt, d1).
Proof.
  intros (N1 & N2 & N3 & N4 & N5 & N6 & N7) H. unfold _seed_reference in H.
  run_inv H. destruct a, a0, a1, a2, a3, a4.
  rename d0 into e1, d2 into e2, d3 into e3, d4 into e4, d5 into e5, d6 into e6.
  destruct (sizes_loop _ _ _ N1 Hrun) as (F1 & M1 & A1 & R1).
  assert (N2' : NoDup (map pk (fabrics e1))) by (rewrite F1; exact N2).
  destruct (fabrics_loop _ _ _ N2' Hrun0) as (F2 & M2 & A2 & R2).
  assert (N3' : NoDup (map pk (prints e2))) by (rewrite F2, F1; exact N3).
  destruct (prints_loop _ _ _ N3' Hrun1) as (F3 & M3 & A3 & R3).
  assert (N4' : NoDup (map pk (locations e3))) by (rewrite F3, F2, F1; exact N4).
  destruct (locations_loop _ _ _ N4' Hrun2) as (F4 & M4 & A4 & R4).
  assert (N5' : NoDup (map pk (statuses e4))) by (rewrite F4, F3, F2, F1; exact N5).
  destruct (statuses_loop _ _ _ N5' Hrun3) as (F5 & M5 & A5 & R5).
  assert (N6' : NoDup (map pk (customers e5)))
    by (rewrite F5, F4, F3, F2, F1; exact N6).
  destruct (customers_loop _ _ _ N6' Hrun4) as (F6 & M6 & A6 & R6).
  assert (N7' : NoDup (map pk (expense_types e6)))
    by (rewrite F6, F5, F4, F3, F2, F1; exact N7).
  destruct (etypes_loop _ _ _ N7' H) as (F7 & M7 & A7 & R7).
  assert (E1 : sizes d1 = sizes e1) by (rewrite F7, F6, F5, F4, F3, F2; reflexivity).
  assert (E2 : fabrics d1 = fabrics e2) by (rewrite F7, F6, F5, F4, F3; reflexivity).
  assert (E3 : prints d1 = prints e3) by (rewrite F7, F6, F5, F4; reflexivity).
  assert (E4 : locations d1 = locations e4) by (rewrite F7, F6, F5; reflexivity).
  assert (E5 : statuses d1 = statuses e5) by (rewrite F7, F6; reflexivity).
  assert (E6 : customers d1 = customers e6) by (rewrite F7; reflexivity).
  unfold reference_keys_distinct. rewrite E1, E2, E3, E4, E5, E6.
  repeat match goal with |- _ /\ _ => split end; try assumption.
  unfold _seed_reference, bind.
  rewrite (R1 d1 E1), (R2 d1 E2), (R3 d1 E3), (R4 d1 E4), (R5 d1 E5), (R6 d1 E6).
  apply R7. reflexivity.
Qed.

(** X18: after [_seed_reference] on a store whose primary keys are
    distinct, every name of the reference rows of the fixture resolves:
    the look-up of each size code, fabric name, print pattern name,
    location name, status code, customer name and expense type name finds
    one row. *)
Theorem _seed_reference_names_resolve data d d1 :
  reference_keys_distinct d ->
  _seed_reference data d = Ok (tt, d1) ->
  (forall row, In row (product_sizes data) ->
               exists s, _get_size (szr_code row) d1 = Ok (s, d1))
  /\ (forall row, In row (fabric_types data) ->
                  exists f, _get_fabric (fr_name row) d1 = Ok (f, d1))
  /\ (forall row, In row (print_patterns data) ->
                  exists p, _get_print (Some (fr_name row)) d1 = Ok (Some p, d1))
  /\ (forall name, In name (inventory_locations data) ->
                   exists l, _get_location name d1 = Ok (l, d1))
  /\ (forall row, In row (order_statuses data) ->
                  exists s, get (fun s => String.eqb (status_code s) (str_code row))
                                (statuses d1) = Ok s)
  /\ (forall row, In row (data_customers data) ->
                  exists c, get (fun c => String.eqb (cust_full_name c) (cr_full_name row))
                                (customers d1) = Ok c)
  /\ (forall name, In name (data_expense_types data) ->
                   exists t, get (fun t => String.eqb (etype_name t) name)
                                 (expense_types d1) = Ok t).
Proof.
  intros Hd H.
  destruct (_seed_reference_loops data d d1 Hd H)
    as (_ & A1 & A2 & A3 & A4 & A5 & A6 & A7 & _).
  repeat match goal with |- _ /\ _ => split end.
  - intros row Hr. destruct (A1 row Hr) as [x Hx]. exists x.
    unfold _get_size. apply query_run. apply get_Ok_filter. exact Hx.
  - intros row Hr. destruct (A2 row Hr) as [x Hx]. exists x.
    unfold _get_fabric. apply query_run. apply get_Ok_filter. exact Hx.
  - intros row Hr. destruct (A3 row Hr) as [x Hx]. exists x.
    simpl. unfold bind. rewrite (query_run prints _ d1 x); [reflexivity|].
    apply get_Ok_filter. exact Hx.
  - intros name Hr. destruct (A4 name Hr) as [x Hx]. exists x.
    unfold _get_location. apply query_run. apply get_Ok_filter. exact Hx.
  - intros row Hr. destruct (A5 row Hr) as [x Hx]. exists x.
    apply get_Ok_filter. exact Hx.
  - intros row Hr. destruct (A6 row Hr) as [x Hx]. exists x.
    apply get_Ok_filter. exact Hx.
  - intros name Hr. destruct (A7 name Hr) as [x Hx]. exists x.
    apply get_Ok_filter. exact Hx.
Qed.

(** X19: the reference step is idempotent: run again on the store it
    left, with the same fixture, it returns and leaves that store as it
    is, whatever rows the fixture repeats; the primary keys of the store
    the first run started from are distinct. *)
Theorem _seed_reference_again data d d1 :
  reference_keys_distinct d ->
  _seed_reference data d = Ok (tt, d1) ->
  _seed_reference data d1 = Ok (tt, d1) /\ reference_keys_distinct d1.
Proof.
  intros Hd H.
  destruct (_seed_reference_loops data d d1 Hd H)
    as (Hd1 & _ & _ & _ & _ & _ & _ & _ & Hagain).
  split; assumption.
Qed.

Lemma empty_db_keys_distinct : reference_keys_distinct empty_db.
Proof. unfold reference_keys_distinct. simpl. repeat split; constructor. Qed.

Lemma _seed_reference_names_resolve_witness :
  _seed_reference demo_reference_data empty_db = Ok (tt, demo_reference_db)
  /\ exists s, _get_size "STD" demo_reference_db = Ok (s, demo_reference_db).
Proof.
  split; [reflexivity|].
  destruct (_seed_reference_names_resolve demo_reference_data empty_db
              demo_reference_db empty_db_keys_distinct eq_refl) as (Hs & _).
  apply (Hs (mkSizeRow "STD" (Some "Standard"))). simpl. left. reflexivity.
Defined.

Lemma _seed_reference_again_witness :
  _seed_reference demo_reference_data empty_db = Ok (tt, demo_reference_db)
  /\ _seed_reference demo_reference_data demo_reference_db = Ok (tt, demo_reference_db).
Proof.
  split; [reflexivity|].
  apply (_seed_reference_again demo_reference_data empty_db demo_reference_db
           empty_db_keys_distinct eq_refl).
Defined.
